(** * EC2 user-data bootstrap script (user_data.py): model and properties

    The script fetches a catalog of scripts, materialises every requested
    alias as a local shell artifact, runs it with its parameters and
    accumulates a status report.  The model below follows the Python text
    function by function, under the names of the source.

    - Everything outside the process is a field of the record [World]:
      HTTP, the JSON parser, child processes, the wall clock, the metadata
      service and the webhook.  Calls are indexed by a clock that advances
      with every call, so a request may be answered differently each time.
    - The Python globals are the fields of [State]: the status report,
      [os.environ], the files the script writes (a map from path to
      content), and a log of what the process did to the outside.  The
      functions run in a state-and-exception monad; [try]/[except] is
      [try_except].
    - File operations succeed in the functions named as in the source;
      the functions named [_io] are the same text with file operations
      that can fail ([Faults]), for the properties that depend on where
      such a failure is caught.
    - Values parsed from JSON keep their dynamic type ([pyval]); an
      operation applied to the wrong type raises, as in Python.
    - The argument-parsing preamble is shell text; its function
      [parse_parameters] is modelled in [Bash] by what bash does with it on
      an argument vector, in a shell ([Bash.Shell]) that answers for the
      external [tr] and for the names bash does not bind.
    - Text is [string], one [ascii] per character, which is exact for
      ASCII text.  [print] and the log file are left out.

    The file has three parts: the model, the vocabulary of the statements
    with a small world to run the model in, and the properties. *)

From Stdlib Require Import ZArith Ascii String List Lia Bool.
From stdpp Require Import base option list gmap strings pretty.

Local Open Scope Z_scope.

(** ** Python string primitives used by the script *)

Module Py.

Definition nl : ascii := "010"%char.
Definition cr : ascii := "013"%char.
Definition dq : ascii := "034"%char.

Definition chr (c : ascii) : string := String c EmptyString.

(** [bool(s)] for a [str]. *)
Definition nonempty (s : string) : bool :=
  match s with EmptyString => false | String _ _ => true end.

(** [s.startswith(p)] *)
Fixpoint startswith (p s : string) : bool :=
  match p, s with
  | EmptyString, _ => true
  | String a p', String b s' => if decide (a = b) then startswith p' s' else false
  | String _ _, EmptyString => false
  end.

(** [needle in s] for two strings. *)
Fixpoint contains (needle s : string) : bool :=
  startswith needle s ||
  match s with
  | EmptyString => false
  | String _ s' => contains needle s'
  end.

(** [c in s] for a single character. *)
Fixpoint has_char (c : ascii) (s : string) : bool :=
  match s with
  | EmptyString => false
  | String a s' => if decide (a = c) then true else has_char c s'
  end.

(** [s.replace(old, new)]: leftmost, non-overlapping occurrences.  [skip]
    counts the characters of a matched occurrence still to be dropped. *)
Fixpoint replace_go (old new : string) (skip : nat) (s : string) : string :=
  match s with
  | EmptyString => EmptyString
  | String c s' =>
      match skip with
      | S k => replace_go old new k s'
      | O =>
          if startswith old s
          then new +:+ replace_go old new (Nat.pred (String.length old)) s'
          else String c (replace_go old new O s')
      end
  end.

Fixpoint replace_empty (new s : string) : string :=
  match s with
  | EmptyString => new
  | String c s' => new +:+ String c (replace_empty new s')
  end.

Definition replace (old new s : string) : string :=
  match old with
  | EmptyString => replace_empty new s
  | String _ _ => replace_go old new O s
  end.

(** [s.split(sep)] for a one-character separator. *)
Fixpoint split (sep : ascii) (s : string) : list string :=
  match s with
  | EmptyString => [EmptyString]
  | String c s' =>
      if decide (c = sep) then EmptyString :: split sep s'
      else match split sep s' with
           | h :: t => String c h :: t
           | [] => [chr c]
           end
  end.

(** [s.split(sep, 1)] for a one-character separator. *)
Fixpoint split_once (sep : ascii) (s : string) : list string :=
  match s with
  | EmptyString => [EmptyString]
  | String c s' =>
      if decide (c = sep) then [EmptyString; s']
      else match split_once sep s' with
           | h :: t => String c h :: t
           | [] => [chr c]
           end
  end.

(** [sep.join(l)] *)
Fixpoint join (sep : string) (l : list string) : string :=
  match l with
  | [] => EmptyString
  | [x] => x
  | x :: xs => x +:+ sep +:+ join sep xs
  end.

(** Whitespace as [str.split()] and [str.strip()] see it (ASCII range). *)
Definition isspace (c : ascii) : bool :=
  match c with
  | "009" | "010" | "011" | "012" | "013" | "028" | "029" | "030" | "031"
  | " " => true
  | _ => false
  end%char.

(** [s.split()] *)
Fixpoint split_ws (s : string) : list string :=
  match s with
  | EmptyString => []
  | String c s' =>
      if isspace c then split_ws s'
      else match s' with
           | EmptyString => [chr c]
           | String c' _ =>
               if isspace c' then chr c :: split_ws s'
               else match split_ws s' with
                    | h :: t => String c h :: t
                    | [] => [chr c]
                    end
           end
  end.

Fixpoint lstrip (s : string) : string :=
  match s with
  | EmptyString => EmptyString
  | String c s' => if isspace c then lstrip s' else s
  end.

Fixpoint rstrip (s : string) : string :=
  match s with
  | EmptyString => EmptyString
  | String c s' =>
      match rstrip s' with
      | EmptyString => if isspace c then EmptyString else chr c
      | r => String c r
      end
  end.

(** [s.strip()] *)
Definition strip (s : string) : string := rstrip (lstrip s).

Definition lower_char (c : ascii) : ascii :=
  let n := nat_of_ascii c in
  if (Nat.leb 65 n && Nat.leb n 90)%bool then ascii_of_nat (n + 32) else c.

Definition upper_char (c : ascii) : ascii :=
  let n := nat_of_ascii c in
  if (Nat.leb 97 n && Nat.leb n 122)%bool then ascii_of_nat (n - 32) else c.

Fixpoint map_chars (f : ascii -> ascii) (s : string) : string :=
  match s with
  | EmptyString => EmptyString
  | String c s' => String (f c) (map_chars f s')
  end.

(** [s.lower()] *)
Definition lower : string -> string := map_chars lower_char.

(** Reading a text file opened with the default [newline=None]: every
    carriage return, and every carriage return followed by a line feed,
    becomes one line feed. *)
Fixpoint translate_newlines (s : string) : string :=
  match s with
  | EmptyString => EmptyString
  | String c s' =>
      if decide (c = cr)
      then String nl
             match s' with
             | String c2 s'' =>
                 if decide (c2 = nl) then translate_newlines s''
                 else translate_newlines s'
             | EmptyString => EmptyString
             end
      else String c (translate_newlines s')
  end.

(** [f.readlines()] on translated text: lines keep their terminator. *)
Fixpoint readlines (s : string) : list string :=
  match s with
  | EmptyString => []
  | String c s' =>
      if decide (c = nl) then chr nl :: readlines s'
      else match readlines s' with
           | [] => [chr c]
           | l :: ls => String c l :: ls
           end
  end.

End Py.

(** ** Values, records and the process state *)

(** Python values as [json.loads] produces them.  A float carries its
    truth value and its [str()] rendering; a dict is the list of its items
    in insertion order (keys of a Python dict are unique). *)
#[warnings="-register-all"]
Inductive pyval : Type :=
| PNone
| PBool (b : bool)
| PInt (z : Z)
| PFloat (nonzero : bool) (rendering : string)
| PStr (s : string)
| PList (l : list pyval)
| PDict (d : list (string * pyval)).

(** Outcome of a Python expression or call: a value or a raised
    exception, kept as its [str(e)] message. *)
Inductive Result (A : Type) : Type :=
| Ok (a : A)
| Raise (msg : string).
Arguments Ok {A} a.
Arguments Raise {A} msg.

(** Entries of [script_status_report["scripts"]] and the [init_script]
    entry: the dict literal with [exit_code] and [output], or the one with
    [error]. *)
Inductive ScriptRecord : Type :=
| Executed (status : string) (exit_code : Z) (output start_time end_time : string)
| Errored (status : string) (error start_time end_time : string).

Definition status (r : ScriptRecord) : string :=
  match r with
  | Executed st _ _ _ _ => st
  | Errored st _ _ _ => st
  end.

(** [script_status_report] *)
Record StatusReport : Type := mkReport {
  timestamp : string;
  instance_name : string;
  scripts : gmap string ScriptRecord;
  repository_status : option string;
  init_script : option ScriptRecord
}.

(** [final_report]: the report with the three identity fields added. *)
Record FinalReport : Type := mkFinal {
  base : StatusReport;
  instance_id : string;
  private_ip : string;
  public_ip : string
}.

(** The command-line arguments ([args]). *)
Record Args : Type := mkArgs {
  arg_instance_name : string;
  arg_environment : string;
  scripts_repository_url : string;
  script_aliases : string;
  script_parameters : string;
  webhook_url : string;
  init_script_content : string
}.

(** Who called [run_command]: a label kept in the event log only. *)
Inductive Caller : Type :=
| Startup
| ForAlias (alias : string)
| ForInit.

(** What the process does to the outside, in the order it happens. *)
Inductive Event : Type :=
| EvUrlopen (url : string)
| EvWrite (path content : string)
| EvChmod (path : string) (mode : Z)
| EvRun (who : Caller) (cmd : string) (env : gmap string string)
| EvPost (url body : string).

(** The world outside the process.  Every call is indexed by the process
    clock, so that the same request may be answered differently at
    different times. *)
Record World : Type := mkWorld {
  (** [urllib.request.urlopen(url)] then [read().decode('utf-8')] *)
  urlopen : nat -> string -> Result string;
  (** [json.loads]; [None] stands for [JSONDecodeError] *)
  json_loads : string -> option pyval;
  (** [subprocess.run(cmd, shell=True, ...)]: stdout, stderr, return code,
      given the environment and the files present *)
  subprocess_run :
    nat -> string -> gmap string string -> gmap string string ->
    Result (string * string * Z);
  (** [datetime.datetime.utcnow().strftime("%Y-%m-%dT%H:%M:%SZ")] *)
  utcnow : nat -> string;
  (** [str()] of a list or a dict *)
  str_container : pyval -> string;
  (** the IMDSv2 token request *)
  imds_token : nat -> Result string;
  (** one metadata field, given the token *)
  imds_field : nat -> string -> string -> Result string;
  (** [json.dumps(final_report)] *)
  json_dumps : FinalReport -> string;
  (** the POST to the webhook, answering the response body *)
  http_post : nat -> string -> string -> Result string
}.

(** The mutable globals of the process. *)
Record State : Type := mkState {
  script_status_report : StatusReport;
  environ : gmap string string;
  files : gmap string string;
  events : list Event;
  clock : nat
}.

Definition set_report (f : StatusReport -> StatusReport) (s : State) : State :=
  mkState (f (script_status_report s)) (environ s) (files s) (events s) (clock s).
Definition set_environ (f : gmap string string -> gmap string string) (s : State) : State :=
  mkState (script_status_report s) (f (environ s)) (files s) (events s) (clock s).
Definition set_files (f : gmap string string -> gmap string string) (s : State) : State :=
  mkState (script_status_report s) (environ s) (f (files s)) (events s) (clock s).
Definition log_event (e : Event) (s : State) : State :=
  mkState (script_status_report s) (environ s) (files s) (events s ++ [e]) (clock s).
Definition advance (s : State) : State :=
  mkState (script_status_report s) (environ s) (files s) (events s) (S (clock s)).

(** ** The state-and-exception monad *)

Definition M (A : Type) : Type := State -> Result A * State.

Definition ret {A} (a : A) : M A := fun s => (Ok a, s).
Definition raise {A} (msg : string) : M A := fun s => (Raise msg, s).
Definition bind {A B} (m : M A) (k : A -> M B) : M B :=
  fun s =>
    match m s with
    | (Ok a, s') => k a s'
    | (Raise e, s') => (Raise e, s')
    end.
(** [try: m  except Exception as e: h e] *)
Definition try_except {A} (m : M A) (h : string -> M A) : M A :=
  fun s =>
    match m s with
    | (Ok a, s') => (Ok a, s')
    | (Raise e, s') => h e s'
    end.
Definition lift {A} (r : Result A) : M A := fun s => (r, s).
Definition modify (f : State -> State) : M unit := fun s => (Ok tt, f s).
Definition gets {A} (f : State -> A) : M A := fun s => (Ok (f s), s).

Notation "'let*' x ':=' m 'in' k" := (bind m (fun x => k))
  (at level 10, x pattern, m at level 100, k at level 200).
Notation "m ';;;' k" := (bind m (fun _ => k))
  (at level 100, k at level 200, right associativity).

(** [for x in l: body x] *)
Fixpoint for_each {A} (l : list A) (body : A -> M unit) : M unit :=
  match l with
  | [] => ret tt
  | x :: xs => body x ;;; for_each xs body
  end.

(** ** Dynamic typing: the operations the script applies to parsed JSON *)

(** [bool(v)] *)
Definition truthy (v : pyval) : bool :=
  match v with
  | PNone => false
  | PBool b => b
  | PInt z => negb (z =? 0)
  | PFloat nz _ => nz
  | PStr s => Py.nonempty s
  | PList l => match l with [] => false | _ :: _ => true end
  | PDict d => match d with [] => false | _ :: _ => true end
  end.

Definition type_name (v : pyval) : string :=
  match v with
  | PNone => "NoneType"
  | PBool _ => "bool"
  | PInt _ => "int"
  | PFloat _ _ => "float"
  | PStr _ => "str"
  | PList _ => "list"
  | PDict _ => "dict"
  end.

Definition attribute_error (v : pyval) (attr : string) : string :=
  "'" +:+ type_name v +:+ "' object has no attribute '" +:+ attr +:+ "'".

(** Lookup in the items of a dict. *)
Fixpoint assoc (k : string) (d : list (string * pyval)) : option pyval :=
  match d with
  | [] => None
  | (k', v) :: d' => if decide (k' = k) then Some v else assoc k d'
  end.

(** [v.get(k, dflt)]; [v.get(k)] is [py_get v k PNone]. *)
Definition py_get (v : pyval) (k : string) (dflt : pyval) : Result pyval :=
  match v with
  | PDict d => Ok (default dflt (assoc k d))
  | _ => Raise (attribute_error v "get")
  end.

Definition is_str (s : string) (v : pyval) : bool :=
  match v with
  | PStr s' => bool_decide (s' = s)
  | _ => false
  end.

(** [needle in v] *)
Definition py_in (needle : string) (v : pyval) : Result bool :=
  match v with
  | PStr s => Ok (Py.contains needle s)
  | PList l => Ok (existsb (is_str needle) l)
  | PDict d => Ok (bool_decide (is_Some (assoc needle d)))
  | _ => Raise ("argument of type '" +:+ type_name v +:+ "' is not iterable")
  end.

Section Program.

Context (w : World).

(** [str(v)] *)
Definition py_str (v : pyval) : string :=
  match v with
  | PNone => "None"
  | PBool true => "True"
  | PBool false => "False"
  | PInt z => pretty z
  | PFloat _ r => r
  | PStr s => s
  | PList _ | PDict _ => str_container w v
  end.

(** ** Primitive effects *)

(** [datetime.datetime.utcnow().strftime(...)] *)
Definition now : M string :=
  fun s => (Ok (utcnow w (clock s)), advance s).

(** [with open(path, "w") as f: f.write(content)] *)
Definition write_file (path content : string) : M unit :=
  modify (fun s => log_event (EvWrite path content) (set_files <[path := content]> s)).

(** [with open(path, "r") as f: f.readlines()] *)
Definition read_lines (path : string) : M (list string) :=
  fun s =>
    match files s !! path with
    | Some content => (Ok (Py.readlines (Py.translate_newlines content)), s)
    | None => (Raise ("[Errno 2] No such file or directory: '" +:+ path +:+ "'"), s)
    end.

(** [os.chmod(path, mode)] *)
Definition chmod (path : string) (mode : Z) : M unit :=
  modify (log_event (EvChmod path mode)).

(** [os.environ[name] = value]: [putenv] refuses an empty name, a name
    with an equals sign, and a NUL in either string. *)
Definition environ_setitem (name value : string) : M unit :=
  if Py.has_char "000"%char name || Py.has_char "000"%char value
  then raise "embedded null byte"
  else if negb (Py.nonempty name) || Py.has_char "="%char name
  then raise "illegal environment variable name"
  else modify (set_environ <[name := value]>).

(** [with urllib.request.urlopen(url) as response:
       response.read().decode('utf-8')] *)
Definition fetch (url : pyval) : M string :=
  match url with
  | PStr u =>
      fun s => (urlopen w (clock s) u, advance (log_event (EvUrlopen u) s))
  | _ => raise (attribute_error url "timeout")
  end.

(** ** [run_command] *)

(** The [try ... except Exception as e: return "", str(e), 1] around
    [subprocess.run]. *)
Definition run_result (t : nat) (command : string)
  (env files : gmap string string) : string * string * Z :=
  match subprocess_run w t command env files with
  | Ok r => r
  | Raise e => (EmptyString, e, 1)
  end.

Definition run_command (who : Caller) (command : string) : M (string * string * Z) :=
  fun s =>
    (Ok (run_result (clock s) command (environ s) (files s)),
     advance (log_event (EvRun who command (environ s)) s)).

(** ** [download_repository] *)

Definition set_repository_status (v : string) : M unit :=
  modify (set_report (fun r =>
    mkReport (timestamp r) (instance_name r) (scripts r) (Some v) (init_script r))).

Definition download_repository (url : string) : M pyval :=
  try_except
    (let* content := fetch (PStr url) in
     write_file "/tmp/scripts/repository.json" content ;;;
     set_repository_status "success" ;;;
     match json_loads w content with
     | Some v => ret v
     | None => set_repository_status "failed" ;;; ret PNone
     end)
    (fun _ => set_repository_status "failed" ;;; ret PNone).

(** ** [download_script] *)

(** The preamble, line by line; [~] stands for the double quote. *)
Definition param_helper_lines : list string := [
    "#!/bin/bash";
    "# Parameter parsing helper";
    "parse_parameters() {";
    "    # Initialize variables to default values";
    "    local params=()";
    "    ";
    "    # Loop through all command line arguments";
    "    while [[ $# -gt 0 ]]; do";
    "        key=~$1~";
    "        case $key in";
    "            --*) # Handle parameters in format --param-name value";
    "                param_name=~${key#--}~  # Remove -- prefix";
    "                param_name=~${param_name//-/_}~  # Convert hyphens to underscores";
    "                param_name=$(echo ~$param_name~ | tr '[:lower:]' '[:upper:]')  # Convert to uppercase";
    "                if [[ -z ~$2~ || ~$2~ == --* ]]; then";
    "                    # Parameter with no value (flag)";
    "                    declare -g ~$param_name~=~true~";
    "                else";
    "                    # Parameter with value";
    "                    declare -g ~$param_name~=~$2~";
    "                    shift  # Extra shift for the value";
    "                fi";
    "                ;;";
    "            *) # Collect positional parameters";
    "                params+=(~$1~)";
    "                ;;";
    "        esac";
    "        shift";
    "    done";
    "    ";
    "    # Make positional parameters available as PARAM1, PARAM2, etc.";
    "    for i in ~${!params[@]}~; do";
    "        declare -g ~PARAM$((i+1))~=~${params[$i]}~";
    "    done";
    "    ";
    "    # For backward compatibility";
    "    # If environment variables are set but not command line parameters, we still want to use them";
    "    # This enables both styles of passing parameters";
    "}";
    EmptyString;
    "# Parse parameters automatically";
    "parse_parameters ~$@~";
    EmptyString;
    "# Original script follows"
  ].

Definition tilde_to_dq (c : ascii) : ascii :=
  if decide (c = "~"%char) then Py.dq else c.

(** Every line of the literal ends with a line feed. *)
Fixpoint unlines (l : list string) : string :=
  match l with
  | [] => EmptyString
  | x :: xs => x +:+ String Py.nl (unlines xs)
  end.

Definition param_helper : string :=
  Py.map_chars tilde_to_dq (unlines param_helper_lines).

Definition script_path (alias : string) : string :=
  "/tmp/scripts/" +:+ alias +:+ ".sh".

(** The text written to the artifact (the [with open(script_file, "w")]
    block): [IndexError] if an indexed list is too short. *)
Definition artifact_text (script_content : string) : Result string :=
  if Py.startswith "#!" script_content then
    match Py.split Py.nl script_content with
    | shebang_line :: rest_lines =>
        let rest_of_script := Py.join (Py.chr Py.nl) rest_lines in
        match Py.split_once Py.nl param_helper with
        | _ :: param_helper_without_shebang :: _ =>
            Ok (shebang_line +:+ Py.chr Py.nl +:+
                param_helper_without_shebang +:+ rest_of_script)
        | _ => Raise "list index out of range"
        end
    | [] => Raise "list index out of range"
    end
  else Ok (param_helper +:+ script_content).

(** The [try ... except Exception as e: print(...); raise] wrapper only
    logs, so the body is the whole behaviour. *)
Definition download_script (alias : string) (script_url : pyval) : M string :=
  let script_file := script_path alias in
  let* script_content := fetch script_url in
  let* text := lift (artifact_text script_content) in
  write_file script_file text ;;;
  chmod script_file 493 ;;;
  ret script_file.

(** ** [execute_script] *)

(** [f" --{param_name_kebab}=\"{param_value}\""] *)
Definition flag_token (param_name : string) (param_value : pyval) : string :=
  " --" +:+ Py.replace "_" "-" (Py.lower param_name) +:+ "=" +:+
  Py.chr Py.dq +:+ py_str param_value +:+ Py.chr Py.dq.

(** The [for param_name, param_value in params_map.items()] loop;
    [param_args] is the accumulator of the same name. *)
Fixpoint bind_parameters (items : list (string * pyval)) (param_args : string)
  : M string :=
  match items with
  | [] => ret param_args
  | (param_name, param_value) :: rest =>
      environ_setitem param_name (py_str param_value) ;;;
      bind_parameters rest (param_args +:+ flag_token param_name param_value)
  end.

Definition output_path (alias : string) : string :=
  "/tmp/scripts/" +:+ alias +:+ "_output.txt".

(** What ends up in the output file: stdout, then the delimited stderr
    section when stderr is not empty. *)
Definition output_text (stdout stderr : string) : string :=
  if Py.nonempty stderr
  then stdout +:+ String Py.nl (String Py.nl ("STDERR:" +:+ String Py.nl stderr))
  else stdout.

(** Write the output file, read it back, keep [readlines()[:20]] joined.
    [execute_script] and the init-script block share these lines. *)
Definition capture_output (path stdout stderr : string) : M string :=
  write_file path (output_text stdout stderr) ;;;
  let* lines := read_lines path in
  ret (Py.join EmptyString (take 20 lines)).

Definition execute_script (alias script_file : string) (params_map : pyval)
  : M (Z * string) :=
  let* items :=
    match params_map with
    | PDict d => ret d
    | _ => raise (attribute_error params_map "items")
    end in
  let* param_args := bind_parameters items EmptyString in
  let cmd := script_file +:+ param_args in
  let* (out, exit_code) := run_command (ForAlias alias) cmd in
  let* script_output := capture_output (output_path alias) (fst out) (snd out) in
  ret (exit_code, script_output).

(** ** [download_and_execute_scripts] *)

Definition set_script_record (alias : string) (r : ScriptRecord) : M unit :=
  modify (set_report (fun rep =>
    mkReport (timestamp rep) (instance_name rep) (<[alias := r]> (scripts rep))
             (repository_status rep) (init_script rep))).

(** Lines 333-336: the GitHub page to raw-content rewrite. *)
Definition github_to_raw (url : string) : string :=
  Py.replace "/blob/" "/" (Py.replace "github.com" "raw.githubusercontent.com" url).

Definition convert_github_url (script_url : pyval) : Result pyval :=
  if negb (truthy script_url) then Ok script_url
  else match py_in "github.com" script_url with
       | Raise e => Raise e
       | Ok false => Ok script_url
       | Ok true =>
           match py_in "raw.githubusercontent.com" script_url with
           | Raise e => Raise e
           | Ok true => Ok script_url
           | Ok false =>
               match script_url with
               | PStr u => Ok (PStr (github_to_raw u))
               | _ => Raise (attribute_error script_url "split")
               end
           end
       end.

Definition status_of_exit_code (exit_code : Z) : string :=
  if decide (exit_code = 0) then "success" else "failed".

(** The body of [for alias in aliases]. *)
Definition process_alias (repository script_parameters : pyval) (alias : string)
  : M unit :=
  let* start_time := now in
  try_except
    (let* script_url := lift (py_get repository alias PNone) in
     let* script_url := lift (convert_github_url script_url) in
     if negb (truthy script_url) then
       let* end_time := now in
       set_script_record alias
         (Errored "error" "No URL found for alias" start_time end_time)
     else
       let* script_file := download_script alias script_url in
       let* script_params_map := lift (py_get script_parameters alias (PDict [])) in
       let* (exit_code, script_output) :=
         execute_script alias script_file script_params_map in
       let* end_time := now in
       set_script_record alias
         (Executed (status_of_exit_code exit_code) exit_code script_output
                   start_time end_time))
    (fun e =>
       let* end_time := now in
       set_script_record alias (Errored "error" e start_time end_time)).

Definition download_and_execute_scripts (args : Args) : M unit :=
  if negb (Py.nonempty (scripts_repository_url args)) then ret tt
  else if negb (Py.nonempty (script_aliases args)) then ret tt
  else
    let* repository := download_repository (scripts_repository_url args) in
    if negb (truthy repository) then ret tt
    else
      let script_parameters :=
        match json_loads w (script_parameters args) with
        | Some v => v
        | None => PDict []
        end in
      for_each (Py.split_ws (script_aliases args))
               (process_alias repository script_parameters).

(** ** The init-script block *)

Definition set_init_script (r : ScriptRecord) : M unit :=
  modify (set_report (fun rep =>
    mkReport (timestamp rep) (instance_name rep) (scripts rep)
             (repository_status rep) (Some r))).

Definition run_init_script (args : Args) : M unit :=
  if Py.nonempty (Py.strip (init_script_content args)) then
    write_file "/tmp/custom_init.sh" (init_script_content args) ;;;
    chmod "/tmp/custom_init.sh" 493 ;;;
    let* init_start_time := now in
    let* (out, init_exit_code) := run_command ForInit "/tmp/custom_init.sh" in
    let* init_end_time := now in
    let* init_output :=
      capture_output "/tmp/init_script_output.txt" (fst out) (snd out) in
    set_init_script
      (Executed (status_of_exit_code init_exit_code) init_exit_code init_output
                init_start_time init_end_time)
  else ret tt.

(** ** [send_status_report] *)

Definition get_instance_metadata (field token : string) : M string :=
  fun s =>
    (Ok match imds_field w (clock s) field token with
        | Ok v => v
        | Raise _ => if decide (field = "public-ipv4") then "N/A" else "unknown"
        end,
     advance s).

Definition send_status_report (args : Args) : M unit :=
  if negb (Py.nonempty (webhook_url args)) then ret tt
  else
    try_except
      (let* token := (fun s => (imds_token w (clock s), advance s)) in
       let* instance_id := get_instance_metadata "instance-id" token in
       let* private_ip := get_instance_metadata "local-ipv4" token in
       let* public_ip := get_instance_metadata "public-ipv4" token in
       let* rep := gets script_status_report in
       let report_data := json_dumps w (mkFinal rep instance_id private_ip public_ip) in
       let* response_text :=
         (fun s => (http_post w (clock s) (webhook_url args) report_data,
                    advance (log_event (EvPost (webhook_url args) report_data) s))) in
       ret tt)
      (fun _ => ret tt).

(** ** The module body *)

(** Package installation and the [jq] check; [Some code] is
    [sys.exit(code)]. *)
Definition startup : M (option Z) :=
  run_command Startup "apt-get -qq update -y" ;;;
  run_command Startup "apt-get -qq install -y openssh-client curl wget jq" ;;;
  let* (_, exit_code) := run_command Startup "which jq" in
  if decide (exit_code = 0) then ret None
  else
    run_command Startup "apt-get install -y jq" ;;;
    let* (_, exit_code) := run_command Startup "which jq" in
    if decide (exit_code = 0) then ret None else ret (Some 1).

(** Everything after the [jq] check. *)
Definition pipeline (args : Args) : M unit :=
  let* timestamp := now in
  modify (set_report (fun _ =>
    mkReport timestamp (arg_instance_name args) ∅ None None)) ;;;
  (if Py.nonempty (scripts_repository_url args) && Py.nonempty (script_aliases args)
   then download_and_execute_scripts args
   else ret tt) ;;;
  run_init_script args ;;;
  write_file "/tmp/user_data_complete" EmptyString ;;;
  (if Py.nonempty (webhook_url args) then send_status_report args else ret tt).

Inductive Outcome : Type :=
| Completed
| SystemExit (code : Z)
| Unhandled (msg : string).

Definition main (args : Args) (s : State) : Outcome * State :=
  match startup s with
  | (Ok (Some code), s') => (SystemExit code, s')
  | (Ok None, s') =>
      match pipeline args s' with
      | (Ok _, s'') => (Completed, s'')
      | (Raise e, s'') => (Unhandled e, s'')
      end
  | (Raise e, s') => (Unhandled e, s')
  end.

End Program.

(** ** File operations that fail

    The functions above take every [os.makedirs], [open], [write] and
    [os.chmod] to succeed.  The ones that touch files are given here a
    second time, with these operations as the file system answers them:
    a failing operation raises where the source calls it, so that it is
    caught by the handlers that enclose the call, or by none.  With no
    fault they are the functions above. *)

Record Faults : Type := mkFaults {
  (** [os.makedirs(path, exist_ok=True)] raising: the message *)
  mkdir_fault : nat -> string -> option string;
  (** [with open(path, "w") as f: f.write(content)] raising: the message,
      and what the file holds afterwards when the failure left it changed *)
  write_fault : nat -> string -> string -> option (string * option string);
  (** [os.chmod(path, mode)] raising: the message *)
  chmod_fault : nat -> string -> option string;
  (** [open(path, "r")] or [readlines()] raising: the message *)
  read_fault : nat -> string -> option string
}.

Definition no_faults : Faults := {|
  mkdir_fault := fun _ _ => None;
  write_fault := fun _ _ _ => None;
  chmod_fault := fun _ _ => None;
  read_fault := fun _ _ => None
|}.

Section Faulty.

Context (w : World) (fs : Faults).

(** [os.makedirs(path, exist_ok=True)] *)
Definition makedirs_io (path : string) : M unit :=
  fun s =>
    match mkdir_fault fs (clock s) path with
    | Some msg => (Raise msg, s)
    | None => (Ok tt, s)
    end.

Definition write_file_io (path content : string) : M unit :=
  fun s =>
    match write_fault fs (clock s) path content with
    | Some (msg, residue) =>
        (Raise msg,
         match residue with
         | Some kept => set_files <[path := kept]> s
         | None => s
         end)
    | None => write_file path content s
    end.

Definition chmod_io (path : string) (mode : Z) : M unit :=
  fun s =>
    match chmod_fault fs (clock s) path with
    | Some msg => (Raise msg, s)
    | None => chmod path mode s
    end.

Definition read_lines_io (path : string) : M (list string) :=
  fun s =>
    match read_fault fs (clock s) path with
    | Some msg => (Raise msg, s)
    | None => read_lines path s
    end.

Definition capture_output_io (path stdout stderr : string) : M string :=
  write_file_io path (output_text stdout stderr) ;;;
  let* lines := read_lines_io path in
  ret (Py.join EmptyString (take 20 lines)).

Definition download_repository_io (url : string) : M pyval :=
  try_except
    (let* content := fetch w (PStr url) in
     write_file_io "/tmp/scripts/repository.json" content ;;;
     set_repository_status "success" ;;;
     match json_loads w content with
     | Some v => ret v
     | None => set_repository_status "failed" ;;; ret PNone
     end)
    (fun _ => set_repository_status "failed" ;;; ret PNone).

Definition download_script_io (alias : string) (script_url : pyval) : M string :=
  let script_file := script_path alias in
  let* script_content := fetch w script_url in
  let* text := lift (artifact_text script_content) in
  write_file_io script_file text ;;;
  chmod_io script_file 493 ;;;
  ret script_file.

Definition execute_script_io (alias script_file : string) (params_map : pyval)
  : M (Z * string) :=
  let* items :=
    match params_map with
    | PDict d => ret d
    | _ => raise (attribute_error params_map "items")
    end in
  let* param_args := bind_parameters w items EmptyString in
  let cmd := script_file +:+ param_args in
  let* (out, exit_code) := run_command w (ForAlias alias) cmd in
  let* script_output := capture_output_io (output_path alias) (fst out) (snd out) in
  ret (exit_code, script_output).

Definition process_alias_io (repository script_parameters : pyval) (alias : string)
  : M unit :=
  let* start_time := now w in
  try_except
    (let* script_url := lift (py_get repository alias PNone) in
     let* script_url := lift (convert_github_url script_url) in
     if negb (truthy script_url) then
       let* end_time := now w in
       set_script_record alias
         (Errored "error" "No URL found for alias" start_time end_time)
     else
       let* script_file := download_script_io alias script_url in
       let* script_params_map := lift (py_get script_parameters alias (PDict [])) in
       let* (exit_code, script_output) :=
         execute_script_io alias script_file script_params_map in
       let* end_time := now w in
       set_script_record alias
         (Executed (status_of_exit_code exit_code) exit_code script_output
                   start_time end_time))
    (fun e =>
       let* end_time := now w in
       set_script_record alias (Errored "error" e start_time end_time)).

Definition download_and_execute_scripts_io (args : Args) : M unit :=
  if negb (Py.nonempty (scripts_repository_url args)) then ret tt
  else if negb (Py.nonempty (script_aliases args)) then ret tt
  else
    makedirs_io "/tmp/scripts" ;;;
    let* repository := download_repository_io (scripts_repository_url args) in
    if negb (truthy repository) then ret tt
    else
      let script_parameters :=
        match json_loads w (script_parameters args) with
        | Some v => v
        | None => PDict []
        end in
      for_each (Py.split_ws (script_aliases args))
               (process_alias_io repository script_parameters).

Definition run_init_script_io (args : Args) : M unit :=
  if Py.nonempty (Py.strip (init_script_content args)) then
    write_file_io "/tmp/custom_init.sh" (init_script_content args) ;;;
    chmod_io "/tmp/custom_init.sh" 493 ;;;
    let* init_start_time := now w in
    let* (out, init_exit_code) := run_command w ForInit "/tmp/custom_init.sh" in
    let* init_end_time := now w in
    let* init_output :=
      capture_output_io "/tmp/init_script_output.txt" (fst out) (snd out) in
    set_init_script
      (Executed (status_of_exit_code init_exit_code) init_exit_code init_output
                init_start_time init_end_time)
  else ret tt.

Definition pipeline_io (args : Args) : M unit :=
  let* timestamp := now w in
  modify (set_report (fun _ =>
    mkReport timestamp (arg_instance_name args) ∅ None None)) ;;;
  (if Py.nonempty (scripts_repository_url args) && Py.nonempty (script_aliases args)
   then download_and_execute_scripts_io args
   else ret tt) ;;;
  run_init_script_io args ;;;
  write_file_io "/tmp/user_data_complete" EmptyString ;;;
  (if Py.nonempty (webhook_url args) then send_status_report w args else ret tt).

End Faulty.

(** ** The preamble's [parse_parameters], as bash runs it

    The function is shell text inside [param_helper]; this is its
    meaning on an argument vector.  Shell variables are a map from names
    to values; [params] is the function's only [local].  What the text
    leaves to the shell it runs in (the external [tr], the names bash
    keeps for itself) is a [Shell]. *)

Module Bash.

Definition is_name_start (c : ascii) : bool :=
  let n := nat_of_ascii c in
  (Nat.leb 65 n && Nat.leb n 90) || (Nat.leb 97 n && Nat.leb n 122) ||
  Nat.eqb n 95.

Definition is_name_char (c : ascii) : bool :=
  let n := nat_of_ascii c in
  is_name_start c || (Nat.leb 48 n && Nat.leb n 57).

Fixpoint all_chars (p : ascii -> bool) (s : string) : bool :=
  match s with
  | EmptyString => true
  | String c s' => p c && all_chars p s'
  end.

Definition valid_identifier (s : string) : bool :=
  match s with
  | EmptyString => false
  | String c s' => is_name_start c && all_chars is_name_char s'
  end.

(** A word [name=value] is cut at its first equals sign. *)
Fixpoint cut_assignment (word : string) : option (string * string) :=
  match word with
  | EmptyString => None
  | String c word' =>
      if decide (c = "="%char) then Some (EmptyString, word')
      else match cut_assignment word' with
           | Some (n, v) => Some (String c n, v)
           | None => None
           end
  end.

(** The shell outside the function's text (bash 4.4 or later).  Every
    field is an answer of that shell, not something the preamble says. *)
Record Shell : Type := mkShell {
  (** standard output of [echo "$param_name" | tr '[:lower:]' '[:upper:]']
      for the text of [param_name], with the shell variables as they are
      when the pipeline runs: [tr] is looked up through [PATH] and
      classifies letters by the locale *)
  echo_tr : gmap string string -> string -> string;
  (** the names that are ordinary variables: not read-only ([UID],
      [EUID], [PPID], ...), not given a meaning of their own by bash
      ([RANDOM], [SECONDS], ...), not read when a command is looked up or
      run ([PATH], [LC_ALL], ...) *)
  ordinary : string -> bool;
  (** [declare -g word] for any other word: a read-only or special name,
      [name+=value], a subscripted name, a name that is no identifier *)
  declare_other : string -> gmap string string -> gmap string string
}.

(** [declare -g "$name"="$value"]: the two quoted parts form one word,
    which [declare] cuts at its first equals sign. *)
Definition declare_g (sh : Shell) (name value : string) (vars : gmap string string)
  : gmap string string :=
  let word := name +:+ "=" +:+ value in
  match cut_assignment word with
  | Some (n, v) =>
      if valid_identifier n && ordinary sh n then <[n := v]> vars
      else declare_other sh word vars
  | None => declare_other sh word vars
  end.

(** [${key#--}] *)
Definition strip_dashes (key : string) : string :=
  match key with
  | String "-" (String "-" rest) => rest
  | _ => key
  end.

(** Command substitution drops every trailing line feed. *)
Fixpoint drop_trailing_nl (s : string) : string :=
  match s with
  | EmptyString => EmptyString
  | String c s' =>
      match drop_trailing_nl s' with
      | EmptyString => if decide (c = Py.nl) then EmptyString else Py.chr c
      | r => String c r
      end
  end.

(** The [while [[ $# -gt 0 ]]] loop; [args] is ["$@"].  The three
    assignments to [param_name] are three bindings; the third takes the
    output of the pipeline, run with the first two in place. *)
Fixpoint parse_loop (sh : Shell) (args params : list string)
  (vars : gmap string string) : list string * gmap string string :=
  match args with
  | [] => (params, vars)
  | key :: rest =>
      let vars := <["key" := key]> vars in
      if Py.startswith "--" key then
        let vars := <["param_name" := strip_dashes key]> vars in
        let underscored := Py.replace "-" "_" (strip_dashes key) in
        let vars := <["param_name" := underscored]> vars in
        let param_name := drop_trailing_nl (echo_tr sh vars underscored) in
        let vars := <["param_name" := param_name]> vars in
        match rest with
        | [] => (params, declare_g sh param_name "true" vars)
        | arg2 :: rest' =>
            if negb (Py.nonempty arg2) || Py.startswith "--" arg2
            then parse_loop sh rest params (declare_g sh param_name "true" vars)
            else parse_loop sh rest' params (declare_g sh param_name arg2 vars)
        end
      else parse_loop sh rest (params ++ [key]) vars
  end.

(** The [for i in "${!params[@]}"] loop, from index [i]. *)
Fixpoint bind_positionals (sh : Shell) (i : nat) (params : list string)
  (vars : gmap string string) : gmap string string :=
  match params with
  | [] => vars
  | p :: ps =>
      bind_positionals sh (S i) ps
        (declare_g sh ("PARAM" +:+ pretty (S i)) p (<["i" := pretty i]> vars))
  end.

(** [parse_parameters "$@"] *)
Definition parse_parameters (sh : Shell) (args : list string)
  (vars : gmap string string) : gmap string string :=
  let '(params, vars) := parse_loop sh args [] vars in
  bind_positionals sh 0 params vars.

(** [tr] is found and works on bytes as in the C and UTF-8 locales, and
    [echo] is the builtin with [xpg_echo] off: the pipeline prints the
    text with its letters [a]-[z] in upper case, and a line feed.
    ([echo] is given no text with a hyphen: the loop has replaced them
    all.) *)
Definition upper_case_works (sh : Shell) (vars : gmap string string) : Prop :=
  forall text,
    Py.has_char "-"%char text = false ->
    echo_tr sh vars text = Py.map_chars Py.upper_char text +:+ Py.chr Py.nl.

(** The pipeline works, and goes on working when the loop binds its own
    variables or an ordinary one: such a binding does not change how
    commands are found nor what [tr] does. *)
Definition settled (sh : Shell) (vars : gmap string string) : Prop :=
  upper_case_works sh vars /\
  forall vars' n v,
    upper_case_works sh vars' ->
    ordinary sh n = true \/ n = "key" \/ n = "param_name" ->
    upper_case_works sh (<[n := v]> vars').

End Bash.

(** * Vocabulary of the statements

    Names for what the properties talk about: the text kept from an
    output file, the bindings and tokens the binder produces, the ways a
    pass of the alias loop can end, the stages of the run, and the shape
    of an invocation of the preamble. *)

(** [param_helper.split('\n', 1)[1]] *)
Definition param_helper_without_shebang : string :=
  Py.map_chars tilde_to_dq (unlines (tail param_helper_lines)).

(** [readlines()[:20]] joined: what goes into the report. *)
Definition first_lines (n : nat) (text : string) : string :=
  Py.join EmptyString (take n (Py.readlines text)).

(** [script_status_report["scripts"][alias] = r] on a report. *)
Definition with_record (alias : string) (r : ScriptRecord) (rep : StatusReport)
  : StatusReport :=
  mkReport (timestamp rep) (instance_name rep) (<[alias := r]> (scripts rep))
           (repository_status rep) (init_script rep).

(** A parameter [os.environ] accepts. *)
Definition legal_binding (w : World) (item : string * pyval) : bool :=
  negb (Py.has_char "000"%char (fst item)) &&
  negb (Py.has_char "000"%char (py_str w (snd item))) &&
  Py.nonempty (fst item) &&
  negb (Py.has_char "="%char (fst item)).

(** [os.environ] after the loop of [execute_script] went through [items]. *)
Fixpoint bound_env (w : World) (items : list (string * pyval))
  (env : gmap string string) : gmap string string :=
  match items with
  | [] => env
  | (n, v) :: rest => bound_env w rest (<[n := py_str w v]> env)
  end.

(** The flag tokens of [items], as [param_args] accumulates them. *)
Fixpoint flag_tokens (w : World) (items : list (string * pyval)) : string :=
  match items with
  | [] => EmptyString
  | (n, v) :: rest => flag_token w n v +:+ flag_tokens w rest
  end.

(** The URL the loop body ends up with for [alias] (lines 331-336). *)
Definition resolve_url (repository : pyval) (alias : string) : Result pyval :=
  match py_get repository alias PNone with
  | Ok v => convert_github_url v
  | Raise e => Raise e
  end.

(** A text without its last character. *)
Fixpoint but_last (s : string) : string :=
  match s with
  | EmptyString => EmptyString
  | String c s' =>
      match s' with
      | EmptyString => EmptyString
      | String _ _ => String c (but_last s')
      end
  end.

(** The last character of a path. *)
Fixpoint last_char (s : string) : option ascii :=
  match s with
  | EmptyString => None
  | String c s' => match last_char s' with Some l => Some l | None => Some c end
  end.

(** Events that neither create the artifact of [a] nor run it. *)
Definition quiet_for (a : string) (e : Event) : Prop :=
  match e with
  | EvWrite p _ => p <> script_path a
  | EvRun who _ _ => who <> ForAlias a
  | _ => True
  end.

(** The report has the "No URL found" record for [a]. *)
Definition no_url_record (a : string) (s : State) : Prop :=
  exists t0 t1,
    scripts (script_status_report s) !! a = Some (Errored "error" "No URL found for alias" t0 t1).

(** The status of a record agrees with what the record holds. *)
Definition record_consistent (r : ScriptRecord) : Prop :=
  match r with
  | Executed st exit_code _ _ _ => st = status_of_exit_code exit_code
  | Errored st _ _ _ => st = "error"
  end.

(** Every run in the event sees [k] bound to [v]. *)
Definition run_sees (k v : string) (e : Event) : Prop :=
  forall who cmd env, e = EvRun who cmd env -> env !! k = Some v.

(** Every run in the event has [k] in its environment. *)
Definition run_has (k : string) (e : Event) : Prop :=
  forall who cmd env, e = EvRun who cmd env -> is_Some (env !! k).

(** The output of an executed record is the head of the file at [path]. *)
Definition output_is_head (files : gmap string string) (path : string)
  (r : ScriptRecord) : Prop :=
  match r with
  | Executed _ _ output _ _ =>
      exists content,
        files !! path = Some content /\
        output = first_lines 20 (Py.translate_newlines content)
  | Errored _ _ _ _ => True
  end.

(** Every executed record of the report is the head of its output file. *)
Definition outputs_bounded (s : State) : Prop :=
  (forall alias r,
     scripts (script_status_report s) !! alias = Some r ->
     output_is_head (files s) (output_path alias) r) /\
  (forall r,
     init_script (script_status_report s) = Some r ->
     output_is_head (files s) "/tmp/init_script_output.txt" r).

Section Vocabulary.

Context (w : World).

(** The ways one pass of the loop body can go, with the record it writes,
    the events it adds and the state it leaves. *)
Inductive alias_outcome (repository script_parameters : pyval) (alias : string)
  (s s' : State) : ScriptRecord -> list Event -> Prop :=
| AO_no_url url :
    resolve_url repository alias = Ok url -> truthy url = false ->
    environ s' = environ s -> files s' = files s ->
    alias_outcome repository script_parameters alias s s'
      (Errored "error" "No URL found for alias"
               (utcnow w (clock s)) (utcnow w (S (clock s)))) []
| AO_unresolved msg :
    resolve_url repository alias = Raise msg ->
    environ s' = environ s -> files s' = files s ->
    alias_outcome repository script_parameters alias s s'
      (Errored "error" msg (utcnow w (clock s)) (utcnow w (S (clock s)))) []
| AO_fetch_failed url msg evs t1 :
    resolve_url repository alias = Ok url -> truthy url = true ->
    match url with
    | PStr u => evs = [EvUrlopen u] /\ urlopen w (S (clock s)) u = Raise msg
    | _ => evs = []
    end ->
    environ s' = environ s -> files s' = files s ->
    alias_outcome repository script_parameters alias s s'
      (Errored "error" msg (utcnow w (clock s)) t1) evs
| AO_bind_failed u content text msg pre t1 :
    resolve_url repository alias = Ok (PStr u) ->
    urlopen w (S (clock s)) u = Ok content ->
    artifact_text content = Ok text ->
    (pre = [] \/
     exists items post,
       py_get script_parameters alias (PDict []) = Ok (PDict items) /\
       items = pre ++ post) ->
    environ s' = bound_env w pre (environ s) ->
    files s' = <[script_path alias := text]> (files s) ->
    alias_outcome repository script_parameters alias s s'
      (Errored "error" msg (utcnow w (clock s)) t1)
      [EvUrlopen u; EvWrite (script_path alias) text;
       EvChmod (script_path alias) 493]
| AO_executed u content text items stdout stderr exit_code :
    resolve_url repository alias = Ok (PStr u) ->
    urlopen w (S (clock s)) u = Ok content ->
    artifact_text content = Ok text ->
    py_get script_parameters alias (PDict []) = Ok (PDict items) ->
    forallb (legal_binding w) items = true ->
    environ s' = bound_env w items (environ s) ->
    run_result w (2 + clock s) (script_path alias +:+ flag_tokens w items)
               (environ s') (<[script_path alias := text]> (files s))
      = (stdout, stderr, exit_code) ->
    files s' = <[output_path alias := output_text stdout stderr]>
                 (<[script_path alias := text]> (files s)) ->
    alias_outcome repository script_parameters alias s s'
      (Executed (status_of_exit_code exit_code) exit_code
                (first_lines 20 (Py.translate_newlines (output_text stdout stderr)))
                (utcnow w (clock s)) (utcnow w (3 + clock s)))
      [EvUrlopen u; EvWrite (script_path alias) text;
       EvChmod (script_path alias) 493;
       EvRun (ForAlias alias) (script_path alias +:+ flag_tokens w items) (environ s');
       EvWrite (output_path alias) (output_text stdout stderr)].

(** What the init-script block leaves in the report. *)
Definition init_record (args : Args) (s : State) : ScriptRecord :=
  let files1 := <["/tmp/custom_init.sh" := init_script_content args]> (files s) in
  let '(stdout, stderr, exit_code) :=
    run_result w (S (clock s)) "/tmp/custom_init.sh" (environ s) files1 in
  Executed (status_of_exit_code exit_code) exit_code
           (first_lines 20 (Py.translate_newlines (output_text stdout stderr)))
           (utcnow w (clock s)) (utcnow w (2 + clock s)).

(** The events of the init-script block. *)
Definition init_events (args : Args) (s : State) : list Event :=
  let files1 := <["/tmp/custom_init.sh" := init_script_content args]> (files s) in
  let '(stdout, stderr, _) :=
    run_result w (S (clock s)) "/tmp/custom_init.sh" (environ s) files1 in
  [EvWrite "/tmp/custom_init.sh" (init_script_content args);
   EvChmod "/tmp/custom_init.sh" 493;
   EvRun ForInit "/tmp/custom_init.sh" (environ s);
   EvWrite "/tmp/init_script_output.txt" (output_text stdout stderr)].

(** The files after the init-script block. *)
Definition init_files (args : Args) (s : State) : gmap string string :=
  let files1 := <["/tmp/custom_init.sh" := init_script_content args]> (files s) in
  let '(stdout, stderr, _) :=
    run_result w (S (clock s)) "/tmp/custom_init.sh" (environ s) files1 in
  <["/tmp/init_script_output.txt" := output_text stdout stderr]> files1.

(** The state in which [script_status_report] has just been created. *)
Definition fresh_report (args : Args) (s : State) : State :=
  set_report (fun _ =>
    mkReport (utcnow w (clock s)) (arg_instance_name args) ∅ None None)
    (advance s).

(** Lines 388-396: the guarded call of [download_and_execute_scripts]. *)
Definition scripts_stage (args : Args) : M unit :=
  if Py.nonempty (scripts_repository_url args) && Py.nonempty (script_aliases args)
  then download_and_execute_scripts w args
  else ret tt.

(** Lines 439-441: the guarded call of [send_status_report]. *)
Definition publish_stage (args : Args) : M unit :=
  if Py.nonempty (webhook_url args) then send_status_report w args else ret tt.

End Vocabulary.

(** Invocations of the preamble. *)
Module Invocation.

Import Bash.

(** The variable a flag is bound to when [tr] works: the name with its
    hyphens as underscores, in upper case, without trailing line feeds. *)
Definition flag_variable (name : string) : string :=
  drop_trailing_nl (Py.map_chars Py.upper_char (Py.replace "-" "_" name)).

(** An invocation, argument by argument: a flag with its value, a flag
    without a value, a bare argument. *)
Inductive Arg : Type :=
| Flag (name value : string)
| Switch (name : string)
| Bare (arg : string).

Definition render_arg (a : Arg) : list string :=
  match a with
  | Flag n v => ["--" +:+ n; v]
  | Switch n => ["--" +:+ n]
  | Bare x => [x]
  end.

Fixpoint render (items : list Arg) : list string :=
  match items with
  | [] => []
  | a :: rest => render_arg a ++ render rest
  end.

Fixpoint bares (items : list Arg) : list string :=
  match items with
  | [] => []
  | Bare x :: rest => x :: bares rest
  | _ :: rest => bares rest
  end.

(** A flag whose name gives an identifier that is an ordinary variable,
    with a value that is neither empty nor flag-like if it has one; a
    bare argument that is not flag-like. *)
Definition well_formed (sh : Shell) (a : Arg) : Prop :=
  match a with
  | Flag n v =>
      valid_identifier (flag_variable n) = true /\
      ordinary sh (flag_variable n) = true /\
      Py.nonempty v = true /\ Py.startswith "--" v = false
  | Switch n =>
      valid_identifier (flag_variable n) = true /\
      ordinary sh (flag_variable n) = true
  | Bare x => Py.startswith "--" x = false
  end.

(** A flag without a value is followed by nothing, by another flag, or by
    an empty argument: any other argument would be taken as its value. *)
Fixpoint switches_closed (items : list Arg) : Prop :=
  match items with
  | [] => True
  | a :: rest =>
      match a, rest with
      | Switch _, Bare x :: _ => x = EmptyString
      | _, _ => True
      end /\ switches_closed rest
  end.

(** The shell variables after the loop went through [items]. *)
Fixpoint flags_bound (items : list Arg) (vars : gmap string string)
  : gmap string string :=
  match items with
  | [] => vars
  | Flag n v :: rest =>
      flags_bound rest
        (<[flag_variable n := v]>
           (<["param_name" := flag_variable n]> (<["key" := "--" +:+ n]> vars)))
  | Switch n :: rest =>
      flags_bound rest
        (<[flag_variable n := "true"]>
           (<["param_name" := flag_variable n]> (<["key" := "--" +:+ n]> vars)))
  | Bare x :: rest => flags_bound rest (<["key" := x]> vars)
  end.

Definition is_lower (c : ascii) : bool :=
  let n := nat_of_ascii c in Nat.leb 97 n && Nat.leb n 122.

Definition param_name (i : nat) : string := "PARAM" +:+ pretty (S i).

Definition flag_variables (items : list Arg) : list string :=
  flat_map (fun a => match a with
                     | Flag n _ | Switch n => [flag_variable n]
                     | Bare _ => []
                     end) items.

End Invocation.

(** ** A small world to run the model in *)

Module Demo.

Definition q (s : string) : string := Py.map_chars tilde_to_dq s.

Definition catalog_text : string :=
  q "{~first~: ~https://example.com/first.sh~, ~second~: ~https://example.com/second.sh~}".

Definition catalog : pyval :=
  PDict [("first", PStr "https://example.com/first.sh");
         ("second", PStr "https://example.com/second.sh")].

Definition parameters_text : string := q "{~first~: {~FOO~: 1}}".

Definition parameters : pyval := PDict [("first", PDict [("FOO", PInt 1)])].

(** Every script prints the value of [FOO] and exits with 0. *)
Definition world : World := {|
  urlopen := fun _ url =>
    if decide (url = "https://example.com/catalog.json") then Ok catalog_text
    else if decide (url = "https://example.com/empty.json") then Ok "{}"
    else if decide (url = "https://example.com/broken.json") then Ok "<html>"
    else if decide (url = "https://example.com/first.sh") then Ok "echo first"
    else if decide (url = "https://example.com/second.sh") then Ok "echo $FOO"
    else Raise "HTTP Error 404: Not Found";
  json_loads := fun text =>
    if decide (text = catalog_text) then Some catalog
    else if decide (text = parameters_text) then Some parameters
    else if decide (text = "{}") then Some (PDict [])
    else None;
  subprocess_run := fun _ _ env _ =>
    Ok (default EmptyString (env !! "FOO") +:+ Py.chr Py.nl, EmptyString, 0);
  utcnow := fun t => "t" +:+ pretty t;
  str_container := fun _ => "[...]";
  imds_token := fun _ => Ok "token";
  imds_field := fun _ field _ => Ok field;
  json_dumps := fun _ => "{...}";
  http_post := fun _ _ _ => Ok "ok"
|}.

(** The same world with scripts that print 25 lines. *)
Definition chatty : World := {|
  urlopen := urlopen world;
  json_loads := json_loads world;
  subprocess_run := fun _ _ _ _ =>
    Ok (unlines (replicate 25 "line"), EmptyString, 0);
  utcnow := utcnow world;
  str_container := str_container world;
  imds_token := imds_token world;
  imds_field := imds_field world;
  json_dumps := json_dumps world;
  http_post := http_post world
|}.

Definition boot : State :=
  mkState (mkReport EmptyString EmptyString ∅ None None) ∅ ∅ [] 0.

Definition args (url aliases parameters init : string) : Args :=
  mkArgs "web-1" "prod" url aliases parameters EmptyString init.

(** A shell to run the preamble in: [tr] is found as long as [PATH] is
    the one the shell started with; the names of the list are not
    ordinary; [declare] binds [PATH] and refuses the others. *)
Definition reserved_names : list string :=
  ["UID"; "EUID"; "PPID"; "BASHOPTS"; "SHELLOPTS"; "BASH_VERSINFO";
   "PATH"; "LC_ALL"; "LC_CTYPE"; "LANG"; "LD_PRELOAD"; "LD_LIBRARY_PATH";
   "EXECIGNORE"; "POSIXLY_CORRECT"; "RANDOM"; "SECONDS"; "LINENO"; "BASHPID";
   "GROUPS"; "FUNCNAME"; "IFS"; "_"].

Definition shell : Bash.Shell := {|
  Bash.echo_tr := fun vars text =>
    if decide (vars !! "PATH" = Some "/usr/bin:/bin")
    then Py.map_chars Py.upper_char text +:+ Py.chr Py.nl
    else EmptyString;
  Bash.ordinary := fun n => bool_decide (n ∉ reserved_names);
  Bash.declare_other := fun word vars =>
    match Bash.cut_assignment word with
    | Some (n, v) => if decide (n = "PATH") then <["PATH" := v]> vars else vars
    | None => vars
    end
|}.

Definition shell_vars : gmap string string := {["PATH" := "/usr/bin:/bin"]}.

End Demo.

(** ** More vocabulary and worlds *)

(** Line 258: [param_name.lower().replace('_', '-')]. *)
Definition param_name_kebab (param_name : string) : string :=
  Py.replace "_" "-" (Py.lower param_name).

(** The three statuses a record can end with. *)
Definition terminal_status (r : ScriptRecord) : Prop :=
  status r = "success" \/ status r = "failed" \/ status r = "error".

(** Every alias run of the list, occurrence by occurrence, comes right
    after a write of that alias's artifact and the [chmod] on it: whatever
    way the list is cut at a run, the part before it ends with the two. *)
Definition runs_prepared (evs : list Event) : Prop :=
  forall pre alias cmd env post,
    evs = pre ++ EvRun (ForAlias alias) cmd env :: post ->
    exists before text,
      pre = before ++
            [EvWrite (script_path alias) text; EvChmod (script_path alias) 493].

(** [get_instance_metadata]'s answer for a field: the value read, or the
    sentinel of the [except] branch. *)
Definition metadata_or_sentinel (w : World) (t : nat) (field token : string) : string :=
  match imds_field w t field token with
  | Ok v => v
  | Raise _ => if decide (field = "public-ipv4") then "N/A" else "unknown"
  end.

(** [tr '-' '_'] then upper case, as the preamble does to a flag name. *)
Definition shell_upper (text : string) : string :=
  Py.map_chars Py.upper_char (Py.replace "-" "_" text).

(** The artifact of [alias] is on disk, in the form [download_script]
    gives to some script body. *)
Definition artifact_staged (files : gmap string string) (alias : string) : Prop :=
  exists content text,
    artifact_text content = Ok text /\ files !! script_path alias = Some text.

(** Every alias with an executed record has its artifact on disk. *)
Definition artifacts_kept (x : State) : Prop :=
  forall alias st code out t0 t1,
    scripts (script_status_report x) !! alias = Some (Executed st code out t0 t1) ->
    artifact_staged (files x) alias.




(** Lines 312-317: the parameter map, [{}] when the text is not JSON. *)
Definition parsed_parameters (w : World) (args : Args) : pyval :=
  match json_loads w (script_parameters args) with
  | Some v => v
  | None => PDict []
  end.

Module Scenario.

(** No network: every request fails. *)
Definition offline : World := {|
  urlopen := fun _ _ => Raise "<urlopen error [Errno 101] Network is unreachable>";
  json_loads := json_loads Demo.world;
  subprocess_run := subprocess_run Demo.world;
  utcnow := utcnow Demo.world;
  str_container := str_container Demo.world;
  imds_token := fun _ => Raise "<urlopen error timed out>";
  imds_field := fun _ _ _ => Raise "<urlopen error timed out>";
  json_dumps := json_dumps Demo.world;
  http_post := fun _ _ _ => Raise "<urlopen error timed out>"
|}.

(** Every command ends with exit code 1. *)
Definition failing : World := {|
  urlopen := urlopen Demo.world;
  json_loads := json_loads Demo.world;
  subprocess_run := fun _ _ _ _ => Ok (EmptyString, "not found", 1);
  utcnow := utcnow Demo.world;
  str_container := str_container Demo.world;
  imds_token := imds_token Demo.world;
  imds_field := imds_field Demo.world;
  json_dumps := json_dumps Demo.world;
  http_post := http_post Demo.world
|}.

(** No command can be started. *)
Definition cannot_start : World := {|
  urlopen := urlopen Demo.world;
  json_loads := json_loads Demo.world;
  subprocess_run := fun _ _ _ _ => Raise "[Errno 8] Exec format error";
  utcnow := utcnow Demo.world;
  str_container := str_container Demo.world;
  imds_token := imds_token Demo.world;
  imds_field := imds_field Demo.world;
  json_dumps := json_dumps Demo.world;
  http_post := http_post Demo.world
|}.

(** The token is granted, no metadata field can be read. *)
Definition no_metadata : World := {|
  urlopen := urlopen Demo.world;
  json_loads := json_loads Demo.world;
  subprocess_run := subprocess_run Demo.world;
  utcnow := utcnow Demo.world;
  str_container := str_container Demo.world;
  imds_token := imds_token Demo.world;
  imds_field := fun _ _ _ => Raise "HTTP Error 404: Not Found";
  json_dumps := fun r => instance_id r +:+ "," +:+ private_ip r +:+ "," +:+ public_ip r;
  http_post := http_post Demo.world
|}.

(** The catalog is a JSON list; the parameters are one. *)
Definition list_catalog : World := {|
  urlopen := fun _ url =>
    if decide (url = "https://example.com/list.json") then Ok "[1]"
    else urlopen Demo.world 0 url;
  json_loads := fun text =>
    if decide (text = "[1]") then Some (PList [PInt 1]) else json_loads Demo.world text;
  subprocess_run := subprocess_run Demo.world;
  utcnow := utcnow Demo.world;
  str_container := str_container Demo.world;
  imds_token := imds_token Demo.world;
  imds_field := imds_field Demo.world;
  json_dumps := json_dumps Demo.world;
  http_post := http_post Demo.world
|}.

(** The disk is full when the output of the first alias is written:
    the file is left empty. *)
Definition disk_full : Faults := {|
  mkdir_fault := fun _ _ => None;
  write_fault := fun _ path _ =>
    if decide (path = output_path "first")
    then Some ("[Errno 28] No space left on device", Some EmptyString)
    else None;
  chmod_fault := fun _ _ => None;
  read_fault := fun _ _ => None
|}.

(** The disk is full when the output of the init script is written. *)
Definition init_output_lost : Faults := {|
  mkdir_fault := fun _ _ => None;
  write_fault := fun _ path _ =>
    if decide (path = "/tmp/init_script_output.txt")
    then Some ("[Errno 28] No space left on device", Some EmptyString)
    else None;
  chmod_fault := fun _ _ => None;
  read_fault := fun _ _ => None
|}.

Definition args_with_webhook (init hook : string) : Args :=
  mkArgs "web-1" "prod" EmptyString EmptyString "{}" hook init.

End Scenario.

(** * Properties *)

Ltac elem_cases H :=
  repeat match type of H with
         | _ ∈ [] => inversion H
         | _ ∈ _ :: _ => apply elem_of_cons in H as [H|H]; [try discriminate|]
         end.

(** ** Text lemmas *)

Section TextLemmas.

Import Py.

Lemma app_cons c s t : String c s +:+ t = String c (s +:+ t).
Proof. reflexivity. Qed.

Lemma app_empty_l t : EmptyString +:+ t = t.
Proof. reflexivity. Qed.

Lemma app_empty_r s : s +:+ EmptyString = s.
Proof. induction s as [|c s IH]; [reflexivity|]. rewrite app_cons, IH. reflexivity. Qed.

Lemma app_assoc' s t u : (s +:+ t) +:+ u = s +:+ (t +:+ u).
Proof.
  induction s as [|c s IH]; [reflexivity|].
  rewrite !app_cons, IH. reflexivity.
Qed.

Lemma length_app s t : String.length (s +:+ t) = (String.length s + String.length t)%nat.
Proof. induction s as [|c s IH]; simpl; [reflexivity|]. rewrite IH. reflexivity. Qed.

Lemma startswith_app p s t : startswith p s = true -> startswith p (s +:+ t) = true.
Proof.
  revert s. induction p as [|a p IH]; intros s H; [reflexivity|].
  destruct s as [|b s]; [discriminate|].
  rewrite app_cons. simpl in *. destruct (decide (a = b)); [auto|discriminate].
Qed.

Lemma startswith_self_app p t : startswith p (p +:+ t) = true.
Proof.
  induction p as [|a p IH]; [reflexivity|].
  rewrite app_cons. simpl. destruct (decide (a = a)); [exact IH|congruence].
Qed.

Lemma split_not_nil sep s : split sep s <> [].
Proof.
  destruct s as [|c s]; simpl; [discriminate|].
  destruct (decide (c = sep)); [discriminate|].
  destruct (split sep s); discriminate.
Qed.

Lemma split_without_sep sep d : has_char sep d = false -> split sep d = [d].
Proof.
  induction d as [|c d IH]; simpl; [reflexivity|].
  destruct (decide (c = sep)); [discriminate|].
  intros H. rewrite (IH H). reflexivity.
Qed.

Lemma split_at_first sep d rest :
  has_char sep d = false ->
  split sep (d +:+ String sep rest) = d :: split sep rest.
Proof.
  induction d as [|c d IH]; simpl.
  - intros _. destruct (decide (sep = sep)); [reflexivity|congruence].
  - destruct (decide (c = sep)); [discriminate|].
    intros H. rewrite (IH H). reflexivity.
Qed.

Lemma join_cons sep x y l : join sep (x :: y :: l) = x +:+ sep +:+ join sep (y :: l).
Proof. reflexivity. Qed.

Lemma join_split sep s : join (chr sep) (split sep s) = s.
Proof.
  induction s as [|c s IH]; [reflexivity|].
  simpl. destruct (decide (c = sep)) as [->|Hne].
  - pose proof (split_not_nil sep s) as Hnn.
    destruct (split sep s) as [|y l]; [contradiction|].
    rewrite join_cons, IH. reflexivity.
  - pose proof (split_not_nil sep s) as Hnn.
    destruct (split sep s) as [|y l]; [contradiction|].
    destruct l as [|z l].
    + simpl in *. rewrite IH. reflexivity.
    + rewrite join_cons in *. rewrite app_cons, IH. reflexivity.
Qed.

End TextLemmas.

(** ** The artifact text ([download_script], lines 219-231) *)

Lemma param_helper_split :
  Py.split_once Py.nl param_helper = ["#!/bin/bash"; param_helper_without_shebang].
Proof. vm_compute. reflexivity. Qed.

Lemma param_helper_unfold :
  param_helper = "#!/bin/bash" +:+ String Py.nl param_helper_without_shebang.
Proof. vm_compute. reflexivity. Qed.

(** ** The GitHub rewrite (lines 333-336) *)

Section Replace.

Import Py.

Lemma startswith_app_long p x y :
  (String.length p <= String.length x)%nat ->
  startswith p (x +:+ y) = startswith p x.
Proof.
  revert x. induction p as [|a p IH]; intros x Hlen; [reflexivity|].
  destruct x as [|b x]; [simpl in Hlen; lia|].
  rewrite app_cons. simpl in *. destruct (decide (a = b)); [|reflexivity].
  apply IH. lia.
Qed.

Lemma replace_go_skip old new x b :
  replace_go old new (String.length x) (x +:+ b) = replace_go old new 0 b.
Proof.
  induction x as [|c x IH]; [reflexivity|].
  rewrite app_cons. simpl. exact IH.
Qed.

Lemma replace_go_without old new s :
  contains old s = false -> replace_go old new 0 s = s.
Proof.
  induction s as [|c s IH]; [reflexivity|].
  intros H. simpl in H. apply orb_false_elim in H as [Hstart Hrest].
  cbn [replace_go]. rewrite Hstart, (IH Hrest). reflexivity.
Qed.

Lemma but_last_length c s : String.length (but_last (String c s)) = String.length s.
Proof.
  revert c. induction s as [|d s IH]; intros c; [reflexivity|].
  change (but_last (String c (String d s))) with (String c (but_last (String d s))).
  cbn [String.length]. f_equal. apply IH.
Qed.

Lemma but_last_last c s :
  exists l, String c s = but_last (String c s) +:+ String l EmptyString.
Proof.
  revert c. induction s as [|d s IH]; intros c.
  - exists c. reflexivity.
  - destruct (IH d) as [l Hl]. exists l.
    change (but_last (String c (String d s))) with (String c (but_last (String d s))).
    rewrite app_cons, <- Hl. reflexivity.
Qed.

(** The first occurrence of [old], when nothing earlier matches. *)
Lemma replace_go_first o old' new a b :
  contains (String o old') (a +:+ but_last (String o old')) = false ->
  replace_go (String o old') new 0 (a +:+ String o old' +:+ b) =
  a +:+ new +:+ replace_go (String o old') new 0 b.
Proof.
  set (old := String o old').
  induction a as [|c a IH]; intros Hnone.
  - rewrite !app_empty_l. unfold old at 2. rewrite app_cons. cbn [replace_go].
    change (String o (old' +:+ b)) with (old +:+ b).
    rewrite startswith_self_app. unfold old at 2. cbn [String.length Nat.pred].
    rewrite replace_go_skip. reflexivity.
  - rewrite !app_cons in *. simpl contains in Hnone.
    apply orb_false_elim in Hnone as [Hstart Hrest].
    cbn [replace_go].
    assert (Hno : startswith old (String c (a +:+ old +:+ b)) = false).
    { destruct (but_last_last o old') as [l Hl]. fold old in Hl.
      rewrite Hl at 2. rewrite app_assoc'.
      change (String c (a +:+ but_last old +:+ String l EmptyString +:+ b))
        with (String c (a +:+ but_last old +:+ (String l EmptyString +:+ b))).
      rewrite <- app_assoc'. rewrite <- app_cons.
      rewrite startswith_app_long; [exact Hstart|].
      cbn [String.length]. rewrite length_app. unfold old.
      rewrite but_last_length. cbn [String.length]. lia. }
    rewrite Hno, (IH Hrest). reflexivity.
Qed.

(** The rewrite on a page URL with one [github.com] and one [/blob/]:
    the host is replaced and the segment removed, the rest stays. *)
Lemma github_to_raw_page pre mid rest :
  contains "github.com" (pre +:+ "github.co") = false ->
  contains "github.com" (mid +:+ "/blob/" +:+ rest) = false ->
  contains "/blob/" ((pre +:+ "raw.githubusercontent.com" +:+ mid) +:+ "/blob") = false ->
  contains "/blob/" rest = false ->
  github_to_raw (pre +:+ "github.com" +:+ mid +:+ "/blob/" +:+ rest) =
  pre +:+ "raw.githubusercontent.com" +:+ mid +:+ "/" +:+ rest.
Proof.
  intros Hhost Hhost' Hblob Hblob'. unfold github_to_raw, replace.
  rewrite (replace_go_first _ _ _ pre (mid +:+ "/blob/" +:+ rest) Hhost).
  rewrite (replace_go_without _ _ _ Hhost').
  replace (pre +:+ "raw.githubusercontent.com" +:+ mid +:+ "/blob/" +:+ rest)
    with ((pre +:+ "raw.githubusercontent.com" +:+ mid) +:+ "/blob/" +:+ rest)
    by (rewrite !app_assoc'; reflexivity).
  rewrite (replace_go_first _ _ _ _ rest Hblob).
  rewrite (replace_go_without _ _ _ Hblob'), !app_assoc'. reflexivity.
Qed.

End Replace.

(** C9, at the failing input: a second [/blob/] in the path is removed
    too, so the rewritten URL is not the raw address of the file; the
    spec's example and a raw-host URL behave as the claim says
    ([github_to_raw_page] is the general case with one occurrence of
    each). *)
Theorem C9_every_blob_segment_removed :
  convert_github_url (PStr "https://github.com/u/r/blob/main/blob/x.sh")
    = Ok (PStr "https://raw.githubusercontent.com/u/r/main/x.sh")
  /\ PStr "https://raw.githubusercontent.com/u/r/main/x.sh"
     <> PStr "https://raw.githubusercontent.com/u/r/main/blob/x.sh"
  /\ convert_github_url (PStr "https://github.com/u/r/blob/main/x.sh")
    = Ok (PStr "https://raw.githubusercontent.com/u/r/main/x.sh")
  /\ convert_github_url (PStr "https://raw.githubusercontent.com/u/r/main/x.sh")
    = Ok (PStr "https://raw.githubusercontent.com/u/r/main/x.sh").
Proof. repeat split; try reflexivity. discriminate. Qed.

(** ** Lines of the captured output *)

Section Lines.

Import Py.

Lemma join_empty_cons x l :
  join EmptyString (x :: l) = x +:+ join EmptyString l.
Proof.
  destruct l as [|y l]; simpl; [rewrite app_empty_r|]; reflexivity.
Qed.

Lemma join_readlines s : join EmptyString (readlines s) = s.
Proof.
  induction s as [|c s IH]; [reflexivity|].
  simpl readlines. destruct (decide (c = nl)) as [->|Hne].
  - rewrite join_empty_cons, IH. reflexivity.
  - destruct (readlines s) as [|l ls].
    + simpl in *. subst s. reflexivity.
    + rewrite join_empty_cons in *. rewrite app_cons, IH. reflexivity.
Qed.

Lemma join_take_drop n (l : list string) :
  join EmptyString l = join EmptyString (take n l) +:+ join EmptyString (drop n l).
Proof.
  revert n. induction l as [|x l IH]; intros [|n]; try reflexivity.
  simpl take. simpl drop. rewrite !join_empty_cons, (IH n), app_assoc'. reflexivity.
Qed.

(** Cutting after [n] lines and reading again gives those [n] lines. *)
Lemma readlines_take n s :
  readlines (join EmptyString (take n (readlines s))) = take n (readlines s).
Proof.
  revert n. induction s as [|c s IH]; intros n.
  - destruct n; reflexivity.
  - simpl readlines. destruct (decide (c = nl)) as [->|Hne].
    + destruct n as [|n]; [reflexivity|].
      simpl take. rewrite join_empty_cons. simpl.
      destruct (decide (nl = nl)); [|congruence].
      rewrite app_empty_l, IH. reflexivity.
    + destruct n as [|n].
      { destruct (readlines s); reflexivity. }
      specialize (IH (S n)).
      destruct (readlines s) as [|l ls].
      * simpl take. rewrite take_nil. simpl.
        destruct (decide (c = nl)); [contradiction|]. reflexivity.
      * simpl take in *. rewrite join_empty_cons in *. simpl.
        destruct (decide (c = nl)); [contradiction|].
        rewrite IH. reflexivity.
Qed.

Lemma first_lines_count n text : (length (readlines (first_lines n text)) <= n)%nat.
Proof.
  unfold first_lines. rewrite readlines_take, length_take. lia.
Qed.

Lemma first_lines_prefix n text :
  exists rest, text = first_lines n text +:+ rest.
Proof.
  exists (join EmptyString (drop n (readlines text))).
  unfold first_lines. rewrite <- join_take_drop, join_readlines. reflexivity.
Qed.

End Lines.

(** ** What each function does to the state *)

Section ProgramFacts.

Context (w : World).

Lemma artifact_text_ok content : exists text, artifact_text content = Ok text.
Proof.
  unfold artifact_text. destruct (Py.startswith "#!" content); [|eauto].
  pose proof (split_not_nil Py.nl content) as Hnn.
  destruct (Py.split Py.nl content) as [|l ls]; [contradiction|].
  rewrite param_helper_split. eauto.
Qed.

Lemma environ_setitem_legal n v s :
  legal_binding w (n, v) = true ->
  environ_setitem n (py_str w v) s = (Ok tt, set_environ <[n := py_str w v]> s).
Proof.
  unfold legal_binding, environ_setitem. simpl.
  intros H. repeat (apply andb_prop in H as [H ?]).
  apply negb_true_iff in H. rewrite H.
  match goal with Hx : negb (Py.has_char "000" (py_str w v)) = true |- _ =>
    apply negb_true_iff in Hx; rewrite Hx end.
  match goal with Hx : Py.nonempty n = true |- _ => rewrite Hx end.
  match goal with Hx : negb (Py.has_char "=" n) = true |- _ =>
    apply negb_true_iff in Hx; rewrite Hx end.
  reflexivity.
Qed.

Lemma environ_setitem_illegal n v s :
  legal_binding w (n, v) = false ->
  exists msg, environ_setitem n (py_str w v) s = (Raise msg, s).
Proof.
  unfold legal_binding, environ_setitem. simpl. intros H.
  destruct (Py.has_char "000" n); simpl in *; [eauto|].
  destruct (Py.has_char "000" (py_str w v)); simpl in *; [eauto|].
  destruct (Py.nonempty n); simpl in *; [|eauto].
  destruct (Py.has_char "=" n); simpl in *; [eauto|discriminate].
Qed.

(** The loop binds a prefix of the items, all of them when it returns. *)
Lemma bind_parameters_spec items acc s :
  exists r s' pre post,
    bind_parameters w items acc s = (r, s') /\
    items = pre ++ post /\
    forallb (legal_binding w) pre = true /\
    script_status_report s' = script_status_report s /\ files s' = files s /\
    events s' = events s /\ clock s' = clock s /\
    environ s' = bound_env w pre (environ s) /\
    match r with
    | Ok args => post = [] /\ args = acc +:+ flag_tokens w items
    | Raise _ => exists item rest, post = item :: rest /\ legal_binding w item = false
    end.
Proof.
  revert acc s. induction items as [|[n v] items IH]; intros acc s.
  - exists (Ok acc), s, [], []. simpl. rewrite app_empty_r. repeat split; reflexivity.
  - destruct (legal_binding w (n, v)) eqn:Hlegal.
    + destruct (IH (acc +:+ flag_token w n v) (set_environ <[n := py_str w v]> s))
        as (r & s' & pre & post & Hrun & Hitems & Hpre & Hrep & Hfiles & Hev & Hclk & Henv & Hr).
      exists r, s', ((n, v) :: pre), post.
      simpl bind_parameters. unfold bind at 1.
      rewrite (environ_setitem_legal _ _ _ Hlegal), Hrun.
      split; [reflexivity|]. split; [simpl; congruence|].
      split; [simpl; rewrite Hlegal, Hpre; reflexivity|].
      split; [exact Hrep|]. split; [exact Hfiles|]. split; [exact Hev|].
      split; [exact Hclk|]. split; [exact Henv|].
      destruct r as [args|msg]; [|exact Hr].
      destruct Hr as [-> ->]. split; [reflexivity|].
      simpl. rewrite app_assoc'. reflexivity.
    + destruct (environ_setitem_illegal n v s Hlegal) as [msg Hmsg].
      exists (Raise msg), s, [], ((n, v) :: items).
      simpl bind_parameters. unfold bind at 1. rewrite Hmsg.
      repeat split; eauto.
Qed.

Lemma capture_output_spec path stdout stderr s :
  capture_output path stdout stderr s =
    (Ok (first_lines 20 (Py.translate_newlines (output_text stdout stderr))),
     log_event (EvWrite path (output_text stdout stderr))
       (set_files <[path := output_text stdout stderr]> s)).
Proof.
  unfold capture_output, bind, write_file, modify, read_lines, ret. simpl.
  rewrite lookup_insert_eq. reflexivity.
Qed.

Lemma download_script_spec alias url s :
  match url with
  | PStr u =>
      match urlopen w (clock s) u with
      | Ok content =>
          exists text,
            artifact_text content = Ok text /\
            download_script w alias url s =
              (Ok (script_path alias),
               log_event (EvChmod (script_path alias) 493)
                 (log_event (EvWrite (script_path alias) text)
                    (set_files <[script_path alias := text]>
                       (advance (log_event (EvUrlopen u) s)))))
      | Raise msg =>
          download_script w alias url s =
            (Raise msg, advance (log_event (EvUrlopen u) s))
      end
  | _ => download_script w alias url s = (Raise (attribute_error url "timeout"), s)
  end.
Proof.
  unfold download_script, bind, fetch, lift, raise.
  destruct url; try reflexivity.
  destruct (urlopen w (clock s) s0) as [content|msg]; [|reflexivity].
  destruct (artifact_text_ok content) as [text Htext].
  exists text. rewrite Htext. split; reflexivity.
Qed.

Lemma execute_script_spec alias script_file params_map s :
  exists r s',
    execute_script w alias script_file params_map s = (r, s') /\
    script_status_report s' = script_status_report s /\
    match r with
    | Ok (exit_code, script_output) =>
        exists items stdout stderr,
          params_map = PDict items /\
          forallb (legal_binding w) items = true /\
          environ s' = bound_env w items (environ s) /\
          run_result w (clock s) (script_file +:+ flag_tokens w items)
                     (environ s') (files s) = (stdout, stderr, exit_code) /\
          script_output =
            first_lines 20 (Py.translate_newlines (output_text stdout stderr)) /\
          files s' = <[output_path alias := output_text stdout stderr]> (files s) /\
          events s' = events s ++
            [EvRun (ForAlias alias) (script_file +:+ flag_tokens w items) (environ s');
             EvWrite (output_path alias) (output_text stdout stderr)] /\
          clock s' = S (clock s)
    | Raise _ =>
        exists pre,
          (pre = [] \/ exists items post, params_map = PDict items /\ items = pre ++ post) /\
          environ s' = bound_env w pre (environ s) /\
          files s' = files s /\ events s' = events s /\ clock s' = clock s /\
          (forall items, params_map = PDict items ->
             exists item, item ∈ items /\ legal_binding w item = false)
    end.
Proof.
  unfold execute_script. unfold bind at 1.
  destruct params_map as [| | | | | |items];
    try (eexists (Raise _), s; split; [reflexivity|]; split; [reflexivity|];
         exists []; repeat split; auto; discriminate).
  unfold ret at 1.
  destruct (bind_parameters_spec items EmptyString s)
    as (r & s1 & pre & post & Hrun & Hitems & Hpre & Hrep & Hfiles & Hev & Hclk & Henv & Hr).
  unfold bind at 1. rewrite Hrun.
  destruct r as [args|msg].
  - destruct Hr as [-> ->]. rewrite app_nil_r in Hitems. subst pre.
    unfold bind at 1, run_command.
    destruct (run_result w (clock s1) (script_file +:+ EmptyString +:+ flag_tokens w items)
                (environ s1) (files s1)) as [[stdout stderr] exit_code] eqn:Hres.
    unfold bind at 1. rewrite capture_output_spec.
    eexists (Ok _), _. split; [reflexivity|]. simpl.
    split; [exact Hrep|].
    exists items, stdout, stderr.
    rewrite app_empty_l in Hres. rewrite Hclk, Hfiles in Hres.
    rewrite Hfiles, Hev, Hclk.
    repeat split; auto.
    rewrite <- app_assoc. reflexivity.
  - destruct Hr as (item & rest & -> & Hbad).
    exists (Raise msg), s1. split; [reflexivity|]. split; [exact Hrep|].
    exists pre. repeat split; eauto.
    intros items' Heq. inversion Heq; subst items'.
    exists item. split; [|exact Hbad].
    rewrite Hitems. apply elem_of_app. right. apply elem_of_cons. left. reflexivity.
Qed.

Lemma process_alias_spec repository script_parameters alias s :
  exists rec evs s',
    process_alias w repository script_parameters alias s = (Ok tt, s') /\
    script_status_report s' = with_record alias rec (script_status_report s) /\
    events s' = events s ++ evs /\
    alias_outcome w repository script_parameters alias s s' rec evs.
Proof.
  cbv [process_alias bind try_except now lift ret].
  destruct (py_get repository alias PNone) as [v|msg0] eqn:Hget.
  2:{ eexists _, [], _. split; [reflexivity|]. simpl.
      split; [reflexivity|]. split; [rewrite app_nil_r; reflexivity|].
      apply AO_unresolved; auto. unfold resolve_url. rewrite Hget. reflexivity. }
  destruct (convert_github_url v) as [url|msg] eqn:Hconv.
  2:{ eexists _, [], _. split; [reflexivity|]. simpl.
      split; [reflexivity|]. split; [rewrite app_nil_r; reflexivity|].
      apply AO_unresolved; auto. unfold resolve_url. rewrite Hget. exact Hconv. }
  assert (Hres : resolve_url repository alias = Ok url)
    by (unfold resolve_url; rewrite Hget; exact Hconv).
  destruct (truthy url) eqn:Htruthy; cbn [negb].
  2:{ eexists _, [], _. split; [reflexivity|]. simpl.
      split; [reflexivity|]. split; [rewrite app_nil_r; reflexivity|].
      eapply AO_no_url; eauto. }
  pose proof (download_script_spec alias url (advance s)) as Hdl.
  destruct url as [|b|z|nz r|u|l|d];
    try (rewrite Hdl; eexists _, [], _; split; [reflexivity|]; simpl;
         split; [reflexivity|]; split; [rewrite app_nil_r; reflexivity|];
         eapply AO_fetch_failed; eauto; reflexivity).
  simpl clock in Hdl.
  destruct (urlopen w (S (clock s)) u) as [content|msg] eqn:Hopen.
  2:{ rewrite Hdl. eexists _, [EvUrlopen u], _. split; [reflexivity|]. simpl.
      split; [reflexivity|]. split; [reflexivity|].
      eapply AO_fetch_failed; eauto. simpl. auto. }
  destruct Hdl as (text & Htext & ->).
  destruct (py_get script_parameters alias (PDict [])) as [params_map|msg] eqn:Hparams.
  2:{ eexists _, _, _. split; [reflexivity|]. simpl.
      split; [reflexivity|]. split; [rewrite <- !app_assoc; reflexivity|].
      eapply AO_bind_failed with (pre := []); eauto. }
  match goal with |- context [execute_script w alias ?f params_map ?st] =>
    destruct (execute_script_spec alias f params_map st)
      as (r & s1 & Hexec & Hrep & Hr); rewrite Hexec end.
  destruct r as [[exit_code script_output]|msg].
  - destruct Hr as (items & stdout & stderr & -> & Hlegal & Henv & Hrun & -> &
                    Hfiles & Hev & Hclk).
    simpl in Henv, Hrun, Hfiles, Hev, Hclk, Hrep.
    eexists _, _, _. split; [reflexivity|]. simpl.
    rewrite Hrep, Hev, Hclk. split; [reflexivity|].
    split; [rewrite <- !app_assoc; reflexivity|].
    simpl app.
    refine (AO_executed _ _ _ _ _ _ u content text items stdout stderr exit_code
              Hres Hopen Htext Hparams Hlegal _ _ _); simpl.
    + exact Henv.
    + exact Hrun.
    + exact Hfiles.
  - destruct Hr as (pre & Hpre & Henv & Hfiles & Hev & Hclk & _).
    simpl in Henv, Hfiles, Hev, Hclk, Hrep.
    eexists _, _, _. split; [reflexivity|]. simpl.
    rewrite Hrep, Hev. split; [reflexivity|].
    split; [rewrite <- !app_assoc; reflexivity|].
    eapply AO_bind_failed with (pre := pre); eauto.
    destruct Hpre as [->|(items & post & -> & ->)]; [left; reflexivity|].
    right. eauto.
Qed.

Lemma bound_env_notin k items env :
  k ∉ map fst items -> bound_env w items env !! k = env !! k.
Proof.
  revert env. induction items as [|[n v] items IH]; intros env Hk; [reflexivity|].
  simpl in *. apply not_elem_of_cons in Hk as [Hne Hk].
  rewrite (IH _ Hk). apply lookup_insert_ne. congruence.
Qed.

Lemma bound_env_in n v items env :
  NoDup (map fst items) -> (n, v) ∈ items ->
  bound_env w items env !! n = Some (py_str w v).
Proof.
  revert env. induction items as [|[n' v'] items IH]; intros env Hnd Hin.
  - inversion Hin.
  - simpl in *. apply NoDup_cons in Hnd as [Hfresh Hnd].
    apply elem_of_cons in Hin as [Heq|Hin].
    + inversion Heq; subst n' v'.
      rewrite (bound_env_notin _ _ _ Hfresh). apply lookup_insert_eq.
    + apply IH; assumption.
Qed.

Lemma flag_tokens_in n v items :
  (n, v) ∈ items ->
  exists before after, flag_tokens w items = before +:+ flag_token w n v +:+ after.
Proof.
  induction items as [|[n' v'] items IH]; intros Hin.
  - inversion Hin.
  - apply elem_of_cons in Hin as [Heq|Hin].
    + inversion Heq; subst n' v'. exists EmptyString, (flag_tokens w items). reflexivity.
    + destruct (IH Hin) as (before & after & Heq).
      exists (flag_token w n' v' +:+ before), after.
      simpl. rewrite Heq, app_assoc'. reflexivity.
Qed.

End ProgramFacts.

(** ** The materialised artifact *)

(** C10: a body that starts with an interpreter directive keeps that
    directive as the first line of the artifact, the preamble loses its own
    [#!/bin/bash] line, and the rest of the body follows the preamble; a
    body without a directive is written after the whole preamble.  The
    last part says that this text is what [download_script] stores under
    the artifact's path. *)
Theorem C10_directive_kept (directive rest : string) :
  Py.startswith "#!" directive = true ->
  Py.has_char Py.nl directive = false ->
  artifact_text (directive +:+ String Py.nl rest)
    = Ok (directive +:+ String Py.nl (param_helper_without_shebang +:+ rest))
  /\ artifact_text directive
    = Ok (directive +:+ String Py.nl param_helper_without_shebang)
  /\ Py.split Py.nl (directive +:+ String Py.nl (param_helper_without_shebang +:+ rest))
    = directive :: Py.split Py.nl (param_helper_without_shebang +:+ rest)
  /\ param_helper = "#!/bin/bash" +:+ String Py.nl param_helper_without_shebang
  /\ (forall body, Py.startswith "#!" body = false ->
        artifact_text body = Ok (param_helper +:+ body))
  /\ (forall (w : World) (alias url : string) (s : State),
        urlopen w (clock s) url = Ok (directive +:+ String Py.nl rest) ->
        fst (download_script w alias (PStr url) s) = Ok (script_path alias) /\
        files (snd (download_script w alias (PStr url) s)) !! script_path alias
          = Some (directive +:+ String Py.nl (param_helper_without_shebang +:+ rest))).
Proof.
  intros Hdir Hnl.
  assert (Htext : artifact_text (directive +:+ String Py.nl rest)
            = Ok (directive +:+ String Py.nl (param_helper_without_shebang +:+ rest))).
  { unfold artifact_text.
    rewrite (startswith_app _ _ (String Py.nl rest) Hdir).
    rewrite (split_at_first _ _ _ Hnl), param_helper_split.
    pose proof (join_split Py.nl rest) as Hj.
    unfold Py.chr in *. rewrite Hj. reflexivity. }
  split; [exact Htext|]. split; [|split; [|split; [|split]]].
  - unfold artifact_text. rewrite Hdir.
    rewrite (split_without_sep _ _ Hnl), param_helper_split.
    simpl Py.join. rewrite app_empty_r. reflexivity.
  - apply split_at_first. exact Hnl.
  - apply param_helper_unfold.
  - intros body Hb. unfold artifact_text. rewrite Hb. reflexivity.
  - intros w alias url s Hopen.
    pose proof (download_script_spec w alias (PStr url) s) as Hdl.
    simpl in Hdl. rewrite Hopen in Hdl. destruct Hdl as (text & Htext' & ->).
    rewrite Htext in Htext'. injection Htext' as <-.
    split; [reflexivity|]. simpl. apply lookup_insert_eq.
Qed.

Lemma C10_directive_kept_witness :
  Py.startswith "#!" "#!/bin/sh" = true /\
  artifact_text ("#!/bin/sh" +:+ String Py.nl ("echo hi" +:+ Py.chr Py.nl))
    = Ok ("#!/bin/sh" +:+
          String Py.nl (param_helper_without_shebang +:+ ("echo hi" +:+ Py.chr Py.nl))).
Proof.
  split; [reflexivity|].
  apply (C10_directive_kept "#!/bin/sh" ("echo hi" +:+ Py.chr Py.nl)); reflexivity.
Defined.

(** ** The Parameter Binder ([execute_script], lines 249-261) *)

(** C8, for parameters [os.environ] accepts: every parameter of the set is
    in the environment under its own name and on the command line as
    [--lower-hyphenated="value"], with the same value text.  The names of
    the items are distinct, as the keys of a Python dict are. *)
Theorem C8_parameters_bound_both_ways (w : World) (alias script_file : string)
  (items : list (string * pyval)) (s : State) :
  NoDup (map fst items) ->
  forallb (legal_binding w) items = true ->
  exists result s',
    execute_script w alias script_file (PDict items) s = (Ok result, s') /\
    forall n v, (n, v) ∈ items ->
      environ s' !! n = Some (py_str w v) /\
      flag_token w n v =
        " --" +:+ Py.replace "_" "-" (Py.lower n) +:+ "=" +:+
        Py.chr Py.dq +:+ py_str w v +:+ Py.chr Py.dq /\
      exists before after env,
        EvRun (ForAlias alias)
              (script_file +:+ before +:+ flag_token w n v +:+ after) env
          ∈ events s' /\
        env !! n = Some (py_str w v).
Proof.
  intros Hnd Hlegal.
  destruct (execute_script_spec w alias script_file (PDict items) s)
    as (r & s' & Hexec & Hrep & Hr).
  destruct r as [[exit_code script_output]|msg].
  - destruct Hr as (items' & stdout & stderr & Heq & _ & Henv & Hrun & _ & _ & Hev & _).
    inversion Heq; subst items'.
    exists (exit_code, script_output), s'. split; [exact Hexec|].
    intros n v Hin.
    assert (Hn : environ s' !! n = Some (py_str w v))
      by (rewrite Henv; apply bound_env_in; assumption).
    split; [exact Hn|]. split; [reflexivity|].
    destruct (flag_tokens_in w n v items Hin) as (before & after & Htok).
    exists before, after, (environ s'). split; [|exact Hn].
    rewrite Hev, <- Htok. apply elem_of_app. right. apply elem_of_cons. left. reflexivity.
  - destruct Hr as (pre & _ & _ & _ & _ & _ & Hbad).
    destruct (Hbad items eq_refl) as (item & Hin & Hill).
    rewrite forallb_forall in Hlegal.
    rewrite (Hlegal item) in Hill; [discriminate|].
    apply list_elem_of_In. exact Hin.
Qed.

Lemma C8_parameters_bound_both_ways_witness :
  exists result s',
    execute_script Demo.world "first" (script_path "first")
      (PDict [("retry_count", PInt 3)]) Demo.boot = (Ok result, s') /\
    environ s' !! "retry_count" = Some "3" /\
    flag_token Demo.world "retry_count" (PInt 3)
      = " --retry-count=" +:+ Py.chr Py.dq +:+ "3" +:+ Py.chr Py.dq /\
    exists before after env,
      EvRun (ForAlias "first")
            (script_path "first" +:+ before +:+
             flag_token Demo.world "retry_count" (PInt 3) +:+ after) env
        ∈ events s' /\
      env !! "retry_count" = Some "3".
Proof.
  assert (Hnd : NoDup (map fst [("retry_count", PInt 3)])).
  { apply NoDup_cons. split; [apply not_elem_of_nil|apply NoDup_nil_2]. }
  destruct (C8_parameters_bound_both_ways Demo.world "first" (script_path "first")
              [("retry_count", PInt 3)] Demo.boot Hnd eq_refl)
    as (result & s' & Hexec & Hall).
  exists result, s'. split; [exact Hexec|].
  destruct (Hall "retry_count" (PInt 3) ltac:(apply list_elem_of_here))
    as (Henv & Htoken & Hrun).
  split; [exact Henv|]. split; [reflexivity|exact Hrun].
Defined.

(** C8 as stated fails for a name [os.environ] refuses: the loop raises
    at that parameter, nothing is bound and no command is run. *)
Lemma C8_illegal_name_not_bound :
  let run := execute_script Demo.world "first" (script_path "first")
               (PDict [("a=b", PInt 1)]) Demo.boot in
  fst run = Raise "illegal environment variable name" /\
  environ (snd run) !! "a=b" = None /\
  events (snd run) = [].
Proof. vm_compute. repeat split; reflexivity. Qed.

(** ** Staging paths *)

Lemma app_inj_suffix a b t : a +:+ t = b +:+ t -> a = b.
Proof.
  revert b. induction a as [|c a IH]; intros [|c' b] H.
  - reflexivity.
  - apply (f_equal String.length) in H. rewrite app_empty_l, app_cons in H.
    simpl in H. rewrite length_app in H. lia.
  - apply (f_equal String.length) in H. rewrite app_empty_l, app_cons in H.
    simpl in H. rewrite length_app in H. lia.
  - simpl in H. injection H as -> H. rewrite (IH _ H). reflexivity.
Qed.

Lemma last_char_app s t : last_char t <> None -> last_char (s +:+ t) = last_char t.
Proof.
  intros Ht. induction s as [|c s IH]; [reflexivity|].
  simpl. rewrite IH. destruct (last_char t); [reflexivity|contradiction].
Qed.

Lemma script_path_inj a b : script_path a = script_path b -> a = b.
Proof.
  unfold script_path. intros H. simpl in H.
  injection H as H. rewrite !app_empty_l in H. apply app_inj_suffix in H. exact H.
Qed.

Lemma output_path_not_script_path a b : output_path a <> script_path b.
Proof.
  unfold output_path, script_path. intros H. simpl in H. injection H as H.
  rewrite !app_empty_l in H. apply (f_equal last_char) in H.
  rewrite !last_char_app in H by (simpl; discriminate).
  simpl in H. discriminate.
Qed.

Lemma catalog_path_not_script_path b :
  "/tmp/scripts/repository.json" <> script_path b.
Proof.
  unfold script_path. intros H. simpl in H. injection H as H.
  rewrite !app_empty_l in H. apply (f_equal last_char) in H.
  rewrite last_char_app in H by (simpl; discriminate).
  simpl in H. discriminate.
Qed.

(** ** The alias loop *)

Section Loop.

Context (w : World) (repository script_parameters : pyval).

(** An invariant of the loop body, and a property of every event it
    logs, hold for the whole loop. *)
Lemma for_each_process_inv (P : Event -> Prop) (I : State -> Prop) aliases :
  (forall alias s rec evs s',
     alias ∈ aliases -> I s ->
     process_alias w repository script_parameters alias s = (Ok tt, s') ->
     script_status_report s' = with_record alias rec (script_status_report s) ->
     events s' = events s ++ evs ->
     alias_outcome w repository script_parameters alias s s' rec evs ->
     Forall P evs /\ I s') ->
  forall s, I s ->
  exists s' evs,
    for_each aliases (process_alias w repository script_parameters) s = (Ok tt, s') /\
    events s' = events s ++ evs /\ Forall P evs /\ I s'.
Proof.
  induction aliases as [|a aliases IH]; intros Hstep s HI.
  - exists s, []. rewrite app_nil_r. repeat split; auto.
  - destruct (process_alias_spec w repository script_parameters a s)
      as (rec & evs & s1 & Hrun & Hrep & Hev & Hout).
    destruct (Hstep a s rec evs s1 ltac:(left) HI Hrun Hrep Hev Hout) as [HP HI1].
    destruct (IH (fun alias s rec evs s' Hin => Hstep alias s rec evs s' (list_elem_of_further _ _ _ Hin))
                 s1 HI1) as (s' & evs' & Hrun' & Hev' & HP' & HI').
    exists s', (evs ++ evs'). simpl for_each. unfold bind. rewrite Hrun, Hrun'.
    split; [reflexivity|]. split; [rewrite Hev', Hev, app_assoc; reflexivity|].
    split; [apply Forall_app; auto|exact HI'].
Qed.

Lemma for_each_app {A} (l1 l2 : list A) (body : A -> M unit) s :
  for_each (l1 ++ l2) body s =
  match for_each l1 body s with
  | (Ok _, s1) => for_each l2 body s1
  | (Raise e, s1) => (Raise e, s1)
  end.
Proof.
  revert s. induction l1 as [|x l1 IH]; intros s; [reflexivity|].
  simpl. unfold bind. destruct (body x s) as [[[]|e] s1]; [apply IH|reflexivity].
Qed.

End Loop.

(** ** The stages around the loop *)

Section Stages.

Context (w : World).

Lemma download_repository_spec url s :
  exists v s',
    download_repository w url s = (Ok v, s') /\
    timestamp (script_status_report s') = timestamp (script_status_report s) /\
    instance_name (script_status_report s') = instance_name (script_status_report s) /\
    scripts (script_status_report s') = scripts (script_status_report s) /\
    init_script (script_status_report s') = init_script (script_status_report s) /\
    environ s' = environ s /\ clock s' = S (clock s) /\
    match urlopen w (clock s) url with
    | Ok content =>
        files s' = <["/tmp/scripts/repository.json" := content]> (files s) /\
        events s' =
          events s ++ [EvUrlopen url; EvWrite "/tmp/scripts/repository.json" content] /\
        match json_loads w content with
        | Some parsed => v = parsed /\ repository_status (script_status_report s') = Some "success"
        | None => v = PNone /\ repository_status (script_status_report s') = Some "failed"
        end
    | Raise _ =>
        files s' = files s /\ events s' = events s ++ [EvUrlopen url] /\
        v = PNone /\ repository_status (script_status_report s') = Some "failed"
    end.
Proof.
  cbv [download_repository try_except bind fetch write_file modify
       set_repository_status ret].
  destruct (urlopen w (clock s) url) as [content|msg].
  - destruct (json_loads w content) as [parsed|].
    + eexists _, _. split; [reflexivity|]. simpl.
      rewrite <- app_assoc. repeat split; reflexivity.
    + eexists _, _. split; [reflexivity|]. simpl.
      rewrite <- app_assoc. repeat split; reflexivity.
  - eexists _, _. split; [reflexivity|]. simpl. repeat split; reflexivity.
Qed.

Lemma run_init_script_spec args s :
  exists s',
    run_init_script w args s = (Ok tt, s') /\
    timestamp (script_status_report s') = timestamp (script_status_report s) /\
    instance_name (script_status_report s') = instance_name (script_status_report s) /\
    scripts (script_status_report s') = scripts (script_status_report s) /\
    repository_status (script_status_report s') = repository_status (script_status_report s) /\
    environ s' = environ s /\
    if Py.nonempty (Py.strip (init_script_content args)) then
      events s' = events s ++ init_events w args s /\
      files s' = init_files w args s /\
      init_script (script_status_report s') = Some (init_record w args s)
    else
      events s' = events s /\ files s' = files s /\
      init_script (script_status_report s') = init_script (script_status_report s).
Proof.
  unfold run_init_script, init_events, init_record, init_files.
  destruct (Py.nonempty (Py.strip (init_script_content args))).
  - cbv [bind write_file chmod modify now run_command set_init_script].
    cbn [clock environ files advance log_event set_files].
    destruct (run_result w (S (clock s)) "/tmp/custom_init.sh" (environ s)
                (<["/tmp/custom_init.sh" := init_script_content args]> (files s)))
      as [[stdout stderr] exit_code] eqn:Hres.
    rewrite capture_output_spec.
    eexists. split; [reflexivity|]. simpl.
    rewrite <- !app_assoc. repeat split; reflexivity.
  - exists s. repeat split; reflexivity.
Qed.

Lemma send_status_report_spec args s :
  exists s',
    send_status_report w args s = (Ok tt, s') /\
    script_status_report s' = script_status_report s /\ files s' = files s /\ environ s' = environ s /\
    (events s' = events s \/
     exists body, events s' = events s ++ [EvPost (webhook_url args) body]).
Proof.
  unfold send_status_report.
  destruct (Py.nonempty (webhook_url args)); cbn [negb].
  2:{ exists s. repeat split; auto. }
  cbv [try_except bind get_instance_metadata gets ret].
  destruct (imds_token w (clock s)) as [token|msg].
  - cbn [clock script_status_report advance log_event].
    match goal with |- context [http_post w ?t ?u ?b] =>
      destruct (http_post w t u b) as [resp|msg] end.
    + eexists. split; [reflexivity|]. simpl. repeat split; eauto.
    + eexists. split; [reflexivity|]. simpl. repeat split; eauto.
  - eexists. split; [reflexivity|]. simpl. repeat split; auto.
Qed.

End Stages.

(** ** The run after the [jq] check *)

Section Pipeline.

Context (w : World).

(** Whatever the scripts stage did, the init script, the completion marker
    and the publisher follow, and nothing is raised. *)
Lemma pipeline_after_scripts args s s2 :
  scripts_stage w args (fresh_report w args s) = (Ok tt, s2) ->
  exists s5 evs_post,
    pipeline w args s = (Ok tt, s5) /\
    (exists s3 s4,
       run_init_script w args s2 = (Ok tt, s3) /\
       files s4 !! "/tmp/user_data_complete" = Some EmptyString /\
       publish_stage w args s4 = (Ok tt, s5)) /\
    timestamp (script_status_report s5) = timestamp (script_status_report s2) /\
    instance_name (script_status_report s5) = instance_name (script_status_report s2) /\
    scripts (script_status_report s5) = scripts (script_status_report s2) /\
    repository_status (script_status_report s5) = repository_status (script_status_report s2) /\
    files s5 !! "/tmp/user_data_complete" = Some EmptyString /\
    (if Py.nonempty (Py.strip (init_script_content args)) then
       init_script (script_status_report s5) = Some (init_record w args s2) /\
       events s5 = events s2 ++ init_events w args s2 ++
                   [EvWrite "/tmp/user_data_complete" EmptyString] ++ evs_post /\
       files s5 = <["/tmp/user_data_complete" := EmptyString]> (init_files w args s2)
     else
       init_script (script_status_report s5) = init_script (script_status_report s2) /\
       events s5 = events s2 ++
                   [EvWrite "/tmp/user_data_complete" EmptyString] ++ evs_post /\
       files s5 = <["/tmp/user_data_complete" := EmptyString]> (files s2)) /\
    (evs_post = [] \/ exists body, evs_post = [EvPost (webhook_url args) body]) /\
    (Py.nonempty (webhook_url args) = false -> evs_post = []).
Proof.
  intros Hstage. unfold scripts_stage, fresh_report in Hstage.
  unfold pipeline. unfold bind at 1, now. unfold bind at 1, modify at 1.
  unfold bind at 1. rewrite Hstage.
  destruct (run_init_script_spec w args s2)
    as (s3 & Hinit & Hts & Hname & Hscripts & Hrepo & Henv & Hrest).
  unfold bind at 1. rewrite Hinit.
  unfold bind at 1, write_file, modify.
  set (s4 := log_event (EvWrite "/tmp/user_data_complete" EmptyString)
               (set_files <["/tmp/user_data_complete" := EmptyString]> s3)).
  assert (Hs4 : exists s5 evs_post,
             (if Py.nonempty (webhook_url args) then send_status_report w args else ret tt) s4
               = (Ok tt, s5) /\
             script_status_report s5 = script_status_report s4 /\ files s5 = files s4 /\
             events s5 = events s4 ++ evs_post /\
             (evs_post = [] \/ exists body, evs_post = [EvPost (webhook_url args) body]) /\
             (Py.nonempty (webhook_url args) = false -> evs_post = [])).
  { destruct (Py.nonempty (webhook_url args)).
    - destruct (send_status_report_spec w args s4) as (s5 & Hsend & Hrep & Hfiles & _ & Hev).
      destruct Hev as [Hev|[body Hev]].
      + exists s5, []. rewrite app_nil_r. repeat split; auto.
      + exists s5, [EvPost (webhook_url args) body]. repeat split; eauto. discriminate.
    - exists s4, []. rewrite app_nil_r. repeat split; auto. }
  destruct Hs4 as (s5 & evs_post & Hsend & Hrep5 & Hfiles5 & Hev5 & Hpost & Hnone).
  exists s5, evs_post. rewrite Hsend. split; [reflexivity|].
  split.
  { exists s3, s4. split; [reflexivity|]. split; [apply lookup_insert_eq|exact Hsend]. }
  rewrite Hrep5, Hfiles5, Hev5. subst s4. simpl.
  rewrite Hts, Hname, Hscripts, Hrepo.
  repeat (split; [reflexivity|]).
  split; [apply lookup_insert_eq|].
  split; [|split; assumption].
  destruct (Py.nonempty (Py.strip (init_script_content args))).
  - destruct Hrest as (Hev & Hfiles & Hrec). rewrite Hev, Hrec, Hfiles.
    split; [reflexivity|]. split; [|reflexivity]. rewrite <- !app_assoc. reflexivity.
  - destruct Hrest as (Hev & Hfiles & Hrec). rewrite Hev, Hrec, Hfiles.
    split; [reflexivity|]. split; [|reflexivity]. rewrite <- !app_assoc. reflexivity.
Qed.

(** The scripts stage never raises; a property of the events of the
    catalog fetch and of every loop pass, and an invariant they keep, hold
    for the stage. *)
Lemma scripts_stage_inv (P : Event -> Prop) (I : State -> Prop) args :
  (forall url, P (EvUrlopen url)) ->
  (forall content, P (EvWrite "/tmp/scripts/repository.json" content)) ->
  (forall s v s',
     I s -> download_repository w (scripts_repository_url args) s = (Ok v, s') -> I s') ->
  (forall repository script_parameters alias s rec evs s',
     I s ->
     process_alias w repository script_parameters alias s = (Ok tt, s') ->
     script_status_report s' = with_record alias rec (script_status_report s) ->
     events s' = events s ++ evs ->
     alias_outcome w repository script_parameters alias s s' rec evs ->
     Forall P evs /\ I s') ->
  forall s, I s ->
  exists s' evs,
    scripts_stage w args s = (Ok tt, s') /\
    events s' = events s ++ evs /\ Forall P evs /\ I s'.
Proof.
  intros Hurl Hwrite Hrepo Hstep s HI.
  unfold scripts_stage, download_and_execute_scripts.
  destruct (Py.nonempty (scripts_repository_url args)); simpl;
    [|exists s, []; rewrite app_nil_r; repeat split; auto].
  destruct (Py.nonempty (script_aliases args)); simpl;
    [|exists s, []; rewrite app_nil_r; repeat split; auto].
  destruct (download_repository_spec w (scripts_repository_url args) s)
    as (v & s1 & Hrun & _ & _ & _ & _ & _ & _ & Hcase).
  unfold bind at 1. rewrite Hrun.
  assert (Hev1 : exists evs1, events s1 = events s ++ evs1 /\ Forall P evs1).
  { destruct (urlopen w (clock s) (scripts_repository_url args)).
    - destruct Hcase as (_ & Hev & _). eexists. split; [exact Hev|].
      repeat constructor; auto.
    - destruct Hcase as (_ & Hev & _). eexists. split; [exact Hev|].
      repeat constructor; auto. }
  destruct Hev1 as (evs1 & Hev1 & HP1).
  pose proof (Hrepo s v s1 HI Hrun) as HI1.
  destruct (truthy v); cbn [negb].
  2:{ exists s1, evs1. repeat split; auto. }
  match goal with |- context [for_each ?l (process_alias w v ?params)] =>
    destruct (for_each_process_inv w v params P I l
                (fun alias s rec evs s' _ => Hstep v params alias s rec evs s') s1 HI1)
      as (s' & evs & Hloop & Hev & HP & HI') end.
  exists s', (evs1 ++ evs). split; [exact Hloop|].
  split; [rewrite Hev, Hev1, app_assoc; reflexivity|].
  split; [apply Forall_app; auto|exact HI'].
Qed.

(** Nothing raised inside the stages leaves [pipeline]. *)
Lemma pipeline_never_raises args s : exists s', pipeline w args s = (Ok tt, s').
Proof.
  destruct (scripts_stage_inv (fun _ => True) (fun _ => True) args) with (s := fresh_report w args s)
    as (s2 & evs & Hstage & _); auto.
  { intros. split; [apply Forall_forall|]; auto. }
  destruct (pipeline_after_scripts args s s2 Hstage) as (s5 & _ & Hpipe & _).
  eauto.
Qed.

Lemma startup_spec s :
  exists code s', startup w s = (Ok code, s') /\ (code = None \/ code = Some 1).
Proof.
  cbv [startup bind run_command ret].
  cbn [clock environ files advance log_event].
  destruct (run_result w (S (S (clock s))) "which jq" (environ s) (files s))
    as [[out1 err1] code1].
  destruct (decide (code1 = 0)); [eauto|].
  cbn [clock environ files advance log_event].
  destruct (run_result w (S (S (S (S (clock s))))) "which jq" (environ s) (files s))
    as [[out2 err2] code2].
  destruct (decide (code2 = 0)); eauto.
Qed.

(** The whole script either completes or leaves through [sys.exit(1)]
    when [jq] cannot be installed. *)
Lemma main_outcome args s :
  fst (main w args s) = Completed \/ fst (main w args s) = SystemExit 1.
Proof.
  unfold main. destruct (startup_spec s) as (code & s1 & -> & [-> | ->]).
  - destruct (pipeline_never_raises args s1) as [s' ->]. left. reflexivity.
  - right. reflexivity.
Qed.

End Pipeline.

(** ** The Catalog Fetcher on a catalog that is not JSON *)

(** C5: when the catalog is retrieved but does not parse, the fetcher
    returns [None] without raising and records "failed"; no alias is
    processed, and the init script, the completion marker and the
    publisher still run to the end.  The catalog is requested at clock
    [S (clock s)], right after the report's timestamp was taken. *)
Theorem C5_invalid_catalog_json (w : World) (args : Args) (s : State)
  (content : string) :
  Py.nonempty (scripts_repository_url args) = true ->
  Py.nonempty (script_aliases args) = true ->
  urlopen w (S (clock s)) (scripts_repository_url args) = Ok content ->
  json_loads w content = None ->
  exists s2 s5,
    download_repository w (scripts_repository_url args) (fresh_report w args s)
      = (Ok PNone, s2) /\
    repository_status (script_status_report s2) = Some "failed" /\
    scripts_stage w args (fresh_report w args s) = (Ok tt, s2) /\
    pipeline w args s = (Ok tt, s5) /\
    repository_status (script_status_report s5) = Some "failed" /\
    scripts (script_status_report s5) = ∅ /\
    files s5 !! "/tmp/user_data_complete" = Some EmptyString /\
    (exists s3 s4,
       run_init_script w args s2 = (Ok tt, s3) /\
       files s4 !! "/tmp/user_data_complete" = Some EmptyString /\
       publish_stage w args s4 = (Ok tt, s5)) /\
    (Py.nonempty (Py.strip (init_script_content args)) = true ->
       init_script (script_status_report s5) = Some (init_record w args s2)).
Proof.
  intros Hurl Haliases Hopen Hparse.
  destruct (download_repository_spec w (scripts_repository_url args) (fresh_report w args s))
    as (v & s2 & Hrun & _ & _ & Hscripts & _ & _ & _ & Hcase).
  change (clock (fresh_report w args s)) with (S (clock s)) in Hcase.
  rewrite Hopen, Hparse in Hcase. destruct Hcase as (_ & _ & -> & Hstatus).
  assert (Hstage : scripts_stage w args (fresh_report w args s) = (Ok tt, s2)).
  { unfold scripts_stage, download_and_execute_scripts.
    rewrite Hurl, Haliases. simpl. unfold bind. rewrite Hrun. reflexivity. }
  destruct (pipeline_after_scripts w args s s2 Hstage)
    as (s5 & evs & Hpipe & Hstages & _ & _ & Hsc & Hrs & Hmarker & Hinit & _).
  exists s2, s5. split; [exact Hrun|]. split; [exact Hstatus|].
  split; [exact Hstage|]. split; [exact Hpipe|].
  split; [rewrite Hrs; exact Hstatus|].
  split; [rewrite Hsc, Hscripts; reflexivity|].
  split; [exact Hmarker|]. split; [exact Hstages|].
  intros Hblank. rewrite Hblank in Hinit. apply Hinit.
Qed.

Lemma C5_invalid_catalog_json_witness :
  let args := Demo.args "https://example.com/broken.json" "first" "{}" "echo hi" in
  urlopen Demo.world 1 (scripts_repository_url args) = Ok "<html>" /\
  json_loads Demo.world "<html>" = None /\
  exists s2 s5,
    download_repository Demo.world (scripts_repository_url args)
      (fresh_report Demo.world args Demo.boot) = (Ok PNone, s2) /\
    repository_status (script_status_report s2) = Some "failed" /\
    scripts_stage Demo.world args (fresh_report Demo.world args Demo.boot) = (Ok tt, s2) /\
    pipeline Demo.world args Demo.boot = (Ok tt, s5) /\
    repository_status (script_status_report s5) = Some "failed" /\
    scripts (script_status_report s5) = ∅ /\
    files s5 !! "/tmp/user_data_complete" = Some EmptyString /\
    (exists s3 s4,
       run_init_script Demo.world args s2 = (Ok tt, s3) /\
       files s4 !! "/tmp/user_data_complete" = Some EmptyString /\
       publish_stage Demo.world args s4 = (Ok tt, s5)) /\
    (Py.nonempty (Py.strip (init_script_content args)) = true ->
       init_script (script_status_report s5) = Some (init_record Demo.world args s2)).
Proof.
  intros args. split; [reflexivity|]. split; [reflexivity|].
  apply (C5_invalid_catalog_json Demo.world args Demo.boot "<html>"); reflexivity.
Defined.

(** ** Aliases that the catalog does not list *)

Section Absent.

Context (w : World).

Lemma resolve_url_absent d alias :
  assoc alias d = None -> resolve_url (PDict d) alias = Ok PNone.
Proof. intros H. unfold resolve_url, py_get. rewrite H. reflexivity. Qed.

Lemma absent_step d script_parameters alias b s s' rec evs :
  assoc alias d = None ->
  alias_outcome w (PDict d) script_parameters b s s' rec evs ->
  script_status_report s' = with_record b rec (script_status_report s) ->
  Forall (quiet_for alias) evs /\
  (no_url_record alias s -> no_url_record alias s') /\
  (b = alias -> no_url_record alias s').
Proof.
  intros Habsent Hout Hrep. destruct (decide (b = alias)) as [->|Hne].
  - pose proof (resolve_url_absent d alias Habsent) as Hres.
    assert (Hrec : rec = Errored "error" "No URL found for alias"
                           (utcnow w (clock s)) (utcnow w (S (clock s))) /\ evs = []).
    { inversion Hout; subst; rewrite Hres in *; try discriminate;
        try (match goal with H : Ok _ = Ok _ |- _ => inversion H; subst end;
             simpl in *; discriminate).
      split; reflexivity. }
    destruct Hrec as [-> ->].
    assert (Hnow : no_url_record alias s').
    { unfold no_url_record. rewrite Hrep. simpl. rewrite lookup_insert_eq. eauto. }
    split; [constructor|]. split; auto.
  - assert (Hframe : scripts (script_status_report s') !! alias = scripts (script_status_report s) !! alias).
    { rewrite Hrep. simpl. apply lookup_insert_ne. exact Hne. }
    assert (Hsp : script_path b <> script_path alias)
      by (intros H; apply Hne, script_path_inj, H).
    assert (Hop : output_path b <> script_path alias)
      by apply output_path_not_script_path.
    assert (Hwho : ForAlias b <> ForAlias alias) by congruence.
    split; [|split; [|contradiction]].
    + inversion Hout; subst; repeat constructor; simpl; auto.
      destruct url; try (subst; constructor).
      match goal with H : _ /\ _ |- _ => destruct H as [-> _] end.
      repeat constructor.
    + unfold no_url_record. rewrite Hframe. auto.
Qed.

End Absent.

Section AbsentRun.

Context (w : World).

Lemma absent_loop d script_parameters alias aliases :
  assoc alias d = None ->
  forall s,
  exists s' evs,
    for_each aliases (process_alias w (PDict d) script_parameters) s = (Ok tt, s') /\
    events s' = events s ++ evs /\
    Forall (quiet_for alias) evs /\
    (no_url_record alias s \/ alias ∈ aliases -> no_url_record alias s').
Proof.
  intros Habsent. induction aliases as [|b aliases IH]; intros s.
  - exists s, []. rewrite app_nil_r. repeat split; auto.
    intros [H|H]; [exact H|inversion H].
  - destruct (process_alias_spec w (PDict d) script_parameters b s)
      as (rec & evs & s1 & Hrun & Hrep & Hev & Hout).
    destruct (absent_step w d script_parameters alias b s s1 rec evs Habsent Hout Hrep)
      as (Hquiet & Hkeep & Hset).
    destruct (IH s1) as (s' & evs' & Hloop & Hev' & Hquiet' & Hrec).
    exists s', (evs ++ evs'). simpl for_each. unfold bind. rewrite Hrun, Hloop.
    split; [reflexivity|]. split; [rewrite Hev', Hev, app_assoc; reflexivity|].
    split; [apply Forall_app; auto|].
    intros [H|H]; apply Hrec.
    + left. auto.
    + apply elem_of_cons in H as [->|H]; [left; auto|right; exact H].
Qed.

End AbsentRun.

(** C1, for a catalog that is a non-empty JSON object: an alias of the
    declared list that the catalog does not contain ends with the record
    "error" / "No URL found for alias"; the run never writes its artifact
    and never executes it.  The catalog is requested at clock
    [S (clock s)], right after the report's timestamp was taken. *)
Theorem C1_absent_alias_recorded (w : World) (args : Args) (s : State)
  (content : string) (d : list (string * pyval)) (alias : string) :
  Py.nonempty (scripts_repository_url args) = true ->
  Py.nonempty (script_aliases args) = true ->
  urlopen w (S (clock s)) (scripts_repository_url args) = Ok content ->
  json_loads w content = Some (PDict d) ->
  d <> [] ->
  alias ∈ Py.split_ws (script_aliases args) ->
  assoc alias d = None ->
  exists s' evs t0 t1,
    pipeline w args s = (Ok tt, s') /\
    scripts (script_status_report s') !! alias
      = Some (Errored "error" "No URL found for alias" t0 t1) /\
    events s' = events s ++ evs /\
    (forall text, EvWrite (script_path alias) text ∉ evs) /\
    (forall cmd env, EvRun (ForAlias alias) cmd env ∉ evs).
Proof.
  intros Hurl Haliases Hopen Hparse Hd Hin Habsent.
  destruct (download_repository_spec w (scripts_repository_url args) (fresh_report w args s))
    as (v & s1 & Hrun & _ & _ & _ & _ & _ & _ & Hcase).
  change (clock (fresh_report w args s)) with (S (clock s)) in Hcase.
  rewrite Hopen, Hparse in Hcase. destruct Hcase as (_ & Hev1 & -> & _).
  simpl events in Hev1.
  set (params := match json_loads w (script_parameters args) with
                 | Some v => v
                 | None => PDict []
                 end).
  destruct (absent_loop w d params alias (Py.split_ws (script_aliases args)) Habsent s1)
    as (s2 & evs2 & Hloop & Hev2 & Hquiet2 & Hrec2).
  assert (Hstage : scripts_stage w args (fresh_report w args s) = (Ok tt, s2)).
  { unfold scripts_stage, download_and_execute_scripts.
    rewrite Hurl, Haliases. simpl. unfold bind at 1. rewrite Hrun.
    destruct d; [contradiction|]. simpl. exact Hloop. }
  destruct (pipeline_after_scripts w args s s2 Hstage)
    as (s5 & evs_post & Hpipe & _ & _ & _ & Hsc & _ & _ & Hinit & Hpost & _).
  destruct (Hrec2 (or_intror Hin)) as (t0 & t1 & Hrecord).
  assert (Hpost_quiet : Forall (quiet_for alias)
            ([EvWrite "/tmp/user_data_complete" EmptyString] ++ evs_post)).
  { apply Forall_app. split.
    - repeat constructor. simpl. discriminate.
    - destruct Hpost as [->|[body ->]]; repeat constructor. }
  assert (Hall : exists evs, events s5 = events s ++ evs /\ Forall (quiet_for alias) evs).
  { destruct (Py.nonempty (Py.strip (init_script_content args))).
    - destruct Hinit as (_ & Hev5 & _). eexists. split.
      + rewrite Hev5, Hev2, Hev1, <- !app_assoc. reflexivity.
      + apply Forall_app. split;
          [repeat constructor; apply catalog_path_not_script_path|].
        apply Forall_app. split; [exact Hquiet2|].
        apply Forall_app. split; [|exact Hpost_quiet].
        unfold init_events.
        destruct (run_result w _ _ _ _) as [[stdout stderr] code].
        repeat constructor; simpl; discriminate.
    - destruct Hinit as (_ & Hev5 & _). eexists. split.
      + rewrite Hev5, Hev2, Hev1, <- !app_assoc. reflexivity.
      + apply Forall_app. split;
          [repeat constructor; apply catalog_path_not_script_path|].
        apply Forall_app. split; [exact Hquiet2|exact Hpost_quiet]. }
  destruct Hall as (evs & Hev & Hquiet).
  exists s5, evs, t0, t1. split; [exact Hpipe|].
  split; [rewrite Hsc; exact Hrecord|]. split; [exact Hev|].
  rewrite Forall_forall in Hquiet. split.
  - intros text Hmem. apply (Hquiet _ Hmem). reflexivity.
  - intros cmd env Hmem. apply (Hquiet _ Hmem). reflexivity.
Qed.

Lemma C1_absent_alias_recorded_witness :
  let args := Demo.args "https://example.com/catalog.json" "first missing" "{}" EmptyString in
  let d := [("first", PStr "https://example.com/first.sh");
            ("second", PStr "https://example.com/second.sh")] in
  urlopen Demo.world 1 (scripts_repository_url args) = Ok Demo.catalog_text /\
  json_loads Demo.world Demo.catalog_text = Some (PDict d) /\
  "missing" ∈ Py.split_ws (script_aliases args) /\
  assoc "missing" d = None /\
  exists s' evs t0 t1,
    pipeline Demo.world args Demo.boot = (Ok tt, s') /\
    scripts (script_status_report s') !! "missing"
      = Some (Errored "error" "No URL found for alias" t0 t1) /\
    events s' = events Demo.boot ++ evs /\
    (forall text, EvWrite (script_path "missing") text ∉ evs) /\
    (forall cmd env, EvRun (ForAlias "missing") cmd env ∉ evs).
Proof.
  intros args d.
  assert (Hin : "missing" ∈ Py.split_ws (script_aliases args)).
  { apply list_elem_of_In. vm_compute. right. left. reflexivity. }
  split; [reflexivity|]. split; [reflexivity|]. split; [exact Hin|].
  split; [reflexivity|].
  apply (C1_absent_alias_recorded Demo.world args Demo.boot Demo.catalog_text d "missing");
    try reflexivity; [discriminate|exact Hin].
Defined.

(** C1 as stated fails on an empty catalog: [{}] downloads and parses,
    but [if not repository: return] leaves before the loop, so the
    declared alias gets no record at all. *)
Lemma C1_empty_catalog_no_record :
  let args := Demo.args "https://example.com/empty.json" "first" "{}" EmptyString in
  Py.nonempty (scripts_repository_url args) = true /\
  Py.nonempty (script_aliases args) = true /\
  urlopen Demo.world 1 (scripts_repository_url args) = Ok "{}" /\
  json_loads Demo.world "{}" = Some (PDict []) /\
  Py.split_ws (script_aliases args) = ["first"] /\
  assoc "first" [] = None /\
  fst (pipeline Demo.world args Demo.boot) = Ok tt /\
  scripts (script_status_report (snd (pipeline Demo.world args Demo.boot))) !! "first" = None.
Proof. vm_compute. repeat split; reflexivity. Qed.

(** ** The pass and the stage when file operations fail *)

(** With no fault, the functions with failing file operations are the
    functions of the source's names. *)
Lemma process_alias_io_no_faults (w : World) :
  process_alias_io w no_faults = process_alias w.
Proof. reflexivity. Qed.

Lemma pipeline_io_no_faults (w : World) :
  pipeline_io w no_faults = pipeline w.
Proof. reflexivity. Qed.

Section FaultyFacts.

Context (w : World) (fs : Faults).

Lemma capture_output_io_spec path stdout stderr s :
  exists r s',
    capture_output_io fs path stdout stderr s = (r, s') /\
    script_status_report s' = script_status_report s /\
    environ s' = environ s /\ clock s' = clock s /\
    match write_fault fs (clock s) path (output_text stdout stderr) with
    | Some (msg, _) => r = Raise msg /\ events s' = events s
    | None =>
        events s' = events s ++ [EvWrite path (output_text stdout stderr)] /\
        files s' = <[path := output_text stdout stderr]> (files s) /\
        match read_fault fs (clock s) path with
        | Some msg => r = Raise msg
        | None =>
            r = Ok (first_lines 20 (Py.translate_newlines (output_text stdout stderr)))
        end
    end.
Proof.
  unfold capture_output_io, bind, write_file_io.
  destruct (write_fault fs (clock s) path (output_text stdout stderr))
    as [[msg residue]|].
  - eexists _, _. split; [reflexivity|]. destruct residue; repeat split; reflexivity.
  - unfold write_file, modify, read_lines_io.
    cbn [clock log_event set_files].
    destruct (read_fault fs (clock s) path) as [msg|].
    + eexists _, _. split; [reflexivity|]. repeat split; reflexivity.
    + unfold read_lines, ret. cbn [files log_event set_files].
      rewrite lookup_insert_eq.
      eexists _, _. split; [reflexivity|]. repeat split; reflexivity.
Qed.

(** The download of a script: the artifact is in place, or the call
    raised after at most the request and the write. *)
Lemma download_script_io_spec alias url s :
  exists r s',
    download_script_io w fs alias url s = (r, s') /\
    script_status_report s' = script_status_report s /\
    environ s' = environ s /\
    ((exists u content text,
        r = Ok (script_path alias) /\ url = PStr u /\
        urlopen w (clock s) u = Ok content /\ artifact_text content = Ok text /\
        events s' = events s ++
          [EvUrlopen u; EvWrite (script_path alias) text;
           EvChmod (script_path alias) 493] /\
        files s' = <[script_path alias := text]> (files s) /\
        clock s' = S (clock s)) \/
     (exists msg evs u text,
        r = Raise msg /\ events s' = events s ++ evs /\
        evs `prefix_of` [EvUrlopen u; EvWrite (script_path alias) text])).
Proof.
  unfold download_script_io, bind, fetch, lift, raise.
  destruct url as [|b|z|nz rd|u|l|d];
    try (eexists _, _; split; [reflexivity|]; split; [reflexivity|];
         split; [reflexivity|]; right;
         eexists _, [], EmptyString, EmptyString;
         split; [reflexivity|]; split; [rewrite app_nil_r; reflexivity|];
         apply prefix_nil).
  destruct (urlopen w (clock s) u) as [content|msg] eqn:Hopen.
  2:{ eexists _, _. split; [reflexivity|]. split; [reflexivity|]. split; [reflexivity|].
      right. exists msg, [EvUrlopen u], u, EmptyString.
      split; [reflexivity|]. split; [reflexivity|]. exists [EvWrite (script_path alias) EmptyString].
      reflexivity. }
  destruct (artifact_text_ok content) as [text Htext]. rewrite Htext.
  unfold write_file_io. cbn [clock advance log_event].
  destruct (write_fault fs (S (clock s)) (script_path alias) text) as [[msg residue]|].
  { eexists _, _. split; [reflexivity|].
    split; [destruct residue; reflexivity|]. split; [destruct residue; reflexivity|].
    right. exists msg, [EvUrlopen u], u, text.
    split; [reflexivity|]. split; [destruct residue; reflexivity|].
    exists [EvWrite (script_path alias) text]. reflexivity. }
  unfold write_file, modify, chmod_io. cbn [clock advance log_event set_files].
  destruct (chmod_fault fs (S (clock s)) (script_path alias)) as [msg|].
  { eexists _, _. split; [reflexivity|]. split; [reflexivity|]. split; [reflexivity|].
    right. exists msg, [EvUrlopen u; EvWrite (script_path alias) text], u, text.
    split; [reflexivity|]. split; [simpl; rewrite <- app_assoc; reflexivity|].
    reflexivity. }
  unfold chmod, modify, ret.
  eexists _, _. split; [reflexivity|]. split; [reflexivity|]. split; [reflexivity|].
  left. exists u, content, text. simpl. rewrite <- !app_assoc.
  repeat split; auto.
Qed.

(** The execution of an artifact: the call raised before the run, or the
    artifact was run and the capture decides. *)
Lemma execute_script_io_spec alias script_file params_map s :
  exists r s',
    execute_script_io w fs alias script_file params_map s = (r, s') /\
    script_status_report s' = script_status_report s /\
    (((exists msg, r = Raise msg) /\ events s' = events s /\ clock s' = clock s) \/
     (exists items stdout stderr code,
        params_map = PDict items /\
        run_result w (clock s) (script_file +:+ flag_tokens w items)
                   (bound_env w items (environ s)) (files s)
          = (stdout, stderr, code) /\
        clock s' = S (clock s) /\
        match write_fault fs (S (clock s)) (output_path alias)
                (output_text stdout stderr) with
        | Some (msg, _) =>
            r = Raise msg /\
            events s' = events s ++
              [EvRun (ForAlias alias) (script_file +:+ flag_tokens w items)
                     (bound_env w items (environ s))]
        | None =>
            events s' = events s ++
              [EvRun (ForAlias alias) (script_file +:+ flag_tokens w items)
                     (bound_env w items (environ s));
               EvWrite (output_path alias) (output_text stdout stderr)] /\
            match read_fault fs (S (clock s)) (output_path alias) with
            | Some msg => r = Raise msg
            | None =>
                r = Ok (code,
                        first_lines 20
                          (Py.translate_newlines (output_text stdout stderr)))
            end
        end)).
Proof.
  unfold execute_script_io. unfold bind at 1.
  destruct params_map as [|b|z|nz rd|u|l|items];
    try (eexists (Raise _), s; split; [reflexivity|]; split; [reflexivity|];
         left; split; [eauto|split; reflexivity]).
  unfold ret at 1.
  destruct (bind_parameters_spec w items EmptyString s)
    as (r & s1 & pre & post & Hrun & Hitems & Hpre & Hrep & Hfiles & Hev & Hclk & Henv & Hr).
  unfold bind at 1. rewrite Hrun.
  destruct r as [args|msg].
  2:{ exists (Raise msg), s1. split; [reflexivity|]. split; [exact Hrep|].
      left. split; [eauto|split; assumption]. }
  destruct Hr as [-> ->]. rewrite app_nil_r in Hitems. subst pre.
  rewrite app_empty_l.
  unfold bind at 1, run_command.
  destruct (run_result w (clock s1) (script_file +:+ flag_tokens w items)
              (environ s1) (files s1)) as [[stdout stderr] code] eqn:Hres.
  cbn [fst snd]. unfold bind at 1.
  match goal with |- context [capture_output_io fs ?p ?o ?e ?st] =>
    destruct (capture_output_io_spec p o e st)
      as (r & s2 & Hcap & Hrep2 & Henv2 & Hclk2 & Hcase) end.
  rewrite Hcap.
  cbn [clock events advance log_event] in Hclk2, Hcase, Hrep2.
  rewrite Hclk, Hfiles, Henv in Hres. rewrite Hclk, Hev, Henv in Hcase.
  exists (match r with Ok out => Ok (code, out) | Raise e => Raise e end), s2.
  split; [destruct r; reflexivity|].
  split; [rewrite Hrep2; exact Hrep|].
  right. exists items, stdout, stderr, code.
  split; [reflexivity|]. split; [exact Hres|].
  split; [rewrite Hclk2, Hclk; reflexivity|].
  destruct (write_fault fs (S (clock s)) (output_path alias) (output_text stdout stderr))
    as [[msg residue]|].
  - destruct Hcase as [-> Hev2]. split; [reflexivity|exact Hev2].
  - destruct Hcase as (Hev2 & _ & Hread).
    split; [rewrite Hev2, <- app_assoc; reflexivity|].
    destruct (read_fault fs (S (clock s)) (output_path alias)); subst r; reflexivity.
Qed.

(** One pass of the loop body: it never raises; either the artifact was
    not run and the record is an error one, or it was run and the capture
    of its output decides between the executed record and an error one. *)
Lemma process_alias_io_spec repository script_parameters alias s :
  exists rec evs s',
    process_alias_io w fs repository script_parameters alias s = (Ok tt, s') /\
    script_status_report s' = with_record alias rec (script_status_report s) /\
    events s' = events s ++ evs /\
    (((exists msg t0 t1, rec = Errored "error" msg t0 t1) /\
      (exists u text,
         evs `prefix_of` [EvUrlopen u; EvWrite (script_path alias) text;
                          EvChmod (script_path alias) 493])) \/
     (exists u text items stdout stderr code,
        run_result w (2 + clock s) (script_path alias +:+ flag_tokens w items)
                   (bound_env w items (environ s))
                   (<[script_path alias := text]> (files s))
          = (stdout, stderr, code) /\
        match write_fault fs (3 + clock s) (output_path alias)
                (output_text stdout stderr) with
        | Some (msg, _) =>
            rec = Errored "error" msg (utcnow w (clock s)) (utcnow w (3 + clock s)) /\
            evs = [EvUrlopen u; EvWrite (script_path alias) text;
                   EvChmod (script_path alias) 493;
                   EvRun (ForAlias alias) (script_path alias +:+ flag_tokens w items)
                         (bound_env w items (environ s))]
        | None =>
            evs = [EvUrlopen u; EvWrite (script_path alias) text;
                   EvChmod (script_path alias) 493;
                   EvRun (ForAlias alias) (script_path alias +:+ flag_tokens w items)
                         (bound_env w items (environ s));
                   EvWrite (output_path alias) (output_text stdout stderr)] /\
            match read_fault fs (3 + clock s) (output_path alias) with
            | Some msg =>
                rec = Errored "error" msg (utcnow w (clock s)) (utcnow w (3 + clock s))
            | None =>
                rec = Executed (status_of_exit_code code) code
                        (first_lines 20
                           (Py.translate_newlines (output_text stdout stderr)))
                        (utcnow w (clock s)) (utcnow w (3 + clock s))
            end
        end)).
Proof.
  assert (Hquiet : forall msg t0 t1 (evs : list Event) u text,
            evs `prefix_of` [EvUrlopen u; EvWrite (script_path alias) text;
                             EvChmod (script_path alias) 493] ->
            (exists msg' t0' t1', Errored "error" msg t0 t1 = Errored "error" msg' t0' t1') /\
            (exists u text,
               evs `prefix_of` [EvUrlopen u; EvWrite (script_path alias) text;
                                EvChmod (script_path alias) 493])) by eauto 10.
  cbv [process_alias_io bind try_except now lift ret].
  destruct (py_get repository alias PNone) as [v|msg0].
  2:{ eexists _, [], _. split; [reflexivity|]. simpl.
      split; [reflexivity|]. split; [rewrite app_nil_r; reflexivity|].
      left. apply (Hquiet _ _ _ _ EmptyString EmptyString), prefix_nil. }
  destruct (convert_github_url v) as [url|msg].
  2:{ eexists _, [], _. split; [reflexivity|]. simpl.
      split; [reflexivity|]. split; [rewrite app_nil_r; reflexivity|].
      left. apply (Hquiet _ _ _ _ EmptyString EmptyString), prefix_nil. }
  destruct (truthy url); cbn [negb].
  2:{ eexists _, [], _. split; [reflexivity|]. simpl.
      split; [reflexivity|]. split; [rewrite app_nil_r; reflexivity|].
      left. apply (Hquiet _ _ _ _ EmptyString EmptyString), prefix_nil. }
  destruct (download_script_io_spec alias url (advance s))
    as (r1 & s1 & Hdl & Hrep1 & Henv1 & Hcase1). rewrite Hdl.
  cbn [clock events files environ script_status_report advance] in Hrep1, Henv1, Hcase1.
  destruct Hcase1 as [(u & content & text & -> & -> & Hopen & Htext & Hev1 & Hfiles1 & Hclk1)
                     |(msg & evs & u & text & -> & Hev1 & Hpre)].
  2:{ eexists _, evs, _. split; [reflexivity|]. simpl.
      rewrite Hrep1, Hev1. split; [reflexivity|]. split; [reflexivity|].
      left. apply (Hquiet _ _ _ _ u text).
      destruct Hpre as [k Hk]. exists (k ++ [EvChmod (script_path alias) 493]).
      rewrite app_assoc, <- Hk. reflexivity. }
  destruct (py_get script_parameters alias (PDict [])) as [params_map|msg].
  2:{ eexists _, _, _. split; [reflexivity|]. simpl.
      rewrite Hrep1, Hev1. split; [reflexivity|]. split; [reflexivity|].
      left. apply (Hquiet _ _ _ _ u text). reflexivity. }
  destruct (execute_script_io_spec alias (script_path alias) params_map s1)
    as (r2 & s2 & Hexec & Hrep2 & Hcase2). rewrite Hexec.
  rewrite Hclk1, Hfiles1, Henv1, Hev1 in Hcase2.
  destruct Hcase2 as [([msg ->] & Hev2 & Hclk2)
                     |(items & stdout & stderr & code & -> & Hres & Hclk2 & Hcase2)].
  { eexists _, _, _. split; [reflexivity|]. simpl.
    rewrite Hrep2, Hrep1, Hev2. split; [reflexivity|]. split; [reflexivity|].
    left. apply (Hquiet _ _ _ _ u text). reflexivity. }
  change (S (S (clock s))) with (2 + clock s)%nat in Hres, Hcase2.
  change (S (2 + clock s)) with (3 + clock s)%nat in Hcase2.
  assert (Hclk3 : clock s2 = (3 + clock s)%nat) by (rewrite Hclk2; reflexivity).
  destruct (write_fault fs (3 + clock s) (output_path alias) (output_text stdout stderr))
    as [[msg residue]|] eqn:Hwrite.
  { destruct Hcase2 as [-> Hev2].
    eexists _, _, _. split; [reflexivity|]. simpl.
    rewrite Hrep2, Hrep1, Hev2, Hclk3. split; [reflexivity|].
    split; [rewrite <- app_assoc; reflexivity|].
    right. exists u, text, items, stdout, stderr, code.
    split; [exact Hres|].
    change (S (S (S (clock s)))) with (3 + clock s)%nat. rewrite Hwrite.
    split; reflexivity. }
  destruct Hcase2 as [Hev2 Hread].
  destruct (read_fault fs (3 + clock s) (output_path alias)) as [msg|] eqn:Hrd; subst r2.
  - eexists _, _, _. split; [reflexivity|]. simpl.
    rewrite Hrep2, Hrep1, Hev2, Hclk3. split; [reflexivity|].
    split; [rewrite <- app_assoc; reflexivity|].
    right. exists u, text, items, stdout, stderr, code.
    split; [exact Hres|].
    change (S (S (S (clock s)))) with (3 + clock s)%nat. rewrite Hwrite.
    split; reflexivity.
  - eexists _, _, _. split; [reflexivity|]. simpl.
    rewrite Hrep2, Hrep1, Hev2, Hclk3. split; [reflexivity|].
    split; [rewrite <- app_assoc; reflexivity|].
    right. exists u, text, items, stdout, stderr, code.
    split; [exact Hres|].
    change (S (S (S (clock s)))) with (3 + clock s)%nat. rewrite Hwrite.
    split; reflexivity.
Qed.








End FaultyFacts.

(** ** Status of an executed alias *)

(** C6, with the capture of the output taken into account: when one pass
    of the loop body runs the artifact of [alias], the exit code is the
    one the process returned, or 1 when the process could not be started.
    If writing the output file and reading it back raise nothing, the
    record the pass writes is the executed one, with that exit code
    unchanged and status "success" exactly for exit code 0 and "failed"
    otherwise.  If the capture raises, the record is an "error" one with
    the message of the failure. *)
Theorem C6_status_follows_exit_code (w : World) (fs : Faults)
  (repository script_parameters : pyval)
  (alias : string) (s s' : State) (result : Result unit) (evs : list Event)
  (cmd : string) (env : gmap string string) :
  process_alias_io w fs repository script_parameters alias s = (result, s') ->
  events s' = events s ++ evs ->
  EvRun (ForAlias alias) cmd env ∈ evs ->
  exists text stdout stderr exit_code,
    match subprocess_run w (2 + clock s) cmd env
            (<[script_path alias := text]> (files s)) with
    | Ok (out, err, code) => stdout = out /\ stderr = err /\ exit_code = code
    | Raise e => stdout = EmptyString /\ stderr = e /\ exit_code = 1
    end /\
    match write_fault fs (3 + clock s) (output_path alias) (output_text stdout stderr),
          read_fault fs (3 + clock s) (output_path alias) with
    | None, None =>
        exists st t0 t1,
          scripts (script_status_report s') !! alias
            = Some (Executed st exit_code
                      (first_lines 20 (Py.translate_newlines (output_text stdout stderr)))
                      t0 t1) /\
          (st = "success" <-> exit_code = 0) /\
          (exit_code <> 0 -> st = "failed")
    | Some (msg, _), _ | None, Some msg =>
        exists t0 t1,
          scripts (script_status_report s') !! alias = Some (Errored "error" msg t0 t1)
    end.
Proof.
  intros Hrun Hev Hmem.
  destruct (process_alias_io_spec w fs repository script_parameters alias s)
    as (rec & evs0 & s0 & Hrun0 & Hrep & Hev0 & Hcase).
  rewrite Hrun in Hrun0. injection Hrun0 as _ <-.
  rewrite Hev in Hev0. apply app_inv_head in Hev0. subst evs0.
  destruct Hcase as [[_ (u & text & k & Hk)]
                    |(u & text & items & stdout & stderr & code & Hres & Hcase)].
  { exfalso.
    assert (Hin : EvRun (ForAlias alias) cmd env
                  ∈ [EvUrlopen u; EvWrite (script_path alias) text;
                     EvChmod (script_path alias) 493]).
    { rewrite Hk. apply elem_of_app. left. exact Hmem. }
    elem_cases Hin. }
  assert (Hcmd : cmd = script_path alias +:+ flag_tokens w items /\
                 env = bound_env w items (environ s)).
  { destruct (write_fault fs (3 + clock s) (output_path alias) (output_text stdout stderr))
      as [[msg residue]|].
    - destruct Hcase as [_ ->]. elem_cases Hmem. injection Hmem as -> ->. auto.
    - destruct Hcase as [-> _]. elem_cases Hmem. injection Hmem as -> ->. auto. }
  destruct Hcmd as [<- <-] in Hres.
  exists text, stdout, stderr, code.
  unfold run_result in Hres.
  split.
  - destruct (subprocess_run w _ _ _ _) as [[[out err] c]|e];
      injection Hres as <- <- <-; auto.
  - rewrite Hrep. unfold with_record. cbn [scripts]. rewrite lookup_insert_eq.
    destruct (write_fault fs (3 + clock s) (output_path alias) (output_text stdout stderr))
      as [[msg residue]|].
    + destruct Hcase as [-> _]. eauto.
    + destruct Hcase as [_ Hrec].
      destruct (read_fault fs (3 + clock s) (output_path alias)) as [msg|]; subst rec.
      * eauto.
      * eexists _, _, _. split; [reflexivity|].
        unfold status_of_exit_code.
        destruct (decide (code = 0)); repeat split; try congruence; discriminate.
Qed.

Lemma C6_status_follows_exit_code_witness :
  let run := process_alias_io Demo.world no_faults Demo.catalog Demo.parameters
               "first" Demo.boot in
  let cmd := script_path "first" +:+ flag_tokens Demo.world [("FOO", PInt 1)] in
  exists text stdout stderr exit_code,
    match subprocess_run Demo.world 2 cmd (<["FOO" := "1"]> ∅)
            (<[script_path "first" := text]> ∅) with
    | Ok (out, err, code) => stdout = out /\ stderr = err /\ exit_code = code
    | Raise e => stdout = EmptyString /\ stderr = e /\ exit_code = 1
    end /\
    match write_fault no_faults 3 (output_path "first") (output_text stdout stderr),
          read_fault no_faults 3 (output_path "first") with
    | None, None =>
        exists st t0 t1,
          scripts (script_status_report (snd run)) !! "first"
            = Some (Executed st exit_code
                      (first_lines 20 (Py.translate_newlines (output_text stdout stderr)))
                      t0 t1) /\
          (st = "success" <-> exit_code = 0) /\
          (exit_code <> 0 -> st = "failed")
    | Some (msg, _), _ | None, Some msg =>
        exists t0 t1,
          scripts (script_status_report (snd run)) !! "first"
            = Some (Errored "error" msg t0 t1)
    end.
Proof.
  intros run cmd.
  apply (C6_status_follows_exit_code Demo.world no_faults Demo.catalog Demo.parameters
           "first" Demo.boot (snd run) (fst run) (events (snd run))).
  - apply surjective_pairing.
  - reflexivity.
  - apply list_elem_of_In. vm_compute. right. right. right. left. reflexivity.
Defined.

(** C6 as stated fails when the output cannot be captured: the script is
    run and exits with 0, the write of its output file raises inside the
    [try] of the pass, and the record is an "error" one. *)
Lemma C6_executed_script_with_error_record :
  let run := process_alias_io Demo.world Scenario.disk_full Demo.catalog Demo.parameters
               "first" Demo.boot in
  let cmd := script_path "first" +:+ flag_tokens Demo.world [("FOO", PInt 1)] in
  fst run = Ok tt /\
  (exists text,
     events (snd run) =
       [EvUrlopen "https://example.com/first.sh"; EvWrite (script_path "first") text;
        EvChmod (script_path "first") 493;
        EvRun (ForAlias "first") cmd (<["FOO" := "1"]> ∅)] /\
     subprocess_run Demo.world 2 cmd (<["FOO" := "1"]> ∅)
       (<[script_path "first" := text]> ∅)
     = Ok ("1" +:+ Py.chr Py.nl, EmptyString, 0)) /\
  scripts (script_status_report (snd run)) !! "first"
    = Some (Errored "error" "[Errno 28] No space left on device" "t0" "t3").
Proof.
  intros run cmd. split; [reflexivity|]. split; [|reflexivity].
  eexists. split; reflexivity.
Qed.

(** Over the whole run: every record of the final report has the status
    its content calls for, "success" or "failed" by exit code for an
    executed script, "error" for a record with a message. *)
Lemma statuses_match_exit_codes (w : World) (args : Args) (s s' : State)
  (result : Result unit) :
  pipeline w args s = (result, s') ->
  (forall alias r, scripts (script_status_report s') !! alias = Some r ->
     record_consistent r) /\
  (forall r, init_script (script_status_report s') = Some r -> record_consistent r).
Proof.
  intros Hrun.
  destruct (scripts_stage_inv w (fun _ => True)
              (fun st => forall alias r,
                 scripts (script_status_report st) !! alias = Some r ->
                 record_consistent r) args) with (s := fresh_report w args s)
    as (s2 & evs & Hstage & _ & _ & Hsc2); auto.
  { intros st v st' HI Hdl.
    destruct (download_repository_spec w (scripts_repository_url args) st)
      as (v0 & s0 & Hrun0 & _ & _ & Hsc & _).
    rewrite Hdl in Hrun0. injection Hrun0 as <- <-. rewrite Hsc. exact HI. }
  { intros repository params alias st rec evs0 st' HI _ Hrep _ Hout. split.
    - apply Forall_forall. auto.
    - intros a r. rewrite Hrep. simpl.
      destruct (decide (alias = a)) as [->|Hne].
      + rewrite lookup_insert_eq. intros [= <-].
        inversion Hout; subst; reflexivity.
      + rewrite lookup_insert_ne by exact Hne. apply HI. }
  { simpl. intros alias r Hr. rewrite lookup_empty in Hr. discriminate. }
  destruct (pipeline_after_scripts w args s s2 Hstage)
    as (s5 & evs_post & Hpipe & _ & _ & _ & Hsc & _ & _ & Hinit & _).
  rewrite Hrun in Hpipe. injection Hpipe as _ ->.
  split; [rewrite Hsc; exact Hsc2|].
  intros r Hr. destruct (Py.nonempty (Py.strip (init_script_content args))).
  - destruct Hinit as (Hrec & _). rewrite Hrec in Hr. injection Hr as <-.
    unfold init_record. destruct (run_result w _ _ _ _) as [[stdout stderr] code].
    reflexivity.
  - destruct Hinit as (Hrec & _). rewrite Hrec in Hr.
    assert (Hnone : init_script (script_status_report s2) = None).
    { destruct (scripts_stage_inv w (fun _ => True)
                  (fun st => init_script (script_status_report st) = None) args)
        with (s := fresh_report w args s) as (s2' & evs' & Hstage' & _ & _ & Hn); auto.
      - intros st v st' HI Hdl.
        destruct (download_repository_spec w (scripts_repository_url args) st)
          as (v0 & s0 & Hrun0 & _ & _ & _ & Hin & _).
        rewrite Hdl in Hrun0. injection Hrun0 as <- <-. rewrite Hin. exact HI.
      - intros repository params alias st rec evs0 st' HI _ Hrep _ _. split.
        + apply Forall_forall. auto.
        + rewrite Hrep. exact HI.
      - rewrite Hstage in Hstage'. injection Hstage' as <-. exact Hn. }
    rewrite Hnone in Hr. discriminate.
Qed.

(** ** The environment across aliases *)

Lemma environ_step (w : World) repository script_parameters b s s' rec evs k v :
  alias_outcome w repository script_parameters b s s' rec evs ->
  (forall items,
     py_get script_parameters b (PDict []) = Ok (PDict items) -> k ∉ map fst items) ->
  environ s !! k = Some v ->
  environ s' !! k = Some v /\ Forall (run_sees k v) evs.
Proof.
  intros Hout Hundeclared Hk.
  assert (Hquiet : forall e, (forall who cmd env, e <> EvRun who cmd env) -> run_sees k v e).
  { intros e He who cmd env Heq. destruct (He who cmd env Heq). }
  inversion Hout; subst.
  - split; [congruence|constructor].
  - split; [congruence|constructor].
  - split; [congruence|].
    destruct url; try (subst; constructor).
    match goal with H : _ /\ _ |- _ => destruct H as [-> _] end.
    repeat constructor. apply Hquiet. discriminate.
  - split.
    + match goal with H : environ s' = _ |- _ => rewrite H end.
      match goal with H : _ \/ _ |- _ => destruct H as [->|(items & post & Hget & ->)] end;
        [exact Hk|].
      rewrite bound_env_notin; [exact Hk|].
      specialize (Hundeclared _ Hget). rewrite map_app in Hundeclared.
      intros Hin. apply Hundeclared, elem_of_app. left. exact Hin.
    + repeat constructor; apply Hquiet; discriminate.
  - assert (Hk' : environ s' !! k = Some v).
    { match goal with H : environ s' = _ |- _ => rewrite H end.
      rewrite bound_env_notin; [exact Hk|]. eauto. }
    split; [exact Hk'|].
    repeat constructor; try (apply Hquiet; discriminate).
    intros who cmd env Heq. injection Heq as _ _ <-. exact Hk'.
Qed.

Lemma bound_env_is_Some (w : World) k items env :
  is_Some (env !! k) -> is_Some (bound_env w items env !! k).
Proof.
  revert env. induction items as [|[n v] items IH]; intros env Hk; [exact Hk|].
  simpl. apply IH. destruct (decide (n = k)) as [->|Hne].
  - rewrite lookup_insert_eq. eauto.
  - rewrite lookup_insert_ne by exact Hne. exact Hk.
Qed.

Lemma environ_step_bound (w : World) repository script_parameters b s s' rec evs k :
  alias_outcome w repository script_parameters b s s' rec evs ->
  is_Some (environ s !! k) ->
  is_Some (environ s' !! k) /\ Forall (run_has k) evs.
Proof.
  intros Hout Hk.
  assert (Hquiet : forall e, (forall who cmd env, e <> EvRun who cmd env) -> run_has k e).
  { intros e He who cmd env Heq. destruct (He who cmd env Heq). }
  inversion Hout; subst.
  - split; [congruence|constructor].
  - split; [congruence|constructor].
  - split; [congruence|].
    destruct url; try (subst; constructor).
    match goal with H : _ /\ _ |- _ => destruct H as [-> _] end.
    repeat constructor. apply Hquiet. discriminate.
  - split.
    + match goal with H : environ s' = _ |- _ => rewrite H end.
      apply bound_env_is_Some, Hk.
    + repeat constructor; apply Hquiet; discriminate.
  - assert (Hk' : is_Some (environ s' !! k)).
    { match goal with H : environ s' = _ |- _ => rewrite H end.
      apply bound_env_is_Some, Hk. }
    split; [exact Hk'|].
    repeat constructor; try (apply Hquiet; discriminate).
    intros who cmd env Heq. injection Heq as _ _ <-. exact Hk'.
Qed.

(** C3: a binding present in [os.environ] once the first alias has been
    processed is never unset by the loop: every run of a later alias has
    the variable in its environment, and it is still bound when the loop
    ends.  When no later alias has a parameter of that name, the value is
    the same too: every later run receives exactly that value. *)
Theorem C3_environment_persists (w : World) (repository script_parameters : pyval)
  (first : string) (later : list string) (s : State) (k v : string) :
  environ (snd (process_alias w repository script_parameters first s)) !! k
    = Some v ->
  exists s2 evs,
    for_each (first :: later) (process_alias w repository script_parameters) s
      = (Ok tt, s2) /\
    events s2
      = events (snd (process_alias w repository script_parameters first s)) ++ evs /\
    is_Some (environ s2 !! k) /\
    (forall who cmd env, EvRun who cmd env ∈ evs -> is_Some (env !! k)) /\
    ((forall alias items,
        alias ∈ later ->
        py_get script_parameters alias (PDict []) = Ok (PDict items) ->
        k ∉ map fst items) ->
     (forall who cmd env, EvRun who cmd env ∈ evs -> env !! k = Some v) /\
     environ s2 !! k = Some v).
Proof.
  intros Hbound.
  destruct (process_alias_spec w repository script_parameters first s)
    as (rec & evs1 & s1 & Hrun & _).
  rewrite Hrun in Hbound. rewrite Hrun. simpl in Hbound. simpl snd.
  destruct (for_each_process_inv w repository script_parameters
              (run_has k) (fun st => is_Some (environ st !! k)) later) with (s := s1)
    as (s2 & evs & Hloop & Hev & Hhas & Hk).
  { intros alias st rec' evs' st' _ Hst _ _ _ Hout.
    destruct (environ_step_bound w _ _ _ _ _ _ _ k Hout Hst). split; assumption. }
  { rewrite Hbound. eauto. }
  exists s2, evs. simpl for_each. unfold bind. rewrite Hrun.
  split; [exact Hloop|]. split; [exact Hev|]. split; [exact Hk|].
  split.
  { intros who cmd env Hmem. rewrite Forall_forall in Hhas.
    exact (Hhas _ Hmem who cmd env eq_refl). }
  intros Hundeclared.
  destruct (for_each_process_inv w repository script_parameters
              (run_sees k v) (fun st => environ st !! k = Some v) later) with (s := s1)
    as (s2' & evs' & Hloop' & Hev' & Hsees & Hk').
  { intros alias st rec' evs0 st' Hin Hst _ _ _ Hout.
    destruct (environ_step w _ _ _ _ _ _ _ k v Hout
                (fun items => Hundeclared alias items Hin) Hst).
    split; assumption. }
  { exact Hbound. }
  rewrite Hloop in Hloop'. injection Hloop' as <-.
  rewrite Hev in Hev'. apply app_inv_head in Hev'. subst evs'.
  split; [|exact Hk'].
  intros who cmd env Hmem. rewrite Forall_forall in Hsees.
  exact (Hsees _ Hmem who cmd env eq_refl).
Qed.

Lemma C3_environment_persists_witness :
  environ (snd (process_alias Demo.world Demo.catalog Demo.parameters "first" Demo.boot))
    !! "FOO" = Some "1" /\
  exists s2 evs,
    for_each ["first"; "second"]
      (process_alias Demo.world Demo.catalog Demo.parameters) Demo.boot = (Ok tt, s2) /\
    events s2
      = events (snd (process_alias Demo.world Demo.catalog Demo.parameters "first" Demo.boot))
        ++ evs /\
    (forall who cmd env, EvRun who cmd env ∈ evs -> env !! "FOO" = Some "1") /\
    environ s2 !! "FOO" = Some "1".
Proof.
  split; [reflexivity|].
  destruct (C3_environment_persists Demo.world Demo.catalog Demo.parameters
              "first" ["second"] Demo.boot "FOO" "1" eq_refl)
    as (s2 & evs & Hloop & Hev & _ & _ & Hsame).
  exists s2, evs. split; [exact Hloop|]. split; [exact Hev|].
  apply Hsame. intros alias items Hin Hget.
  apply list_elem_of_singleton in Hin. subst alias.
  vm_compute in Hget. injection Hget as <-. apply not_elem_of_nil.
Defined.

(** In the demo world every script prints [FOO]: the second alias, which
    has no parameters, prints the value bound for the first. *)
Example second_alias_prints_first_binding :
  scripts (script_status_report (snd (for_each ["first"; "second"]
            (process_alias Demo.world Demo.catalog Demo.parameters) Demo.boot)))
    !! "second"
  = Some (Executed "success" 0 ("1" +:+ Py.chr Py.nl) "t4" "t7").
Proof. vm_compute. reflexivity. Qed.

(** ** The output kept in the report *)

Lemma output_path_inj a b : output_path a = output_path b -> a = b.
Proof.
  unfold output_path. intros H. simpl in H.
  injection H as H. rewrite !app_empty_l in H. apply app_inj_suffix in H. exact H.
Qed.

Lemma catalog_path_not_output_path b :
  "/tmp/scripts/repository.json" <> output_path b.
Proof.
  unfold output_path. intros H. simpl in H. injection H as H.
  rewrite !app_empty_l in H. apply (f_equal last_char) in H.
  rewrite last_char_app in H by (simpl; discriminate).
  simpl in H. discriminate.
Qed.

Lemma output_is_head_frame files files' path r :
  files' !! path = files !! path ->
  output_is_head files path r -> output_is_head files' path r.
Proof. intros H. destruct r; simpl; [rewrite H|]; auto. Qed.

Section Bounded.

Context (w : World).

Lemma alias_outcome_files repository script_parameters b s s' rec evs path :
  alias_outcome w repository script_parameters b s s' rec evs ->
  path <> script_path b -> path <> output_path b ->
  files s' !! path = files s !! path.
Proof.
  intros Hout Hsp Hop.
  inversion Hout; subst;
    match goal with H : files s' = _ |- _ => rewrite H end;
    rewrite ?lookup_insert_ne by congruence; reflexivity.
Qed.

Lemma outputs_bounded_step repository script_parameters b s s' rec evs :
  alias_outcome w repository script_parameters b s s' rec evs ->
  script_status_report s' = with_record b rec (script_status_report s) ->
  outputs_bounded s -> outputs_bounded s'.
Proof.
  intros Hout Hrep [Hscripts Hinit]. split.
  - intros alias r. rewrite Hrep. simpl.
    destruct (decide (b = alias)) as [->|Hne].
    + rewrite lookup_insert_eq. intros [= <-].
      inversion Hout; subst; simpl; auto.
      eexists. split; [|reflexivity].
      match goal with H : files s' = _ |- _ => rewrite H end.
      apply lookup_insert_eq.
    + rewrite lookup_insert_ne by exact Hne. intros Hr.
      apply (output_is_head_frame (files s)); [|apply Hscripts, Hr].
      apply (alias_outcome_files _ _ _ _ _ _ _ _ Hout).
      * apply output_path_not_script_path.
      * intros H. apply Hne. symmetry. apply output_path_inj, H.
  - intros r. rewrite Hrep. simpl. intros Hr.
    apply (output_is_head_frame (files s)); [|apply Hinit, Hr].
    apply (alias_outcome_files _ _ _ _ _ _ _ _ Hout);
      unfold script_path, output_path; simpl; discriminate.
Qed.

Lemma outputs_bounded_catalog url s v s' :
  outputs_bounded s -> download_repository w url s = (Ok v, s') -> outputs_bounded s'.
Proof.
  intros [Hscripts Hinit] Hrun.
  destruct (download_repository_spec w url s)
    as (v0 & s0 & Hrun0 & _ & _ & Hsc & Hin & _ & _ & Hcase).
  rewrite Hrun in Hrun0. injection Hrun0 as <- <-.
  assert (Hfiles : forall path, path <> "/tmp/scripts/repository.json" ->
                     files s' !! path = files s !! path).
  { intros path Hne. destruct (urlopen w (clock s) url).
    - destruct Hcase as (-> & _). apply lookup_insert_ne. congruence.
    - destruct Hcase as (-> & _). reflexivity. }
  split.
  - intros alias r. rewrite Hsc. intros Hr.
    apply (output_is_head_frame (files s)); [|apply Hscripts, Hr].
    apply Hfiles. intros H. symmetry in H. exact (catalog_path_not_output_path _ H).
  - intros r. rewrite Hin. intros Hr.
    apply (output_is_head_frame (files s)); [|apply Hinit, Hr].
    apply Hfiles. discriminate.
Qed.

End Bounded.

(** C7: at the end of the run, the output field of every executed record,
    alias or init script, is the first 20 lines of that script's output
    file as [readlines] reads it, so it never has more than 20 lines. *)
Theorem C7_output_at_most_20_lines (w : World) (args : Args) (s s' : State)
  (result : Result unit) :
  pipeline w args s = (result, s') ->
  (forall alias st code output t0 t1,
     scripts (script_status_report s') !! alias = Some (Executed st code output t0 t1) ->
     (length (Py.readlines output) <= 20)%nat /\
     exists content,
       files s' !! output_path alias = Some content /\
       output = Py.join EmptyString (take 20 (Py.readlines (Py.translate_newlines content)))) /\
  (forall st code output t0 t1,
     init_script (script_status_report s') = Some (Executed st code output t0 t1) ->
     (length (Py.readlines output) <= 20)%nat /\
     exists content,
       files s' !! "/tmp/init_script_output.txt" = Some content /\
       output = Py.join EmptyString (take 20 (Py.readlines (Py.translate_newlines content)))).
Proof.
  intros Hrun.
  assert (Hfresh : outputs_bounded (fresh_report w args s)).
  { split; simpl; [intros alias r Hr; rewrite lookup_empty in Hr|intros r Hr]; discriminate. }
  destruct (scripts_stage_inv w (fun _ => True) outputs_bounded args) with (s := fresh_report w args s)
    as (s2 & evs & Hstage & _ & _ & [Hsc2 Hin2]); auto.
  { intros st v st' HI Hdl. exact (outputs_bounded_catalog w _ _ _ _ HI Hdl). }
  { intros repository params alias st rec evs st' HI _ Hrep _ Hout. split.
    - apply Forall_forall. auto.
    - exact (outputs_bounded_step w _ _ _ _ _ _ _ Hout Hrep HI). }
  destruct (pipeline_after_scripts w args s s2 Hstage)
    as (s5 & evs_post & Hpipe & _ & _ & _ & Hsc & _ & _ & Hinit & _).
  rewrite Hrun in Hpipe. injection Hpipe as _ ->.
  assert (Hfinal : outputs_bounded s5).
  { split.
    - intros alias r. rewrite Hsc. intros Hr. specialize (Hsc2 _ _ Hr).
      revert Hsc2. apply output_is_head_frame.
      destruct (Py.nonempty (Py.strip (init_script_content args))).
      + destruct Hinit as (_ & _ & ->). unfold init_files.
        destruct (run_result w _ _ _ _) as [[stdout stderr] code].
        rewrite !lookup_insert_ne by (unfold output_path; simpl; discriminate).
        reflexivity.
      + destruct Hinit as (_ & _ & ->).
        rewrite lookup_insert_ne by (unfold output_path; simpl; discriminate).
        reflexivity.
    - intros r Hr. destruct (Py.nonempty (Py.strip (init_script_content args))).
      + destruct Hinit as (Hrec & _ & ->). rewrite Hrec in Hr. injection Hr as <-.
        unfold init_record, init_files.
        destruct (run_result w _ _ _ _) as [[stdout stderr] code]. simpl.
        eexists. split; [|reflexivity].
        rewrite lookup_insert_ne by discriminate. apply lookup_insert_eq.
      + destruct Hinit as (Hrec & _ & ->). rewrite Hrec in Hr.
        specialize (Hin2 _ Hr). revert Hin2. apply output_is_head_frame.
        rewrite lookup_insert_ne by discriminate. reflexivity. }
  destruct Hfinal as [Hscripts Hinit5]. split.
  - intros alias st code output t0 t1 Hr.
    destruct (Hscripts _ _ Hr) as (content & Hfile & ->).
    split; [apply first_lines_count|eauto].
  - intros st code output t0 t1 Hr.
    destruct (Hinit5 _ Hr) as (content & Hfile & ->).
    split; [apply first_lines_count|eauto].
Qed.

Lemma C7_output_at_most_20_lines_witness :
  let run := pipeline Demo.chatty
               (Demo.args "https://example.com/catalog.json" "first" "{}" "echo hi")
               Demo.boot in
  exists st code output t0 t1,
    scripts (script_status_report (snd run)) !! "first" = Some (Executed st code output t0 t1) /\
    (length (Py.readlines output) <= 20)%nat /\
    exists content,
      files (snd run) !! output_path "first" = Some content /\
      output = Py.join EmptyString (take 20 (Py.readlines (Py.translate_newlines content))).
Proof.
  intros run.
  destruct (C7_output_at_most_20_lines Demo.chatty _ Demo.boot (snd run) (fst run)
              (surjective_pairing _)) as [Hscripts _].
  assert (Hrec : exists st code output t0 t1,
             scripts (script_status_report (snd run)) !! "first" = Some (Executed st code output t0 t1)).
  { vm_compute. eexists _, _, _, _, _. reflexivity. }
  destruct Hrec as (st & code & output & t0 & t1 & Hrec).
  exists st, code, output, t0, t1. split; [exact Hrec|].
  exact (Hscripts _ _ _ _ _ _ Hrec).
Defined.

(** The chatty script printed 25 lines; the report keeps 20 of them. *)
Example chatty_output_is_cut :
  let run := pipeline Demo.chatty
               (Demo.args "https://example.com/catalog.json" "first" "{}" "echo hi")
               Demo.boot in
  (length <$> (Py.readlines <$> files (snd run) !! output_path "first")) = Some 25%nat /\
  match scripts (script_status_report (snd run)) !! "first" with
  | Some (Executed _ _ output _ _) => length (Py.readlines output) = 20%nat
  | _ => False
  end /\
  match init_script (script_status_report (snd run)) with
  | Some (Executed _ _ output _ _) => length (Py.readlines output) = 20%nat
  | _ => False
  end.
Proof. vm_compute. repeat split; reflexivity. Qed.

(** ** The init script *)



(** The block has no handler: with the disk full when the init script's
    output is written, the script has run, the run ends in the exception,
    the report has no [init_script] entry, the marker is not written and
    nothing is posted, although a webhook is set. *)
Example init_block_failure_ends_the_run :
  let args := Scenario.args_with_webhook "echo hi" "https://example.com/hook" in
  let run := pipeline_io Demo.world Scenario.init_output_lost args Demo.boot in
  fst run = Raise "[Errno 28] No space left on device" /\
  events (snd run) =
    [EvWrite "/tmp/custom_init.sh" "echo hi";
     EvChmod "/tmp/custom_init.sh" 493;
     EvRun ForInit "/tmp/custom_init.sh" (environ Demo.boot)] /\
  init_script (script_status_report (snd run)) = None /\
  files (snd run) !! "/tmp/user_data_complete" = None.
Proof. vm_compute. repeat split; reflexivity. Qed.


(** ** The preamble's argument parsing *)

Module BashFacts.

Import Bash Invocation.

Lemma cut_assignment_name n v :
  all_chars is_name_char n = true ->
  cut_assignment (n +:+ "=" +:+ v) = Some (n, v).
Proof.
  induction n as [|c n IH]; intros Hn.
  - reflexivity.
  - simpl in Hn. apply andb_prop in Hn as [Hc Hn].
    rewrite app_cons. simpl.
    destruct (decide (c = "="%char)) as [->|_]; [discriminate|].
    rewrite (IH Hn). reflexivity.
Qed.

Lemma valid_identifier_chars n :
  valid_identifier n = true -> all_chars is_name_char n = true.
Proof.
  destruct n as [|c n]; simpl; [discriminate|].
  intros H. apply andb_prop in H as [Hc Hn]. rewrite Hn.
  unfold is_name_char. rewrite Hc. reflexivity.
Qed.

(** For an ordinary name, [declare -g] is a binding. *)
Lemma declare_g_ordinary sh n v vars :
  valid_identifier n = true -> ordinary sh n = true ->
  declare_g sh n v vars = <[n := v]> vars.
Proof.
  intros Hn Hord. unfold declare_g.
  rewrite (cut_assignment_name n v (valid_identifier_chars n Hn)), Hn, Hord.
  reflexivity.
Qed.

(** *** Texts and characters *)

Lemma replace_char (a b : ascii) (s : string) :
  Py.replace (String a EmptyString) (String b EmptyString) s =
  Py.map_chars (fun c => if decide (c = a) then b else c) s.
Proof.
  unfold Py.replace. induction s as [|c s IH]; [reflexivity|].
  cbn [Py.replace_go Py.startswith Py.map_chars String.length Nat.pred].
  destruct (decide (a = c)) as [->|Hne].
  - rewrite decide_True by reflexivity. rewrite IH. reflexivity.
  - rewrite decide_False by congruence. rewrite IH. reflexivity.
Qed.

Lemma map_chars_app f (a b : string) :
  Py.map_chars f (a +:+ b) = Py.map_chars f a +:+ Py.map_chars f b.
Proof.
  induction a as [|c a IH]; [reflexivity|].
  change (String c a +:+ b) with (String c (a +:+ b)).
  cbn [Py.map_chars]. rewrite IH. reflexivity.
Qed.

Lemma shell_upper_app (a b : string) :
  shell_upper (a +:+ b) = shell_upper a +:+ shell_upper b.
Proof. unfold shell_upper. rewrite !replace_char, !map_chars_app. reflexivity. Qed.

(** The loop leaves no hyphen in the text it gives to [echo]. *)
Lemma underscored_has_no_hyphen s :
  Py.has_char "-"%char (Py.replace "-" "_" s) = false.
Proof.
  rewrite replace_char. induction s as [|c s IH]; [reflexivity|].
  cbn [Py.map_chars Py.has_char].
  destruct (decide (c = "-"%char)) as [->|Hne].
  - rewrite decide_False by discriminate. exact IH.
  - rewrite decide_False by exact Hne. exact IH.
Qed.

Lemma drop_trailing_nl_cons c s :
  c <> Py.nl -> drop_trailing_nl (String c s) = String c (drop_trailing_nl s).
Proof.
  intros Hc. cbn [drop_trailing_nl].
  destruct (drop_trailing_nl s); [|reflexivity].
  rewrite decide_False by exact Hc. reflexivity.
Qed.

Lemma drop_trailing_nl_app a c b :
  c <> Py.nl ->
  drop_trailing_nl (a +:+ String c b) = a +:+ String c (drop_trailing_nl b).
Proof.
  intros Hc. induction a as [|x a IH].
  - rewrite !app_empty_l. apply drop_trailing_nl_cons. exact Hc.
  - change (String x a +:+ String c b) with (String x (a +:+ String c b)).
    cbn [drop_trailing_nl]. rewrite IH.
    destruct a; reflexivity.
Qed.

(** The line feed [echo] adds is dropped with the others. *)
Lemma drop_trailing_nl_echo s :
  drop_trailing_nl (s +:+ Py.chr Py.nl) = drop_trailing_nl s.
Proof.
  induction s as [|c s IH]; [reflexivity|].
  change (String c s +:+ Py.chr Py.nl) with (String c (s +:+ Py.chr Py.nl)).
  cbn [drop_trailing_nl]. rewrite IH. reflexivity.
Qed.

Lemma name_char_not_nl c : is_name_char c = true -> c <> Py.nl.
Proof. intros Hc ->. discriminate Hc. Qed.

Lemma drop_trailing_nl_name s :
  all_chars is_name_char s = true -> drop_trailing_nl s = s.
Proof.
  induction s as [|c s IH]; [reflexivity|].
  cbn [all_chars]. intros H. apply andb_prop in H as [Hc Hs].
  rewrite drop_trailing_nl_cons by (apply name_char_not_nl; exact Hc).
  rewrite IH by exact Hs. reflexivity.
Qed.

(** *** The loop *)

(** The name the pipeline gives, when [tr] works. *)
Lemma pipeline_name sh vars name :
  upper_case_works sh vars ->
  drop_trailing_nl (echo_tr sh vars (Py.replace "-" "_" name)) = flag_variable name.
Proof.
  intros Htr. rewrite (Htr _ (underscored_has_no_hyphen name)).
  apply drop_trailing_nl_echo.
Qed.

(** The variables when the pipeline of a flag runs. *)
Lemma settled_at_pipeline sh vars key t1 t2 :
  settled sh vars ->
  upper_case_works sh
    (<["param_name" := t2]> (<["param_name" := t1]> (<["key" := key]> vars))).
Proof.
  intros [Htr Hkeep]. repeat apply Hkeep; auto.
Qed.

Lemma settled_insert sh vars n v :
  settled sh vars ->
  ordinary sh n = true \/ n = "key" \/ n = "param_name" ->
  settled sh (<[n := v]> vars).
Proof. intros [Htr Hkeep] Hn. split; [apply Hkeep; assumption|exact Hkeep]. Qed.

Lemma parse_loop_flag sh name value rest params vars :
  settled sh vars ->
  well_formed sh (Flag name value) ->
  parse_loop sh (("--" +:+ name) :: value :: rest) params vars =
  parse_loop sh rest params
    (<[flag_variable name := value]>
       (<["param_name" := flag_variable name]> (<["key" := "--" +:+ name]> vars))).
Proof.
  intros Hset (Hname & Hord & Hvalue & Hdash).
  cbn [parse_loop].
  change (Py.startswith "--" ("--" +:+ name)) with true. cbn iota.
  change (strip_dashes ("--" +:+ name)) with name.
  rewrite (pipeline_name sh _ name (settled_at_pipeline sh vars _ _ _ Hset)).
  rewrite Hvalue, Hdash. cbn [negb orb].
  rewrite (declare_g_ordinary sh _ _ _ Hname Hord).
  rewrite !insert_insert_eq. reflexivity.
Qed.

(** A flag followed by nothing, by an empty argument or by a flag. *)
Lemma parse_loop_switch sh name next params vars :
  settled sh vars ->
  well_formed sh (Switch name) ->
  match next with
  | [] => True
  | arg2 :: _ => Py.nonempty arg2 = false \/ Py.startswith "--" arg2 = true
  end ->
  parse_loop sh (("--" +:+ name) :: next) params vars =
  parse_loop sh next params
    (<[flag_variable name := "true"]>
       (<["param_name" := flag_variable name]> (<["key" := "--" +:+ name]> vars))).
Proof.
  intros Hset (Hname & Hord) Hnext.
  cbn [parse_loop].
  change (Py.startswith "--" ("--" +:+ name)) with true. cbn iota.
  change (strip_dashes ("--" +:+ name)) with name.
  rewrite (pipeline_name sh _ name (settled_at_pipeline sh vars _ _ _ Hset)).
  rewrite (declare_g_ordinary sh _ _ _ Hname Hord).
  rewrite !insert_insert_eq.
  destruct next as [|arg2 next']; [reflexivity|].
  destruct Hnext as [-> | ->]; [reflexivity|].
  rewrite orb_true_r. reflexivity.
Qed.

Lemma parse_loop_bare sh x rest params vars :
  well_formed sh (Bare x) ->
  parse_loop sh (x :: rest) params vars =
  parse_loop sh rest (params ++ [x]) (<["key" := x]> vars).
Proof. simpl. intros ->. reflexivity. Qed.

(** What follows a flag without a value in a closed invocation. *)
Lemma render_after_switch sh name rest :
  Forall (well_formed sh) rest ->
  switches_closed (Switch name :: rest) ->
  match render rest with
  | [] => True
  | arg2 :: _ => Py.nonempty arg2 = false \/ Py.startswith "--" arg2 = true
  end.
Proof.
  intros Hwf [Hhead _]. destruct rest as [|[n v|n|x] rest]; simpl; auto.
  subst x. left. reflexivity.
Qed.

Lemma parse_loop_render sh items params vars :
  settled sh vars ->
  Forall (well_formed sh) items ->
  switches_closed items ->
  parse_loop sh (render items) params vars = (params ++ bares items, flags_bound items vars).
Proof.
  intros Hset Hwf. revert params vars Hset.
  induction Hwf as [|a items Ha Hwf IH]; intros params vars Hset Hclosed.
  - simpl. rewrite app_nil_r. reflexivity.
  - pose proof Hclosed as [_ Hrest].
    destruct a as [n v|n|x].
    + simpl render. rewrite (parse_loop_flag sh _ _ _ _ _ Hset Ha).
      destruct Ha as (_ & Hord & _).
      apply IH; [|exact Hrest].
      repeat apply settled_insert; auto.
    + simpl render.
      rewrite (parse_loop_switch sh _ _ _ _ Hset Ha
                 (render_after_switch sh n items Hwf Hclosed)).
      destruct Ha as (_ & Hord).
      apply IH; [|exact Hrest].
      repeat apply settled_insert; auto.
    + simpl render. rewrite (parse_loop_bare sh _ _ _ _ Ha), IH, <- app_assoc;
        [reflexivity| |exact Hrest].
      apply settled_insert; auto.
Qed.

(** *** Positional arguments *)

Lemma pretty_N_go_name_chars x s :
  all_chars is_name_char s = true ->
  all_chars is_name_char (pretty_N_go x s) = true.
Proof.
  revert s. induction (N.lt_wf_0 x) as [x _ IH]; intros s Hs.
  destruct (decide (x = 0)%N) as [->|Hx].
  - rewrite pretty_N_go_0. exact Hs.
  - rewrite pretty_N_go_step by lia.
    apply IH; [apply N.div_lt; lia|].
    simpl. rewrite Hs, andb_true_r.
    unfold pretty_N_char. repeat case_match; reflexivity.
Qed.

Lemma pretty_nat_name_chars (n : nat) : all_chars is_name_char (pretty n) = true.
Proof.
  unfold pretty, pretty_nat, pretty, pretty_N.
  destruct (decide (N.of_nat n = 0)%N); [reflexivity|].
  apply pretty_N_go_name_chars. reflexivity.
Qed.

Lemma param_name_valid i : valid_identifier (param_name i) = true.
Proof. unfold param_name. simpl. apply pretty_nat_name_chars. Qed.

Lemma param_name_inj i j : param_name i = param_name j -> i = j.
Proof.
  unfold param_name. intros H. simpl in H. injection H as H.
  rewrite !app_empty_l in H. apply (inj pretty) in H. lia.
Qed.

Lemma bind_positionals_other sh params i0 vars k :
  (forall j, (j < length params)%nat -> ordinary sh (param_name (i0 + j)) = true) ->
  k <> "i" ->
  (forall j, (j < length params)%nat -> k <> param_name (i0 + j)) ->
  bind_positionals sh i0 params vars !! k = vars !! k.
Proof.
  revert i0 vars. induction params as [|p ps IH]; intros i0 vars Hord Hi Hk;
    [reflexivity|].
  simpl bind_positionals. rewrite IH.
  - change ("PARAM" +:+ pretty (S i0)) with (param_name i0).
    rewrite (declare_g_ordinary sh _ _ _ (param_name_valid i0)).
    + rewrite lookup_insert_ne.
      * apply lookup_insert_ne. congruence.
      * specialize (Hk 0%nat ltac:(simpl; lia)). rewrite Nat.add_0_r in Hk. congruence.
    + specialize (Hord 0%nat ltac:(simpl; lia)). rewrite Nat.add_0_r in Hord. exact Hord.
  - intros j Hj. replace (S i0 + j)%nat with (i0 + S j)%nat by lia.
    apply Hord. simpl. lia.
  - exact Hi.
  - intros j Hj. replace (S i0 + j)%nat with (i0 + S j)%nat by lia.
    apply Hk. simpl. lia.
Qed.

Lemma bind_positionals_lookup sh params i0 vars j a :
  (forall j, (j < length params)%nat -> ordinary sh (param_name (i0 + j)) = true) ->
  params !! j = Some a ->
  bind_positionals sh i0 params vars !! param_name (i0 + j) = Some a.
Proof.
  revert i0 vars j. induction params as [|p ps IH]; intros i0 vars j Hord Hj;
    [inversion Hj|].
  assert (Hord' : forall j, (j < length ps)%nat ->
                            ordinary sh (param_name (S i0 + j)) = true).
  { intros j' Hj'. replace (S i0 + j')%nat with (i0 + S j')%nat by lia.
    apply Hord. simpl. lia. }
  simpl bind_positionals. destruct j as [|j].
  - injection Hj as ->. rewrite Nat.add_0_r. rewrite bind_positionals_other.
    + change ("PARAM" +:+ pretty (S i0)) with (param_name i0).
      rewrite (declare_g_ordinary sh _ _ _ (param_name_valid i0)).
      * apply lookup_insert_eq.
      * specialize (Hord 0%nat ltac:(simpl; lia)). rewrite Nat.add_0_r in Hord.
        exact Hord.
    + exact Hord'.
    + discriminate.
    + intros j _ H. apply param_name_inj in H. lia.
  - replace (i0 + S j)%nat with (S i0 + j)%nat by lia. apply IH; [exact Hord'|exact Hj].
Qed.

(** *** Flags *)

Lemma upper_char_not_lower c : is_lower (Py.upper_char c) = false.
Proof. destruct c as [[] [] [] [] [] [] [] []]; reflexivity. Qed.

Lemma map_upper_not_lower s :
  all_chars (fun c => negb (is_lower c)) (Py.map_chars Py.upper_char s) = true.
Proof.
  induction s as [|c s IH]; [reflexivity|].
  simpl. rewrite upper_char_not_lower, IH. reflexivity.
Qed.

Lemma drop_trailing_nl_all p s :
  all_chars p s = true -> all_chars p (drop_trailing_nl s) = true.
Proof.
  induction s as [|c s IH]; [reflexivity|].
  simpl. intros H. apply andb_prop in H as [Hc Hs]. specialize (IH Hs).
  destruct (drop_trailing_nl s).
  - destruct (decide (c = Py.nl)); simpl; [reflexivity|]. rewrite Hc. reflexivity.
  - simpl in *. rewrite Hc, IH. reflexivity.
Qed.

Lemma flag_variable_not_lower name :
  all_chars (fun c => negb (is_lower c)) (flag_variable name) = true.
Proof. apply drop_trailing_nl_all, map_upper_not_lower. Qed.

Lemma flag_variable_not_loop_variable name :
  flag_variable name <> "key" /\ flag_variable name <> "param_name" /\
  flag_variable name <> "i".
Proof.
  pose proof (flag_variable_not_lower name) as H.
  repeat split; intros Heq; rewrite Heq in H; discriminate.
Qed.

Lemma flags_bound_other items vars k :
  k <> "key" -> k <> "param_name" -> k ∉ flag_variables items ->
  flags_bound items vars !! k = vars !! k.
Proof.
  intros Hkey Hpn. revert vars. induction items as [|[n v|n|x] items IH]; intros vars Hk.
  - reflexivity.
  - simpl in *. apply not_elem_of_cons in Hk as [Hne Hk].
    rewrite (IH _ Hk), !lookup_insert_ne by congruence. reflexivity.
  - simpl in *. apply not_elem_of_cons in Hk as [Hne Hk].
    rewrite (IH _ Hk), !lookup_insert_ne by congruence. reflexivity.
  - simpl in *. rewrite (IH _ Hk), lookup_insert_ne by congruence. reflexivity.
Qed.

Lemma flags_bound_app items1 items2 vars :
  flags_bound (items1 ++ items2) vars = flags_bound items2 (flags_bound items1 vars).
Proof.
  revert vars. induction items1 as [|[n v|n|x] items1 IH]; intros vars; simpl; auto.
Qed.

(** The variable of the flag at a place of the invocation, when no later
    flag and no bare argument takes the same name. *)
Lemma flag_lookup sh before a after n v vars :
  settled sh vars ->
  Forall (well_formed sh) (before ++ a :: after) ->
  switches_closed (before ++ a :: after) ->
  (forall i, (i < length (bares (before ++ a :: after)))%nat ->
     ordinary sh (param_name i) = true) ->
  a = Flag n v \/ (a = Switch n /\ v = "true") ->
  flag_variable n ∉ flag_variables after ->
  (forall i, (i < length (bares (before ++ a :: after)))%nat ->
     flag_variable n <> param_name i) ->
  parse_parameters sh (render (before ++ a :: after)) vars !! flag_variable n = Some v.
Proof.
  intros Hset Hwf Hclosed Hord Ha Hlast Hparam. unfold parse_parameters.
  rewrite (parse_loop_render sh _ [] vars Hset Hwf Hclosed). simpl app.
  destruct (flag_variable_not_loop_variable n) as (Hkey & Hpn & Hi).
  rewrite bind_positionals_other; [|exact Hord|exact Hi|exact Hparam].
  rewrite flags_bound_app.
  destruct Ha as [->|[-> ->]]; simpl;
    rewrite flags_bound_other by assumption; apply lookup_insert_eq.
Qed.

(** The example shell is settled as long as [PATH] is untouched. *)
Lemma demo_shell_settled : settled Demo.shell Demo.shell_vars.
Proof.
  assert (Hworks : forall vars,
            vars !! "PATH" = Some "/usr/bin:/bin" -> upper_case_works Demo.shell vars).
  { intros vars Hpath text _. simpl. rewrite decide_True by exact Hpath. reflexivity. }
  assert (Hpath : forall vars,
            upper_case_works Demo.shell vars -> vars !! "PATH" = Some "/usr/bin:/bin").
  { intros vars Htr. specialize (Htr "a" eq_refl). simpl in Htr.
    destruct (decide (vars !! "PATH" = Some "/usr/bin:/bin")); [assumption|discriminate]. }
  split; [apply Hworks; reflexivity|].
  intros vars n v Htr Hn. apply Hworks.
  rewrite lookup_insert_ne; [apply Hpath; exact Htr|].
  destruct Hn as [Hn|[->| ->]]; try discriminate.
  simpl in Hn. apply bool_decide_eq_true in Hn.
  intros ->. apply Hn. unfold Demo.reserved_names. set_solver.
Qed.

End BashFacts.

(** C2, for the two-token form under bash, with [tr] at work and flag
    names that give ordinary variables: in an invocation made of
    [--name value] pairs (the value is not empty and does not start with
    two hyphens), flags without a value (followed by nothing, by another
    flag or by an empty argument) and bare arguments, the preamble binds
    the variable named by the flag name, hyphens turned to underscores and
    letters to upper case, to the value of the last pair of that name, or
    to [true] for a flag without a value, and the bare arguments to
    [PARAM1], [PARAM2], ... in order. *)
Theorem C2_two_token_flags_and_positionals (sh : Bash.Shell)
  (items : list Invocation.Arg) (vars : gmap string string) :
  Bash.settled sh vars ->
  Forall (Invocation.well_formed sh) items ->
  Invocation.switches_closed items ->
  (forall i, (i < length (Invocation.bares items))%nat ->
     Bash.ordinary sh (Invocation.param_name i) = true) ->
  (forall before n v after,
     items = before ++ Invocation.Flag n v :: after ->
     Invocation.flag_variable n ∉ Invocation.flag_variables after ->
     (forall i, (i < length (Invocation.bares items))%nat ->
        Invocation.flag_variable n <> Invocation.param_name i) ->
     Bash.parse_parameters sh (Invocation.render items) vars
       !! Invocation.flag_variable n = Some v) /\
  (forall before n after,
     items = before ++ Invocation.Switch n :: after ->
     Invocation.flag_variable n ∉ Invocation.flag_variables after ->
     (forall i, (i < length (Invocation.bares items))%nat ->
        Invocation.flag_variable n <> Invocation.param_name i) ->
     Bash.parse_parameters sh (Invocation.render items) vars
       !! Invocation.flag_variable n = Some "true") /\
  (forall i a,
     Invocation.bares items !! i = Some a ->
     Bash.parse_parameters sh (Invocation.render items) vars
       !! ("PARAM" +:+ pretty (S i)) = Some a).
Proof.
  intros Hset Hwf Hclosed Hord. split; [|split].
  - intros before n v after -> Hlast Hparam.
    apply (BashFacts.flag_lookup sh before _ after n v vars); auto.
  - intros before n after -> Hlast Hparam.
    apply (BashFacts.flag_lookup sh before _ after n "true" vars); auto.
  - intros i a Hi. unfold Bash.parse_parameters.
    rewrite (BashFacts.parse_loop_render sh items [] vars Hset Hwf Hclosed). simpl app.
    apply (BashFacts.bind_positionals_lookup sh _ 0 _ i a); [|exact Hi].
    intros j Hj. apply Hord. exact Hj.
Qed.

Lemma C2_two_token_flags_and_positionals_witness :
  let items := [Invocation.Flag "retry-count" "3"; Invocation.Bare "x";
                Invocation.Switch "dry-run"; Invocation.Bare EmptyString;
                Invocation.Switch "verbose"] in
  Invocation.render items = ["--retry-count"; "3"; "x"; "--dry-run"; EmptyString; "--verbose"] /\
  Bash.parse_parameters Demo.shell (Invocation.render items) Demo.shell_vars
    !! "RETRY_COUNT" = Some "3" /\
  Bash.parse_parameters Demo.shell (Invocation.render items) Demo.shell_vars
    !! "DRY_RUN" = Some "true" /\
  Bash.parse_parameters Demo.shell (Invocation.render items) Demo.shell_vars
    !! "VERBOSE" = Some "true" /\
  Bash.parse_parameters Demo.shell (Invocation.render items) Demo.shell_vars
    !! "PARAM1" = Some "x" /\
  Bash.parse_parameters Demo.shell (Invocation.render items) Demo.shell_vars
    !! "PARAM2" = Some EmptyString.
Proof.
  intros items.
  assert (Hwf : Forall (Invocation.well_formed Demo.shell) items).
  { repeat constructor. }
  assert (Hclosed : Invocation.switches_closed items).
  { simpl. repeat split. }
  assert (Hord : forall i, (i < length (Invocation.bares items))%nat ->
                           Bash.ordinary Demo.shell (Invocation.param_name i) = true).
  { intros [|[|i]] Hi; [reflexivity|reflexivity|simpl in Hi; lia]. }
  destruct (C2_two_token_flags_and_positionals Demo.shell items Demo.shell_vars
              BashFacts.demo_shell_settled Hwf Hclosed Hord)
    as (Hflag & Hswitch & Hbare).
  split; [reflexivity|]. split; [|split; [|split; [|split]]].
  - apply (Hflag [] "retry-count" "3"
             [Invocation.Bare "x"; Invocation.Switch "dry-run";
              Invocation.Bare EmptyString; Invocation.Switch "verbose"]).
    + reflexivity.
    + simpl. intros Hmem. elem_cases Hmem.
    + intros [|[|i]] Hi; [discriminate|discriminate|simpl in Hi; lia].
  - apply (Hswitch [Invocation.Flag "retry-count" "3"; Invocation.Bare "x"] "dry-run"
             [Invocation.Bare EmptyString; Invocation.Switch "verbose"]).
    + reflexivity.
    + simpl. intros Hmem. elem_cases Hmem.
    + intros [|[|i]] Hi; [discriminate|discriminate|simpl in Hi; lia].
  - apply (Hswitch [Invocation.Flag "retry-count" "3"; Invocation.Bare "x";
                    Invocation.Switch "dry-run"; Invocation.Bare EmptyString]
             "verbose" []).
    + reflexivity.
    + simpl. apply not_elem_of_nil.
    + intros [|[|i]] Hi; [discriminate|discriminate|simpl in Hi; lia].
  - apply (Hbare 0%nat "x"). reflexivity.
  - apply (Hbare 1%nat EmptyString). reflexivity.
Defined.

(** C2 as stated fails twice.  The single-token form: [--retry-count=3]
    binds [RETRY_COUNT] to [3=true], because the loop takes everything
    after the two hyphens as the name.  The two-token form with an empty
    value: the flag is bound to [true]. *)
Lemma C2_single_token_and_empty_value :
  Bash.parse_parameters Demo.shell ["--retry-count=3"] Demo.shell_vars
    !! "RETRY_COUNT" = Some "3=true" /\
  Bash.parse_parameters Demo.shell ["--retry-count=3"] Demo.shell_vars
    !! "RETRY_COUNT" <> Some "3" /\
  Bash.parse_parameters Demo.shell ["--name"; EmptyString] Demo.shell_vars
    !! "NAME" = Some "true" /\
  Bash.parse_parameters Demo.shell ["--name"; EmptyString] Demo.shell_vars
    !! "NAME" <> Some EmptyString.
Proof. vm_compute. repeat split; try reflexivity; discriminate. Qed.

(** The shell's own names.  A flag named after a read-only variable binds
    nothing; after a flag that rebinds [PATH], [tr] is not found, the name
    of every later flag comes out empty and [declare] refuses it. *)
Example reserved_names_are_not_bound :
  Bash.parse_parameters Demo.shell ["--uid"; "5"] Demo.shell_vars !! "UID" = None /\
  Bash.parse_parameters Demo.shell ["--path"; "/nonexistent"; "--retry-count"; "3"]
    Demo.shell_vars !! "RETRY_COUNT" = None.
Proof. vm_compute. split; reflexivity. Qed.

(** * Further properties of the run *)

Section MoreFacts.

Context (w : World).

Lemma scripts_stage_skip args s :
  Py.nonempty (scripts_repository_url args) = false \/
  Py.nonempty (script_aliases args) = false ->
  scripts_stage w args s = (Ok tt, s).
Proof.
  unfold scripts_stage. intros [H|H]; rewrite H; [reflexivity|].
  rewrite andb_false_r. reflexivity.
Qed.

Lemma scripts_stage_unfold args s v s1 :
  Py.nonempty (scripts_repository_url args) = true ->
  Py.nonempty (script_aliases args) = true ->
  download_repository w (scripts_repository_url args) s = (Ok v, s1) ->
  scripts_stage w args s =
  if truthy v
  then for_each (Py.split_ws (script_aliases args))
         (process_alias w v (parsed_parameters w args)) s1
  else (Ok tt, s1).
Proof.
  intros Hurl Haliases Hrun.
  unfold scripts_stage, download_and_execute_scripts, parsed_parameters.
  rewrite Hurl, Haliases. simpl. unfold bind at 1. rewrite Hrun.
  destruct (truthy v); reflexivity.
Qed.

(** The events after the scripts stage hold no download and no alias run. *)
Lemma tail_events_quiet args s2 evs_post :
  (evs_post = [] \/ exists body, evs_post = [EvPost (webhook_url args) body]) ->
  forall e,
    e ∈ (if Py.nonempty (Py.strip (init_script_content args))
         then init_events w args s2 else []) ++
        [EvWrite "/tmp/user_data_complete" EmptyString] ++ evs_post ->
    (forall url, e <> EvUrlopen url) /\
    (forall alias cmd env, e <> EvRun (ForAlias alias) cmd env) /\
    (forall alias text, e <> EvWrite (script_path alias) text).
Proof.
  assert (Hpath : forall alias text p c,
            Py.startswith "/tmp/scripts/" p = false ->
            EvWrite p c <> EvWrite (script_path alias) text).
  { intros alias text p c Hp Heq. inversion Heq; subst p. discriminate. }
  intros Hpost e Hmem.
  apply elem_of_app in Hmem as [Hmem|Hmem].
  - destruct (Py.nonempty (Py.strip (init_script_content args))); [|inversion Hmem].
    unfold init_events in Hmem.
    destruct (run_result w _ _ _ _) as [[stdout stderr] code].
    elem_cases Hmem; subst; (split; [|split]); intros;
      try discriminate; apply Hpath; reflexivity.
  - apply elem_of_app in Hmem as [Hmem|Hmem].
    + elem_cases Hmem; subst; (split; [|split]); intros;
        try discriminate; apply Hpath; reflexivity.
    + destruct Hpost as [->|[body ->]]; elem_cases Hmem; subst; (split; [|split]);
        intros; discriminate.
Qed.

(** The three stages after the scripts stage, by name. *)
Lemma pipeline_tail args s s2 :
  scripts_stage w args (fresh_report w args s) = (Ok tt, s2) ->
  exists s3 s5,
    run_init_script w args s2 = (Ok tt, s3) /\
    publish_stage w args
      (log_event (EvWrite "/tmp/user_data_complete" EmptyString)
         (set_files <["/tmp/user_data_complete" := EmptyString]> s3)) = (Ok tt, s5) /\
    pipeline w args s = (Ok tt, s5).
Proof.
  intros Hstage. unfold scripts_stage, fresh_report in Hstage.
  destruct (run_init_script_spec w args s2) as (s3 & Hinit & _).
  assert (Hpub : exists s5,
    publish_stage w args
      (log_event (EvWrite "/tmp/user_data_complete" EmptyString)
         (set_files <["/tmp/user_data_complete" := EmptyString]> s3)) = (Ok tt, s5)).
  { unfold publish_stage. destruct (Py.nonempty (webhook_url args)).
    - match goal with |- context [send_status_report w args ?st] =>
        destruct (send_status_report_spec w args st) as (s5 & Hsend & _) end.
      eauto.
    - eexists. reflexivity. }
  destruct Hpub as (s5 & Hpub).
  exists s3, s5. split; [exact Hinit|]. split; [exact Hpub|].
  unfold pipeline. unfold bind at 1, now. unfold bind at 1, modify at 1.
  unfold bind at 1. rewrite Hstage.
  unfold bind at 1. rewrite Hinit.
  unfold bind at 1, write_file, modify. exact Hpub.
Qed.

(** What the run keeps of the state the scripts stage left. *)
Lemma pipeline_events args s s2 :
  scripts_stage w args (fresh_report w args s) = (Ok tt, s2) ->
  exists s5 tail,
    pipeline w args s = (Ok tt, s5) /\
    scripts (script_status_report s5) = scripts (script_status_report s2) /\
    repository_status (script_status_report s5)
      = repository_status (script_status_report s2) /\
    files s5 !! "/tmp/user_data_complete" = Some EmptyString /\
    events s5 = events s2 ++ tail /\
    (forall e, e ∈ tail ->
       (forall url, e <> EvUrlopen url) /\
       (forall alias cmd env, e <> EvRun (ForAlias alias) cmd env) /\
       (forall alias text, e <> EvWrite (script_path alias) text)) /\
    environ s5 = environ s2 /\
    (forall path,
       path <> "/tmp/user_data_complete" -> path <> "/tmp/custom_init.sh" ->
       path <> "/tmp/init_script_output.txt" ->
       files s5 !! path = files s2 !! path).
Proof.
  intros Hstage.
  destruct (pipeline_after_scripts w args s s2 Hstage)
    as (s5 & evs_post & Hpipe & _ & _ & _ & Hsc & Hrs & Hmarker & Hinit & Hpost & _).
  exists s5,
    ((if Py.nonempty (Py.strip (init_script_content args))
      then init_events w args s2 else []) ++
     [EvWrite "/tmp/user_data_complete" EmptyString] ++ evs_post).
  split; [exact Hpipe|]. split; [exact Hsc|]. split; [exact Hrs|].
  split; [exact Hmarker|]. split; [|split; [|split]].
  - destruct (Py.nonempty (Py.strip (init_script_content args)));
      destruct Hinit as (_ & Hev & _); exact Hev.
  - apply tail_events_quiet. exact Hpost.
  - destruct (pipeline_tail args s s2 Hstage) as (s3 & s5' & Hinit3 & Hpub & Hpipe').
    rewrite Hpipe in Hpipe'. inversion Hpipe'; subst s5'.
    destruct (run_init_script_spec w args s2) as (s3' & Hinit3' & _ & _ & _ & _ & Henv & _).
    rewrite Hinit3 in Hinit3'. inversion Hinit3'; subst s3'.
    unfold publish_stage in Hpub.
    destruct (Py.nonempty (webhook_url args)).
    + match type of Hpub with send_status_report w args ?st = _ =>
        destruct (send_status_report_spec w args st) as (s6 & Hsend & _ & _ & Henv6 & _) end.
      rewrite Hpub in Hsend. inversion Hsend; subst s6.
      rewrite Henv6. exact Henv.
    + inversion Hpub. exact Henv.
  - intros path Hmarker' Hinit1 Hinit2.
    destruct (Py.nonempty (Py.strip (init_script_content args)));
      destruct Hinit as (_ & _ & ->);
      rewrite lookup_insert_ne by congruence; [|reflexivity].
    unfold init_files. destruct (run_result w _ _ _ _) as [[stdout stderr] code].
    rewrite !lookup_insert_ne by congruence. reflexivity.
Qed.

End MoreFacts.

(** ** Runs with nothing to fetch *)

(** X1: when the catalog URL or the alias list is empty, the run requests
    neither the catalog nor a script and runs no alias script; the report
    has no alias record and no repository status, and the completion
    marker is still written. *)
Theorem X1_nothing_to_fetch (w : World) (args : Args) (s : State) :
  Py.nonempty (scripts_repository_url args) = false \/
  Py.nonempty (script_aliases args) = false ->
  exists s' evs,
    pipeline w args s = (Ok tt, s') /\
    scripts (script_status_report s') = ∅ /\
    repository_status (script_status_report s') = None /\
    events s' = events s ++ evs /\
    (forall url, EvUrlopen url ∉ evs) /\
    (forall alias cmd env, EvRun (ForAlias alias) cmd env ∉ evs) /\
    files s' !! "/tmp/user_data_complete" = Some EmptyString.
Proof.
  intros Hempty.
  pose proof (scripts_stage_skip w args (fresh_report w args s) Hempty) as Hstage.
  destruct (pipeline_events w args s _ Hstage)
    as (s5 & tail & Hpipe & Hsc & Hrs & Hmarker & Hev & Hquiet & _).
  exists s5, tail. split; [exact Hpipe|]. split; [exact Hsc|]. split; [exact Hrs|].
  split; [exact Hev|]. split; [|split; [|exact Hmarker]].
  - intros url Hmem. exact (proj1 (Hquiet _ Hmem) url eq_refl).
  - intros alias cmd env Hmem. exact (proj1 (proj2 (Hquiet _ Hmem)) alias cmd env eq_refl).
Qed.

Lemma X1_nothing_to_fetch_witness :
  let args := Demo.args "https://example.com/catalog.json" EmptyString "{}" "echo hi" in
  exists s' evs,
    pipeline Demo.world args Demo.boot = (Ok tt, s') /\
    scripts (script_status_report s') = ∅ /\
    repository_status (script_status_report s') = None /\
    events s' = events Demo.boot ++ evs /\
    (forall url, EvUrlopen url ∉ evs) /\
    (forall alias cmd env, EvRun (ForAlias alias) cmd env ∉ evs) /\
    files s' !! "/tmp/user_data_complete" = Some EmptyString.
Proof.
  intros args. apply (X1_nothing_to_fetch Demo.world args Demo.boot).
  right. reflexivity.
Defined.

(** ** The catalog *)

(** X2: when the request for the catalog fails, the run goes on without
    raising: the repository status is "failed", no alias gets a record, no
    script is requested or run, the catalog file is left as it was, and
    the completion marker is written. *)
Theorem X2_catalog_unreachable (w : World) (args : Args) (s : State) (msg : string) :
  Py.nonempty (scripts_repository_url args) = true ->
  Py.nonempty (script_aliases args) = true ->
  urlopen w (S (clock s)) (scripts_repository_url args) = Raise msg ->
  exists s' tail,
    pipeline w args s = (Ok tt, s') /\
    repository_status (script_status_report s') = Some "failed" /\
    scripts (script_status_report s') = ∅ /\
    events s' = events s ++ EvUrlopen (scripts_repository_url args) :: tail /\
    (forall url, EvUrlopen url ∉ tail) /\
    (forall alias cmd env, EvRun (ForAlias alias) cmd env ∉ tail) /\
    files s' !! "/tmp/scripts/repository.json"
      = files s !! "/tmp/scripts/repository.json" /\
    files s' !! "/tmp/user_data_complete" = Some EmptyString.
Proof.
  intros Hurl Haliases Hopen.
  destruct (download_repository_spec w (scripts_repository_url args) (fresh_report w args s))
    as (v & s1 & Hrun & _ & _ & Hsc1 & _ & _ & _ & Hcase).
  change (clock (fresh_report w args s)) with (S (clock s)) in Hcase.
  rewrite Hopen in Hcase. destruct Hcase as (Hfiles1 & Hev1 & -> & Hrs1).
  pose proof (scripts_stage_unfold w args _ _ _ Hurl Haliases Hrun) as Hstage.
  cbn [truthy] in Hstage.
  destruct (pipeline_events w args s _ Hstage)
    as (s5 & tail & Hpipe & Hsc & Hrs & Hmarker & Hev & Hquiet & _ & Hfiles).
  exists s5, tail. split; [exact Hpipe|].
  split; [rewrite Hrs; exact Hrs1|].
  split; [rewrite Hsc, Hsc1; reflexivity|].
  split; [rewrite Hev, Hev1, <- app_assoc; reflexivity|].
  split; [|split; [|split; [|exact Hmarker]]].
  - intros url Hmem. exact (proj1 (Hquiet _ Hmem) url eq_refl).
  - intros alias cmd env Hmem. exact (proj1 (proj2 (Hquiet _ Hmem)) alias cmd env eq_refl).
  - rewrite Hfiles by discriminate. rewrite Hfiles1. reflexivity.
Qed.

Lemma X2_catalog_unreachable_witness :
  let args := Demo.args "https://example.com/catalog.json" "first second" "{}" "echo hi" in
  exists s' tail,
    pipeline Scenario.offline args Demo.boot = (Ok tt, s') /\
    repository_status (script_status_report s') = Some "failed" /\
    scripts (script_status_report s') = ∅ /\
    events s' = events Demo.boot ++ EvUrlopen (scripts_repository_url args) :: tail /\
    (forall url, EvUrlopen url ∉ tail) /\
    (forall alias cmd env, EvRun (ForAlias alias) cmd env ∉ tail) /\
    files s' !! "/tmp/scripts/repository.json"
      = files Demo.boot !! "/tmp/scripts/repository.json" /\
    files s' !! "/tmp/user_data_complete" = Some EmptyString.
Proof.
  intros args.
  apply (X2_catalog_unreachable Scenario.offline args Demo.boot
           "<urlopen error [Errno 101] Network is unreachable>");
    reflexivity.
Defined.

Section CatalogFacts.

Context (w : World).

(** No pass of the loop touches the catalog file or the repository
    status. *)
Lemma catalog_kept_step repository script_parameters alias s s' rec evs content st :
  alias_outcome w repository script_parameters alias s s' rec evs ->
  script_status_report s' = with_record alias rec (script_status_report s) ->
  files s !! "/tmp/scripts/repository.json" = Some content /\
  repository_status (script_status_report s) = Some st ->
  files s' !! "/tmp/scripts/repository.json" = Some content /\
  repository_status (script_status_report s') = Some st.
Proof.
  intros Hout Hrep [Hfile Hst]. split.
  - rewrite (alias_outcome_files w _ _ _ _ _ _ _ _ Hout); [exact Hfile| |].
    + apply catalog_path_not_script_path.
    + apply catalog_path_not_output_path.
  - rewrite Hrep. exact Hst.
Qed.

(** The aliases with a record after the loop: those of the list and those
    that had one before. *)
Lemma loop_domain repository script_parameters aliases s :
  exists s',
    for_each aliases (process_alias w repository script_parameters) s = (Ok tt, s') /\
    forall alias,
      is_Some (scripts (script_status_report s') !! alias) <->
      alias ∈ aliases \/ is_Some (scripts (script_status_report s) !! alias).
Proof.
  revert s. induction aliases as [|a aliases IH]; intros s.
  - exists s. split; [reflexivity|]. intros alias. split; [auto|].
    intros [Hin|H]; [inversion Hin|exact H].
  - destruct (process_alias_spec w repository script_parameters a s)
      as (rec & evs & s1 & Hrun & Hrep & _ & _).
    destruct (IH s1) as (s' & Hloop & Hdom).
    exists s'. simpl for_each. unfold bind. rewrite Hrun.
    split; [exact Hloop|].
    intros alias. rewrite Hdom, Hrep. simpl.
    rewrite elem_of_cons. destruct (decide (alias = a)) as [->|Hne].
    + rewrite lookup_insert_eq. split; [auto|]. intros _. right. eauto.
    + rewrite lookup_insert_ne by congruence. tauto.
Qed.

Lemma outcome_terminal repository script_parameters alias s s' rec evs :
  alias_outcome w repository script_parameters alias s s' rec evs ->
  terminal_status rec.
Proof.
  unfold terminal_status.
  destruct 1; simpl; auto.
  unfold status_of_exit_code. destruct (decide (exit_code = 0)); auto.
Qed.

Lemma resolve_url_not_object v alias :
  (forall d, v <> PDict d) ->
  resolve_url v alias = Raise (attribute_error v "get").
Proof.
  intros Hv. unfold resolve_url.
  destruct v; try reflexivity. exfalso. exact (Hv d eq_refl).
Qed.

End CatalogFacts.

(** X3: a catalog that was downloaded stays on disk as it was received,
    whether it parses or not and whatever the alias scripts do to their
    own files; the repository status at the end of the run is "success"
    exactly when the text parsed. *)
Theorem X3_catalog_kept_on_disk (w : World) (args : Args) (s : State)
  (content : string) :
  Py.nonempty (scripts_repository_url args) = true ->
  Py.nonempty (script_aliases args) = true ->
  urlopen w (S (clock s)) (scripts_repository_url args) = Ok content ->
  exists s',
    pipeline w args s = (Ok tt, s') /\
    files s' !! "/tmp/scripts/repository.json" = Some content /\
    repository_status (script_status_report s') =
      Some (match json_loads w content with
            | Some _ => "success"
            | None => "failed"
            end).
Proof.
  intros Hurl Haliases Hopen.
  destruct (download_repository_spec w (scripts_repository_url args) (fresh_report w args s))
    as (v & s1 & Hrun & _ & _ & _ & _ & _ & _ & Hcase).
  change (clock (fresh_report w args s)) with (S (clock s)) in Hcase.
  rewrite Hopen in Hcase. destruct Hcase as (Hfiles1 & _ & Hparse).
  set (st := match json_loads w content with Some _ => "success" | None => "failed" end).
  set (I := fun x : State =>
              files x !! "/tmp/scripts/repository.json" = Some content /\
              repository_status (script_status_report x) = Some st).
  assert (HI1 : I s1).
  { split; [rewrite Hfiles1; apply lookup_insert_eq|].
    subst st. destruct (json_loads w content); destruct Hparse as [_ H]; exact H. }
  assert (Hstage : exists s2,
            scripts_stage w args (fresh_report w args s) = (Ok tt, s2) /\ I s2).
  { rewrite (scripts_stage_unfold w args _ _ _ Hurl Haliases Hrun).
    destruct (truthy v); [|eauto].
    destruct (for_each_process_inv w v (parsed_parameters w args) (fun _ => True) I
                (Py.split_ws (script_aliases args))) with (s := s1)
      as (s2 & evs & Hloop & _ & _ & HI2); [|exact HI1|eauto].
    intros alias x rec evs x' _ HI _ Hrep _ Hout.
    split; [apply Forall_forall; auto|].
    exact (catalog_kept_step w _ _ _ _ _ _ _ _ _ Hout Hrep HI). }
  destruct Hstage as (s2 & Hstage & Hfile2 & Hst2).
  destruct (pipeline_events w args s _ Hstage)
    as (s5 & tail & Hpipe & _ & Hrs & _ & _ & _ & _ & Hfiles).
  exists s5. split; [exact Hpipe|]. split.
  - rewrite Hfiles by discriminate. exact Hfile2.
  - rewrite Hrs. exact Hst2.
Qed.

Lemma X3_catalog_kept_on_disk_witness :
  let args := Demo.args "https://example.com/broken.json" "first" "{}" "echo hi" in
  exists s',
    pipeline Demo.world args Demo.boot = (Ok tt, s') /\
    files s' !! "/tmp/scripts/repository.json" = Some "<html>" /\
    repository_status (script_status_report s') =
      Some (match json_loads Demo.world "<html>" with
            | Some _ => "success"
            | None => "failed"
            end).
Proof.
  intros args.
  apply (X3_catalog_kept_on_disk Demo.world args Demo.boot "<html>"); reflexivity.
Defined.

(** ** The records of the report *)

(** X4: when the catalog parses to a value that is not empty, the report
    ends with a record for every alias of the declared list and for no
    other name, and every record has one of the statuses "success",
    "failed" and "error": no alias is left pending, and a failure of one
    alias does not stop the loop. *)
Theorem X4_one_record_per_declared_alias (w : World) (args : Args) (s : State)
  (content : string) (v : pyval) :
  Py.nonempty (scripts_repository_url args) = true ->
  Py.nonempty (script_aliases args) = true ->
  urlopen w (S (clock s)) (scripts_repository_url args) = Ok content ->
  json_loads w content = Some v ->
  truthy v = true ->
  exists s',
    pipeline w args s = (Ok tt, s') /\
    (forall alias,
       is_Some (scripts (script_status_report s') !! alias) <->
       alias ∈ Py.split_ws (script_aliases args)) /\
    (forall alias r,
       scripts (script_status_report s') !! alias = Some r -> terminal_status r).
Proof.
  intros Hurl Haliases Hopen Hjson Htruthy.
  destruct (download_repository_spec w (scripts_repository_url args) (fresh_report w args s))
    as (v' & s1 & Hrun & _ & _ & Hsc1 & _ & _ & _ & Hcase).
  change (clock (fresh_report w args s)) with (S (clock s)) in Hcase.
  rewrite Hopen in Hcase. destruct Hcase as (_ & _ & Hparse).
  rewrite Hjson in Hparse. destruct Hparse as [-> _].
  pose proof (scripts_stage_unfold w args _ _ _ Hurl Haliases Hrun) as Hstage.
  rewrite Htruthy in Hstage.
  destruct (loop_domain w v (parsed_parameters w args) (Py.split_ws (script_aliases args)) s1)
    as (s2 & Hloop & Hdom).
  set (I := fun x : State =>
              forall alias r, scripts (script_status_report x) !! alias = Some r ->
                              terminal_status r).
  assert (HI2 : I s2).
  { destruct (for_each_process_inv w v (parsed_parameters w args) (fun _ => True) I
                (Py.split_ws (script_aliases args))) with (s := s1)
      as (s2' & evs & Hloop' & _ & _ & HI2).
    - intros alias x rec evs x' _ HI _ Hrep _ Hout.
      split; [apply Forall_forall; auto|].
      intros a r. rewrite Hrep. simpl.
      destruct (decide (a = alias)) as [->|Hne].
      + rewrite lookup_insert_eq. intros [= <-].
        exact (outcome_terminal w _ _ _ _ _ _ _ Hout).
      + rewrite lookup_insert_ne by congruence. apply HI.
    - intros alias r. rewrite Hsc1. simpl. rewrite lookup_empty. discriminate.
    - rewrite Hloop in Hloop'. inversion Hloop'; subst s2'. exact HI2. }
  rewrite Hloop in Hstage.
  destruct (pipeline_events w args s _ Hstage)
    as (s5 & tail & Hpipe & Hsc & _).
  exists s5. split; [exact Hpipe|]. rewrite Hsc. split; [|exact HI2].
  intros alias. rewrite Hdom, Hsc1. simpl. rewrite lookup_empty.
  split; [intros [H|[x Hx]]; [exact H|discriminate]|auto].
Qed.

Lemma X4_one_record_per_declared_alias_witness :
  let args := Demo.args "https://example.com/catalog.json" "first missing second" "{}"
                EmptyString in
  exists s',
    pipeline Demo.world args Demo.boot = (Ok tt, s') /\
    (forall alias,
       is_Some (scripts (script_status_report s') !! alias) <->
       alias ∈ Py.split_ws (script_aliases args)) /\
    (forall alias r,
       scripts (script_status_report s') !! alias = Some r -> terminal_status r).
Proof.
  intros args.
  apply (X4_one_record_per_declared_alias Demo.world args Demo.boot
           Demo.catalog_text Demo.catalog); reflexivity.
Defined.

(** X5: a catalog that parses to something other than a JSON object (a
    list, a number, a string) and is not empty counts as downloaded: the
    repository status is "success", yet every declared alias ends with an
    "error" record that names the missing [get], and no script is
    requested, written or run. *)
Theorem X5_catalog_not_an_object (w : World) (args : Args) (s : State)
  (content : string) (v : pyval) :
  Py.nonempty (scripts_repository_url args) = true ->
  Py.nonempty (script_aliases args) = true ->
  urlopen w (S (clock s)) (scripts_repository_url args) = Ok content ->
  json_loads w content = Some v ->
  truthy v = true ->
  (forall d, v <> PDict d) ->
  exists s' tail,
    pipeline w args s = (Ok tt, s') /\
    repository_status (script_status_report s') = Some "success" /\
    events s' = events s ++
      [EvUrlopen (scripts_repository_url args);
       EvWrite "/tmp/scripts/repository.json" content] ++ tail /\
    (forall url, EvUrlopen url ∉ tail) /\
    (forall alias cmd env, EvRun (ForAlias alias) cmd env ∉ tail) /\
    (forall alias text, EvWrite (script_path alias) text ∉ tail) /\
    (forall alias,
       alias ∈ Py.split_ws (script_aliases args) ->
       exists t0 t1,
         scripts (script_status_report s') !! alias
           = Some (Errored "error" (attribute_error v "get") t0 t1)).
Proof.
  intros Hurl Haliases Hopen Hjson Htruthy Hobj.
  destruct (download_repository_spec w (scripts_repository_url args) (fresh_report w args s))
    as (v' & s1 & Hrun & _ & _ & Hsc1 & _ & _ & _ & Hcase).
  change (clock (fresh_report w args s)) with (S (clock s)) in Hcase.
  rewrite Hopen in Hcase. destruct Hcase as (_ & Hev1 & Hparse).
  rewrite Hjson in Hparse. destruct Hparse as [-> Hrs1].
  pose proof (scripts_stage_unfold w args _ _ _ Hurl Haliases Hrun) as Hstage.
  rewrite Htruthy in Hstage.
  destruct (loop_domain w v (parsed_parameters w args) (Py.split_ws (script_aliases args)) s1)
    as (s2 & Hloop & Hdom).
  set (I := fun x : State =>
              repository_status (script_status_report x) = Some "success" /\
              forall alias r, scripts (script_status_report x) !! alias = Some r ->
                exists t0 t1, r = Errored "error" (attribute_error v "get") t0 t1).
  destruct (for_each_process_inv w v (parsed_parameters w args) (fun _ => False) I
              (Py.split_ws (script_aliases args))) with (s := s1)
    as (s2' & evs & Hloop' & Hev2 & Hnone & Hrs2 & HI2).
  { intros alias x rec evs x' _ [Hrs HI] _ Hrep _ Hout.
    pose proof (resolve_url_not_object v alias Hobj) as Hres.
    assert (Hrec : evs = [] /\
                   exists t0 t1, rec = Errored "error" (attribute_error v "get") t0 t1).
    { destruct Hout; try congruence.
      split; [reflexivity|]. rewrite Hres in *.
      match goal with H : Raise _ = Raise _ |- _ => inversion H; subst end. eauto. }
    destruct Hrec as (-> & t0 & t1 & ->).
    split; [constructor|]. split; [rewrite Hrep; exact Hrs|].
    intros a r. rewrite Hrep. simpl.
    destruct (decide (a = alias)) as [->|Hne].
    - rewrite lookup_insert_eq. intros [= <-]. eauto.
    - rewrite lookup_insert_ne by congruence. apply HI. }
  { split; [exact Hrs1|]. intros alias r. rewrite Hsc1. simpl.
    rewrite lookup_empty. discriminate. }
  rewrite Hloop in Hloop'. inversion Hloop'; subst s2'.
  assert (evs = []) as ->.
  { destruct evs as [|e evs]; [reflexivity|]. inversion Hnone; contradiction. }
  rewrite app_nil_r in Hev2.
  rewrite Hloop in Hstage.
  destruct (pipeline_events w args s _ Hstage)
    as (s5 & tail & Hpipe & Hsc & Hrs & _ & Hev & Hquiet & _).
  exists s5, tail. split; [exact Hpipe|].
  split; [rewrite Hrs; exact Hrs2|].
  split; [rewrite Hev, Hev2, Hev1, <- app_assoc; reflexivity|].
  split; [intros url Hmem; exact (proj1 (Hquiet _ Hmem) url eq_refl)|].
  split; [intros alias cmd env Hmem; exact (proj1 (proj2 (Hquiet _ Hmem)) alias cmd env eq_refl)|].
  split.
  - intros alias text Hmem. exact (proj2 (proj2 (Hquiet _ Hmem)) alias text eq_refl).
  - intros alias Hin. rewrite Hsc.
    destruct (proj2 (Hdom alias) (or_introl Hin)) as [r Hr].
    destruct (HI2 alias r Hr) as (t0 & t1 & ->). eauto.
Qed.

Lemma X5_catalog_not_an_object_witness :
  let w := Scenario.list_catalog in
  let args := Demo.args "https://example.com/list.json" "first second" "{}" EmptyString in
  exists s' tail,
    pipeline w args Demo.boot = (Ok tt, s') /\
    repository_status (script_status_report s') = Some "success" /\
    events s' = events Demo.boot ++
      [EvUrlopen (scripts_repository_url args);
       EvWrite "/tmp/scripts/repository.json" "[1]"] ++ tail /\
    (forall url, EvUrlopen url ∉ tail) /\
    (forall alias cmd env, EvRun (ForAlias alias) cmd env ∉ tail) /\
    (forall alias text, EvWrite (script_path alias) text ∉ tail) /\
    (forall alias,
       alias ∈ Py.split_ws (script_aliases args) ->
       exists t0 t1,
         scripts (script_status_report s') !! alias
           = Some (Errored "error" (attribute_error (PList [PInt 1]) "get") t0 t1)).
Proof.
  intros w args.
  apply (X5_catalog_not_an_object w args Demo.boot "[1]" (PList [PInt 1]));
    try reflexivity.
  intros d. discriminate.
Defined.

(** ** One pass of the alias loop, case by case *)

(** Hypotheses on the same call are brought together. *)
Ltac same_call :=
  repeat match goal with
  | H1 : ?x = Ok _, H2 : ?x = Raise _ |- _ => rewrite H1 in H2; discriminate H2
  | H1 : ?x = Raise _, H2 : ?x = Raise _ |- _ =>
      rewrite H1 in H2; inversion H2; subst; clear H2
  | H1 : ?x = Ok _, H2 : ?x = Ok _ |- _ =>
      rewrite H1 in H2; inversion H2; subst; clear H2
  end.

Section PassFacts.

Context (w : World).

(** The pass that goes all the way: the URL resolves, the script is
    received and [os.environ] accepts every parameter. *)
Lemma process_alias_executes repository script_parameters alias u content items s :
  resolve_url repository alias = Ok (PStr u) ->
  Py.nonempty u = true ->
  urlopen w (S (clock s)) u = Ok content ->
  py_get script_parameters alias (PDict []) = Ok (PDict items) ->
  forallb (legal_binding w) items = true ->
  exists s' text stdout stderr exit_code,
    process_alias w repository script_parameters alias s = (Ok tt, s') /\
    artifact_text content = Ok text /\
    environ s' = bound_env w items (environ s) /\
    run_result w (2 + clock s) (script_path alias +:+ flag_tokens w items)
               (environ s') (<[script_path alias := text]> (files s))
      = (stdout, stderr, exit_code) /\
    files s' = <[output_path alias := output_text stdout stderr]>
                 (<[script_path alias := text]> (files s)) /\
    script_status_report s' =
      with_record alias
        (Executed (status_of_exit_code exit_code) exit_code
           (first_lines 20 (Py.translate_newlines (output_text stdout stderr)))
           (utcnow w (clock s)) (utcnow w (3 + clock s)))
        (script_status_report s) /\
    events s' = events s ++
      [EvUrlopen u; EvWrite (script_path alias) text;
       EvChmod (script_path alias) 493;
       EvRun (ForAlias alias) (script_path alias +:+ flag_tokens w items) (environ s');
       EvWrite (output_path alias) (output_text stdout stderr)].
Proof.
  intros Hres Hu Hopen Hparams Hlegal.
  cbv [process_alias bind try_except now lift ret].
  unfold resolve_url in Hres.
  destruct (py_get repository alias PNone) as [v|] eqn:Hget; [|discriminate].
  rewrite Hres. cbn [truthy]. rewrite Hu. cbn [negb].
  pose proof (download_script_spec w alias (PStr u) (advance s)) as Hdl.
  cbn [clock advance] in Hdl. rewrite Hopen in Hdl.
  destruct Hdl as (text & Htext & ->).
  rewrite Hparams.
  match goal with |- context [execute_script w alias ?f (PDict items) ?st] =>
    destruct (execute_script_spec w alias f (PDict items) st)
      as (r & s1 & Hexec & Hrep & Hr); rewrite Hexec end.
  destruct r as [[exit_code script_output]|msg].
  - destruct Hr as (items' & stdout & stderr & Heq & _ & Henv & Hrun & -> &
                    Hfiles & Hev & Hclk).
    inversion Heq; subst items'.
    simpl in Henv, Hrun, Hfiles, Hev, Hclk, Hrep.
    eexists _, text, stdout, stderr, exit_code. split; [reflexivity|]. simpl.
    rewrite Hrep, Hev, Hclk, Hfiles, Henv.
    split; [exact Htext|]. split; [reflexivity|].
    split; [rewrite <- Henv; exact Hrun|]. split; [reflexivity|].
    split; [reflexivity|]. rewrite <- !app_assoc. reflexivity.
  - exfalso. destruct Hr as (pre & _ & _ & _ & _ & _ & Hbad).
    destruct (Hbad items eq_refl) as (item & Hin & Hill).
    rewrite forallb_forall in Hlegal.
    rewrite (Hlegal item) in Hill; [discriminate|].
    apply list_elem_of_In. exact Hin.
Qed.

End PassFacts.

(** X6: when the request for an alias's script fails, the pass ends with
    an "error" record that carries the message of the failure; the request
    is the only thing the pass did: no file is written, no parameter is
    bound, nothing is run, and the loop goes on. *)
Theorem X6_script_download_fails (w : World) (repository script_parameters : pyval)
  (alias u msg : string) (s : State) :
  resolve_url repository alias = Ok (PStr u) ->
  Py.nonempty u = true ->
  urlopen w (S (clock s)) u = Raise msg ->
  exists s' t1,
    process_alias w repository script_parameters alias s = (Ok tt, s') /\
    scripts (script_status_report s') !! alias
      = Some (Errored "error" msg (utcnow w (clock s)) t1) /\
    events s' = events s ++ [EvUrlopen u] /\
    environ s' = environ s /\
    files s' = files s.
Proof.
  intros Hres Hu Hopen.
  destruct (process_alias_spec w repository script_parameters alias s)
    as (rec & evs & s' & Hrun & Hrep & Hev & Hout).
  exists s'. rewrite Hrep, Hev. simpl. rewrite lookup_insert_eq.
  destruct Hout; same_call; try (simpl in *; congruence).
  match goal with H : _ /\ _ |- _ => destruct H as [-> Hopen'] end.
  same_call. eauto 10.
Qed.

Lemma X6_script_download_fails_witness :
  let repository := PDict [("gone", PStr "https://example.com/gone.sh")] in
  exists s' t1,
    process_alias Demo.world repository (PDict []) "gone" Demo.boot = (Ok tt, s') /\
    scripts (script_status_report s') !! "gone"
      = Some (Errored "error" "HTTP Error 404: Not Found"
                (utcnow Demo.world (clock Demo.boot)) t1) /\
    events s' = events Demo.boot ++ [EvUrlopen "https://example.com/gone.sh"] /\
    environ s' = environ Demo.boot /\
    files s' = files Demo.boot.
Proof.
  intros repository.
  apply (X6_script_download_fails Demo.world repository (PDict []) "gone"
           "https://example.com/gone.sh" "HTTP Error 404: Not Found" Demo.boot);
    reflexivity.
Defined.

(** X7: when the artifact cannot be started at all, the pass does not end
    with an "error" record: [run_command] turns the failure into exit code
    1 with the message as standard error, so the record is an executed one
    with status "failed", and the message is in the STDERR section of the
    output file. *)
Theorem X7_launch_failure_is_exit_code_1 (w : World)
  (repository script_parameters : pyval) (alias u content msg : string)
  (items : list (string * pyval)) (s : State) :
  resolve_url repository alias = Ok (PStr u) ->
  Py.nonempty u = true ->
  urlopen w (S (clock s)) u = Ok content ->
  py_get script_parameters alias (PDict []) = Ok (PDict items) ->
  forallb (legal_binding w) items = true ->
  (forall cmd env fs, subprocess_run w (2 + clock s) cmd env fs = Raise msg) ->
  Py.nonempty msg = true ->
  exists s',
    process_alias w repository script_parameters alias s = (Ok tt, s') /\
    scripts (script_status_report s') !! alias
      = Some (Executed "failed" 1
                (first_lines 20
                   (Py.translate_newlines
                      (String Py.nl (String Py.nl ("STDERR:" +:+ String Py.nl msg)))))
                (utcnow w (clock s)) (utcnow w (3 + clock s))) /\
    files s' !! output_path alias
      = Some (String Py.nl (String Py.nl ("STDERR:" +:+ String Py.nl msg))) /\
    EvRun (ForAlias alias) (script_path alias +:+ flag_tokens w items) (environ s')
      ∈ events s'.
Proof.
  intros Hres Hu Hopen Hparams Hlegal Hstart Hmsg.
  destruct (process_alias_executes w repository script_parameters alias u content items s
              Hres Hu Hopen Hparams Hlegal)
    as (s' & text & stdout & stderr & exit_code & Hrun & _ & _ & Hresult & Hfiles &
        Hrep & Hev).
  unfold run_result in Hresult. rewrite Hstart in Hresult.
  inversion Hresult; subst stdout stderr exit_code.
  exists s'. split; [exact Hrun|].
  rewrite Hrep, Hfiles, Hev. unfold output_text. rewrite Hmsg. simpl.
  rewrite !lookup_insert_eq.
  split; [reflexivity|]. split; [reflexivity|].
  apply elem_of_app. right. set_solver.
Qed.

Lemma X7_launch_failure_is_exit_code_1_witness :
  let w := Scenario.cannot_start in
  exists s',
    process_alias w Demo.catalog Demo.parameters "first" Demo.boot = (Ok tt, s') /\
    scripts (script_status_report s') !! "first"
      = Some (Executed "failed" 1
                (first_lines 20
                   (Py.translate_newlines
                      (String Py.nl (String Py.nl
                         ("STDERR:" +:+ String Py.nl "[Errno 8] Exec format error")))))
                (utcnow w (clock Demo.boot)) (utcnow w (3 + clock Demo.boot))) /\
    files s' !! output_path "first"
      = Some (String Py.nl (String Py.nl
                ("STDERR:" +:+ String Py.nl "[Errno 8] Exec format error"))) /\
    EvRun (ForAlias "first")
          (script_path "first" +:+ flag_tokens w [("FOO", PInt 1)]) (environ s')
      ∈ events s'.
Proof.
  intros w.
  apply (X7_launch_failure_is_exit_code_1 w Demo.catalog Demo.parameters "first"
           "https://example.com/first.sh" "echo first" "[Errno 8] Exec format error"
           [("FOO", PInt 1)] Demo.boot); try reflexivity.
Defined.

Lemma convert_github_url_not_string (v r : pyval) :
  (forall u, v <> PStr u) ->
  convert_github_url v = Ok r -> r = v.
Proof.
  intros Hv. unfold convert_github_url.
  destruct (negb (truthy v)); [congruence|].
  destruct (py_in "github.com" v) as [[]|]; try congruence.
  destruct (py_in "raw.githubusercontent.com" v) as [[]|]; try congruence.
  destruct v; try congruence; exfalso; eapply Hv; reflexivity.
Qed.

(** X8: a catalog entry that is not a string (a number, a list, an
    object, [null], a boolean) never leads to a request: the pass ends
    with an "error" record and has done nothing else, whether the value
    is taken for a missing URL or trips the GitHub check or the download. *)
Theorem X8_entry_not_a_string (w : World) (d : list (string * pyval))
  (script_parameters v : pyval) (alias : string) (s : State) :
  assoc alias d = Some v ->
  (forall u, v <> PStr u) ->
  exists s' msg t0 t1,
    process_alias w (PDict d) script_parameters alias s = (Ok tt, s') /\
    scripts (script_status_report s') !! alias = Some (Errored "error" msg t0 t1) /\
    events s' = events s /\
    environ s' = environ s /\
    files s' = files s.
Proof.
  intros Hentry Hv.
  assert (Hres : forall r, resolve_url (PDict d) alias = Ok r -> r = v).
  { intros r. unfold resolve_url. simpl. rewrite Hentry. simpl.
    apply convert_github_url_not_string. exact Hv. }
  destruct (process_alias_spec w (PDict d) script_parameters alias s)
    as (rec & evs & s' & Hrun & Hrep & Hev & Hout).
  exists s'. rewrite Hrep, Hev. simpl. rewrite lookup_insert_eq.
  destruct Hout as [url Hurl| |url msg evs t1 Hurl _ Hevs| |];
    try (exfalso;
         match goal with H : resolve_url _ _ = Ok (PStr ?u) |- _ =>
           exact (Hv u (eq_sym (Hres _ H))) end).
  - rewrite app_nil_r. eauto 10.
  - rewrite app_nil_r. eauto 10.
  - rewrite (Hres _ Hurl) in Hevs.
    destruct v; try (subst evs; rewrite app_nil_r; eauto 10).
    exfalso. exact (Hv s0 eq_refl).
Qed.

Lemma X8_entry_not_a_string_witness :
  let d := [("first", PList [PStr "https://github.com/u/r/blob/main/x.sh"])] in
  exists s' msg t0 t1,
    process_alias Demo.world (PDict d) (PDict []) "first" Demo.boot = (Ok tt, s') /\
    scripts (script_status_report s') !! "first" = Some (Errored "error" msg t0 t1) /\
    events s' = events Demo.boot /\
    environ s' = environ Demo.boot /\
    files s' = files Demo.boot.
Proof.
  intros d.
  apply (X8_entry_not_a_string Demo.world d (PDict [])
           (PList [PStr "https://github.com/u/r/blob/main/x.sh"]) "first" Demo.boot).
  - reflexivity.
  - intros u. discriminate.
Defined.

(** ** Parameters that are missing or malformed *)

Section ParameterFacts.

Context (w : World).

(** A pass for an alias without parameters runs the bare artifact and
    leaves [os.environ] alone. *)
Lemma bare_step repository script_parameters alias s s' rec evs env0 :
  py_get script_parameters alias (PDict []) = Ok (PDict []) ->
  alias_outcome w repository script_parameters alias s s' rec evs ->
  environ s = env0 ->
  Forall (fun e => forall a cmd env,
            e = EvRun (ForAlias a) cmd env -> cmd = script_path a /\ env = env0) evs /\
  environ s' = env0.
Proof.
  intros Hget Hout Henv.
  destruct Hout as [url Hres Htr Henv' Hfiles
                   |msg Hres Henv' Hfiles
                   |url msg evs t1 Hres Htr Hevs Henv' Hfiles
                   |u content text msg pre t1 Hres Hopen Htext Hpre Henv' Hfiles
                   |u content text items stdout stderr exit_code Hres Hopen Htext
                      Hparams Hlegal Henv' Hrunres Hfiles].
  - split; [constructor|congruence].
  - split; [constructor|congruence].
  - split; [|congruence].
    destruct url; try (subst evs; constructor).
    destruct Hevs as [-> _]. constructor; [discriminate|constructor].
  - assert (pre = []) as ->.
    { destruct Hpre as [->|(items & post & Hget' & Hsplit)]; [reflexivity|].
      subst items. rewrite Hget in Hget'. inversion Hget' as [Hnil].
      symmetry in Hnil. apply app_eq_nil in Hnil as [-> _]. reflexivity. }
    simpl in Henv'. split; [|congruence].
    repeat (constructor; [discriminate|]). constructor.
  - rewrite Hget in Hparams. inversion Hparams; subst items.
    simpl in Henv'. simpl flag_tokens. rewrite app_empty_r.
    split; [|congruence].
    repeat (constructor; [discriminate|]).
    constructor; [|constructor; [discriminate|constructor]].
    intros a cmd env [= <- <- <-]. split; congruence.
Qed.

Lemma parsed_parameters_not_json args alias :
  json_loads w (script_parameters args) = None ->
  py_get (parsed_parameters w args) alias (PDict []) = Ok (PDict []).
Proof. unfold parsed_parameters. intros ->. reflexivity. Qed.

(** In a list of legal parameters followed by one [os.environ] refuses,
    the loop binds the legal ones and raises. *)
Lemma bind_parameters_stops pre bad post acc s :
  forallb (legal_binding w) pre = true ->
  legal_binding w bad = false ->
  exists msg s',
    bind_parameters w (pre ++ bad :: post) acc s = (Raise msg, s') /\
    environ s' = bound_env w pre (environ s) /\
    script_status_report s' = script_status_report s /\
    files s' = files s /\ events s' = events s /\ clock s' = clock s.
Proof.
  revert acc s. induction pre as [|[n v] pre IH]; intros acc s Hpre Hbad.
  - destruct bad as [n v]. destruct (environ_setitem_illegal w n v s Hbad) as [msg Hmsg].
    exists msg, s. simpl. unfold bind. rewrite Hmsg. repeat split; reflexivity.
  - simpl in Hpre. apply andb_prop in Hpre as [Hnv Hpre].
    destruct (IH (acc +:+ flag_token w n v) (set_environ <[n := py_str w v]> s) Hpre Hbad)
      as (msg & s' & Hrun & Henv & Hrep & Hfiles & Hev & Hclk).
    exists msg, s'. simpl. unfold bind at 1.
    rewrite (environ_setitem_legal w _ _ _ Hnv), Hrun.
    repeat split; assumption.
Qed.

End ParameterFacts.

(** X9: when the parameter text is not JSON (the code then works with an
    empty map), or when the map has nothing for any declared alias, every
    alias script is run with the bare path of its artifact as the command,
    and [os.environ] is never touched: every alias run sees the
    environment the run started with, and so does the end of the run. *)
Theorem X9_no_parameters_bare_command (w : World) (args : Args) (s : State) :
  (json_loads w (script_parameters args) = None \/
   forall alias,
     alias ∈ Py.split_ws (script_aliases args) ->
     py_get (parsed_parameters w args) alias (PDict []) = Ok (PDict [])) ->
  exists s' evs,
    pipeline w args s = (Ok tt, s') /\
    events s' = events s ++ evs /\
    environ s' = environ s /\
    forall alias cmd env,
      EvRun (ForAlias alias) cmd env ∈ evs ->
      cmd = script_path alias /\ env = environ s.
Proof.
  intros Hnone.
  assert (Hget : forall alias,
            alias ∈ Py.split_ws (script_aliases args) ->
            py_get (parsed_parameters w args) alias (PDict []) = Ok (PDict [])).
  { destruct Hnone as [Hjson|Hget]; [|exact Hget].
    intros alias _. apply parsed_parameters_not_json. exact Hjson. }
  set (P := fun e : Event => forall a cmd env,
              e = EvRun (ForAlias a) cmd env -> cmd = script_path a /\ env = environ s).
  assert (Hstage : exists s2 evs2,
            scripts_stage w args (fresh_report w args s) = (Ok tt, s2) /\
            events s2 = events s ++ evs2 /\ Forall P evs2 /\ environ s2 = environ s).
  { destruct (Py.nonempty (scripts_repository_url args)) eqn:Hurl.
    2:{ exists (fresh_report w args s), [].
        rewrite scripts_stage_skip by auto. rewrite app_nil_r. repeat split. constructor. }
    destruct (Py.nonempty (script_aliases args)) eqn:Haliases.
    2:{ exists (fresh_report w args s), [].
        rewrite scripts_stage_skip by auto. rewrite app_nil_r. repeat split. constructor. }
    destruct (download_repository_spec w (scripts_repository_url args)
                (fresh_report w args s))
      as (v & s1 & Hrun & _ & _ & _ & _ & Henv1 & _ & Hcase).
    assert (Hev1 : exists evs1, events s1 = events s ++ evs1 /\ Forall P evs1).
    { destruct (urlopen w _ _); destruct Hcase as (_ & Hev & _);
        eexists; (split; [exact Hev|]); repeat constructor; discriminate. }
    destruct Hev1 as (evs1 & Hev1 & HP1).
    rewrite (scripts_stage_unfold w args _ _ _ Hurl Haliases Hrun).
    destruct (truthy v); [|exists s1, evs1; repeat split; assumption].
    destruct (for_each_process_inv w v (parsed_parameters w args) P
                (fun x => environ x = environ s)
                (Py.split_ws (script_aliases args))) with (s := s1)
      as (s2 & evs & Hloop & Hev & HP & Henv2); [|exact Henv1|].
    - intros alias x rec evs x' Hin Hx _ _ _ Hout.
      exact (bare_step w _ _ _ _ _ _ _ _ (Hget alias Hin) Hout Hx).
    - exists s2, (evs1 ++ evs). split; [exact Hloop|].
      split; [rewrite Hev, Hev1, app_assoc; reflexivity|].
      split; [apply Forall_app; auto|exact Henv2]. }
  destruct Hstage as (s2 & evs2 & Hstage & Hev2 & HP2 & Henv2).
  destruct (pipeline_events w args s _ Hstage)
    as (s5 & tail & Hpipe & _ & _ & _ & Hev & Hquiet & Henv & _).
  exists s5, (evs2 ++ tail). split; [exact Hpipe|].
  split; [rewrite Hev, Hev2, app_assoc; reflexivity|].
  split; [rewrite Henv; exact Henv2|].
  intros alias cmd env Hmem. apply elem_of_app in Hmem as [Hmem|Hmem].
  - rewrite Forall_forall in HP2. exact (HP2 _ Hmem alias cmd env eq_refl).
  - exfalso. exact (proj1 (proj2 (Hquiet _ Hmem)) alias cmd env eq_refl).
Qed.

Lemma X9_no_parameters_bare_command_witness :
  let args := Demo.args "https://example.com/catalog.json" "first second"
                "FOO=1" EmptyString in
  exists s' evs,
    pipeline Demo.world args Demo.boot = (Ok tt, s') /\
    events s' = events Demo.boot ++ evs /\
    environ s' = environ Demo.boot /\
    forall alias cmd env,
      EvRun (ForAlias alias) cmd env ∈ evs ->
      cmd = script_path alias /\ env = environ Demo.boot.
Proof.
  intros args. apply (X9_no_parameters_bare_command Demo.world args Demo.boot).
  left. reflexivity.
Defined.

(** X10: when the parameter map is not an object, or its entry for the
    alias is not one, the pass fails after the download: the artifact is
    on disk and executable, but it is never run, no parameter is bound,
    and the record is an "error" one. *)
Theorem X10_parameters_not_an_object (w : World)
  (repository script_parameters : pyval) (alias u content : string) (s : State) :
  resolve_url repository alias = Ok (PStr u) ->
  Py.nonempty u = true ->
  urlopen w (S (clock s)) u = Ok content ->
  (forall items, py_get script_parameters alias (PDict []) <> Ok (PDict items)) ->
  exists s' text msg t1,
    process_alias w repository script_parameters alias s = (Ok tt, s') /\
    artifact_text content = Ok text /\
    scripts (script_status_report s') !! alias
      = Some (Errored "error" msg (utcnow w (clock s)) t1) /\
    events s' = events s ++
      [EvUrlopen u; EvWrite (script_path alias) text; EvChmod (script_path alias) 493] /\
    environ s' = environ s /\
    files s' = <[script_path alias := text]> (files s).
Proof.
  intros Hres Hu Hopen Hparams.
  destruct (process_alias_spec w repository script_parameters alias s)
    as (rec & evs & s' & Hrun & Hrep & Hev & Hout).
  exists s'. rewrite Hrep, Hev. simpl. rewrite lookup_insert_eq.
  destruct Hout; same_call; try (simpl in *; congruence).
  - match goal with H : _ /\ _ |- _ => destruct H as [_ Hopen'] end. same_call.
  - match goal with H : _ \/ _ |- _ =>
      destruct H as [->|(items & post & Hget & _)] end;
      [|exfalso; exact (Hparams _ Hget)].
    simpl in *. eauto 12.
Qed.

Lemma X10_parameters_not_an_object_witness :
  let parameters := PDict [("first", PStr "FOO=1")] in
  exists s' text msg t1,
    process_alias Demo.world Demo.catalog parameters "first" Demo.boot = (Ok tt, s') /\
    artifact_text "echo first" = Ok text /\
    scripts (script_status_report s') !! "first"
      = Some (Errored "error" msg (utcnow Demo.world (clock Demo.boot)) t1) /\
    events s' = events Demo.boot ++
      [EvUrlopen "https://example.com/first.sh"; EvWrite (script_path "first") text;
       EvChmod (script_path "first") 493] /\
    environ s' = environ Demo.boot /\
    files s' = <[script_path "first" := text]> (files Demo.boot).
Proof.
  intros parameters.
  apply (X10_parameters_not_an_object Demo.world Demo.catalog parameters "first"
           "https://example.com/first.sh" "echo first" Demo.boot); try reflexivity.
  intros items. discriminate.
Defined.

(** X11: the binder does not undo what it did when [os.environ] refuses a
    name: the parameters before the refused one stay bound, the ones after
    it are not, and the script is not run. *)
Theorem X11_binding_stops_at_refused_name (w : World) (alias script_file : string)
  (pre post : list (string * pyval)) (bad : string * pyval) (s : State) :
  forallb (legal_binding w) pre = true ->
  legal_binding w bad = false ->
  exists msg s',
    execute_script w alias script_file (PDict (pre ++ bad :: post)) s = (Raise msg, s') /\
    environ s' = bound_env w pre (environ s) /\
    events s' = events s /\
    files s' = files s.
Proof.
  intros Hpre Hbad.
  destruct (bind_parameters_stops w pre bad post EmptyString s Hpre Hbad)
    as (msg & s' & Hrun & Henv & _ & Hfiles & Hev & _).
  exists msg, s'. unfold execute_script. unfold bind at 1, ret at 1.
  unfold bind at 1. rewrite Hrun. auto.
Qed.

Lemma X11_binding_stops_at_refused_name_witness :
  exists msg s',
    execute_script Demo.world "first" (script_path "first")
      (PDict ([("FOO", PInt 1)] ++ (EmptyString, PInt 2) :: [("BAR", PInt 3)])) Demo.boot
      = (Raise msg, s') /\
    environ s' = bound_env Demo.world [("FOO", PInt 1)] (environ Demo.boot) /\
    events s' = events Demo.boot /\
    files s' = files Demo.boot.
Proof.
  apply (X11_binding_stops_at_refused_name Demo.world "first" (script_path "first")
           [("FOO", PInt 1)] [("BAR", PInt 3)] (EmptyString, PInt 2) Demo.boot);
    reflexivity.
Defined.

(** ** The [jq] check *)

(** X12: when [which jq] fails before and after the second installation
    attempt, the script leaves through [sys.exit(1)] after exactly five
    commands; the report is not created, no file is written (the
    completion marker included) and nothing is posted. *)
Theorem X12_jq_missing_exits_1 (w : World) (args : Args) (s : State) :
  snd (run_result w (2 + clock s) "which jq" (environ s) (files s)) <> 0 ->
  snd (run_result w (4 + clock s) "which jq" (environ s) (files s)) <> 0 ->
  exists s',
    main w args s = (SystemExit 1, s') /\
    events s' = events s ++
      [EvRun Startup "apt-get -qq update -y" (environ s);
       EvRun Startup "apt-get -qq install -y openssh-client curl wget jq" (environ s);
       EvRun Startup "which jq" (environ s);
       EvRun Startup "apt-get install -y jq" (environ s);
       EvRun Startup "which jq" (environ s)] /\
    files s' = files s /\
    script_status_report s' = script_status_report s /\
    environ s' = environ s.
Proof.
  intros Hfirst Hsecond.
  cbv [main startup bind run_command ret].
  cbn [clock environ files advance log_event].
  change (S (S (clock s))) with (2 + clock s)%nat.
  destruct (run_result w (2 + clock s) "which jq" (environ s) (files s))
    as [[out1 err1] code1].
  destruct (decide (code1 = 0)) as [Hz|_]; [contradiction|].
  cbn [clock environ files advance log_event].
  change (S (S (S (S (clock s))))) with (4 + clock s)%nat.
  destruct (run_result w (4 + clock s) "which jq" (environ s) (files s))
    as [[out2 err2] code2].
  destruct (decide (code2 = 0)) as [Hz|_]; [contradiction|].
  eexists. split; [reflexivity|]. simpl.
  rewrite <- !app_assoc. repeat split; reflexivity.
Qed.

Lemma X12_jq_missing_exits_1_witness :
  let args := Demo.args "https://example.com/catalog.json" "first" "{}" "echo hi" in
  exists s',
    main Scenario.failing args Demo.boot = (SystemExit 1, s') /\
    events s' = events Demo.boot ++
      [EvRun Startup "apt-get -qq update -y" (environ Demo.boot);
       EvRun Startup "apt-get -qq install -y openssh-client curl wget jq"
         (environ Demo.boot);
       EvRun Startup "which jq" (environ Demo.boot);
       EvRun Startup "apt-get install -y jq" (environ Demo.boot);
       EvRun Startup "which jq" (environ Demo.boot)] /\
    files s' = files Demo.boot /\
    script_status_report s' = script_status_report Demo.boot /\
    environ s' = environ Demo.boot.
Proof.
  intros args.
  apply (X12_jq_missing_exits_1 Scenario.failing args Demo.boot); discriminate.
Defined.

(** X13: when [which jq] succeeds at the first check, or at the second
    one, the script goes on whatever the package commands answered: it
    ends normally, the run after the check is [pipeline] from the state
    the check left, and the completion marker is written. *)
Theorem X13_jq_found_run_completes (w : World) (args : Args) (s : State) :
  snd (run_result w (2 + clock s) "which jq" (environ s) (files s)) = 0 \/
  snd (run_result w (4 + clock s) "which jq" (environ s) (files s)) = 0 ->
  exists s1 s',
    startup w s = (Ok None, s1) /\
    pipeline w args s1 = (Ok tt, s') /\
    main w args s = (Completed, s') /\
    files s' !! "/tmp/user_data_complete" = Some EmptyString.
Proof.
  intros Hfound.
  assert (Hstart : exists s1, startup w s = (Ok None, s1)).
  { cbv [startup bind run_command ret].
    cbn [clock environ files advance log_event].
    change (S (S (clock s))) with (2 + clock s)%nat.
    destruct (run_result w (2 + clock s) "which jq" (environ s) (files s))
      as [[out1 err1] code1].
    destruct (decide (code1 = 0)) as [_|Hnz]; [eauto|].
    cbn [clock environ files advance log_event].
    change (S (S (S (S (clock s))))) with (4 + clock s)%nat.
    destruct (run_result w (4 + clock s) "which jq" (environ s) (files s))
      as [[out2 err2] code2].
    destruct (decide (code2 = 0)) as [_|Hnz2]; [eauto|].
    simpl in Hfound. destruct Hfound; contradiction. }
  destruct Hstart as (s1 & Hstart).
  destruct (scripts_stage_inv w (fun _ => True) (fun _ => True) args)
    with (s := fresh_report w args s1) as (s2 & evs & Hstage & _); auto.
  { intros. split; [apply Forall_forall|]; auto. }
  destruct (pipeline_events w args s1 _ Hstage) as (s5 & tail & Hpipe & _ & _ & Hmarker & _).
  exists s1, s5. split; [exact Hstart|]. split; [exact Hpipe|].
  split; [|exact Hmarker].
  unfold main. rewrite Hstart, Hpipe. reflexivity.
Qed.

Lemma X13_jq_found_run_completes_witness :
  let args := Demo.args "https://example.com/catalog.json" "first" "{}" "echo hi" in
  exists s1 s',
    startup Demo.world Demo.boot = (Ok None, s1) /\
    pipeline Demo.world args s1 = (Ok tt, s') /\
    main Demo.world args Demo.boot = (Completed, s') /\
    files s' !! "/tmp/user_data_complete" = Some EmptyString.
Proof.
  intros args. apply (X13_jq_found_run_completes Demo.world args Demo.boot).
  left. reflexivity.
Defined.

(** ** The publisher *)

Section PublisherFacts.

Context (w : World).

(** With a token, the publisher posts once: the report as it stands, with
    the three identity fields. *)
Lemma send_status_report_posts args s token :
  Py.nonempty (webhook_url args) = true ->
  imds_token w (clock s) = Ok token ->
  exists s',
    send_status_report w args s = (Ok tt, s') /\
    script_status_report s' = script_status_report s /\
    files s' = files s /\ environ s' = environ s /\
    events s' = events s ++
      [EvPost (webhook_url args)
         (json_dumps w
            (mkFinal (script_status_report s)
               (metadata_or_sentinel w (1 + clock s) "instance-id" token)
               (metadata_or_sentinel w (2 + clock s) "local-ipv4" token)
               (metadata_or_sentinel w (3 + clock s) "public-ipv4" token)))].
Proof.
  intros Hhook Htoken. unfold send_status_report. rewrite Hhook. cbn [negb].
  cbv [try_except bind get_instance_metadata gets ret]. rewrite Htoken.
  cbn [clock script_status_report advance log_event].
  match goal with |- context [http_post w ?t ?u ?b] =>
    destruct (http_post w t u b) as [resp|msg] end;
    (eexists; split; [reflexivity|]; simpl; repeat split; reflexivity).
Qed.

(** Without a token, nothing is posted. *)
Lemma send_status_report_silent args s msg :
  imds_token w (clock s) = Raise msg ->
  exists s',
    send_status_report w args s = (Ok tt, s') /\
    script_status_report s' = script_status_report s /\
    files s' = files s /\ environ s' = environ s /\ events s' = events s.
Proof.
  intros Htoken. unfold send_status_report.
  destruct (Py.nonempty (webhook_url args)); cbn [negb].
  2:{ exists s. repeat split; reflexivity. }
  cbv [try_except bind get_instance_metadata gets ret]. rewrite Htoken.
  eexists. split; [reflexivity|]. simpl. repeat split; reflexivity.
Qed.

(** No pass of the loop posts, writes the init script or runs it. *)
Lemma outcome_events repository script_parameters alias s s' rec evs :
  alias_outcome w repository script_parameters alias s s' rec evs ->
  Forall (fun e =>
            (forall url body, e <> EvPost url body) /\
            (forall cmd env, e <> EvRun ForInit cmd env) /\
            (forall text, e <> EvWrite "/tmp/custom_init.sh" text)) evs.
Proof.
  assert (Hsp : forall a text text', EvWrite (script_path a) text
                                     <> EvWrite "/tmp/custom_init.sh" text').
  { intros a text text' Heq. inversion Heq. }
  assert (Hop : forall a text text', EvWrite (output_path a) text
                                     <> EvWrite "/tmp/custom_init.sh" text').
  { intros a text text' Heq. inversion Heq. }
  assert (Hquiet : forall e,
            (forall url body, e <> EvPost url body) ->
            (forall cmd env, e <> EvRun ForInit cmd env) ->
            (forall text, e <> EvWrite "/tmp/custom_init.sh" text) ->
            (forall url body, e <> EvPost url body) /\
            (forall cmd env, e <> EvRun ForInit cmd env) /\
            (forall text, e <> EvWrite "/tmp/custom_init.sh" text)) by auto.
  destruct 1 as [| |url msg evs t1 Hres Htr Hevs| |].
  - apply List.Forall_nil.
  - apply List.Forall_nil.
  - destruct url; try (subst evs; apply List.Forall_nil).
    destruct Hevs as [-> _].
    apply List.Forall_cons; [|apply List.Forall_nil].
    apply Hquiet; intros; discriminate.
  - repeat (apply List.Forall_cons;
            [apply Hquiet; intros; try discriminate; apply Hsp|]).
    apply List.Forall_nil.
  - repeat (apply List.Forall_cons;
            [apply Hquiet; intros; try discriminate; first [apply Hsp|apply Hop]|]).
    apply List.Forall_nil.
Qed.

(** The scripts stage with the events it never logs. *)
Lemma scripts_stage_events args s :
  exists s2 evs,
    scripts_stage w args s = (Ok tt, s2) /\
    events s2 = events s ++ evs /\
    init_script (script_status_report s2) = init_script (script_status_report s) /\
    files s2 !! "/tmp/custom_init.sh" = files s !! "/tmp/custom_init.sh" /\
    Forall (fun e =>
              (forall url body, e <> EvPost url body) /\
              (forall cmd env, e <> EvRun ForInit cmd env) /\
              (forall text, e <> EvWrite "/tmp/custom_init.sh" text)) evs.
Proof.
  destruct (scripts_stage_inv w
              (fun e =>
                 (forall url body, e <> EvPost url body) /\
                 (forall cmd env, e <> EvRun ForInit cmd env) /\
                 (forall text, e <> EvWrite "/tmp/custom_init.sh" text))
              (fun x =>
                 init_script (script_status_report x) = init_script (script_status_report s) /\
                 files x !! "/tmp/custom_init.sh" = files s !! "/tmp/custom_init.sh")
              args) with (s := s) as (s2 & evs & Hstage & Hev & HP & HI1 & HI2).
  - intros url. repeat split; intros; discriminate.
  - intros content. repeat split; intros; discriminate.
  - intros x v x' [Hi Hf] Hrun.
    destruct (download_repository_spec w (scripts_repository_url args) x)
      as (v' & x'' & Hrun' & _ & _ & _ & Hi' & _ & _ & Hcase).
    rewrite Hrun in Hrun'. inversion Hrun'; subst v' x''.
    split; [congruence|].
    destruct (urlopen w (clock x) (scripts_repository_url args)).
    + destruct Hcase as (-> & _). rewrite lookup_insert_ne by discriminate. exact Hf.
    + destruct Hcase as (-> & _). exact Hf.
  - intros repository script_parameters alias x rec evs x' [Hi Hf] _ Hrep _ Hout.
    split; [exact (outcome_events _ _ _ _ _ _ _ Hout)|].
    split; [rewrite Hrep; exact Hi|].
    rewrite (alias_outcome_files w _ _ _ _ _ _ _ _ Hout); [exact Hf| |].
    + unfold script_path. simpl. discriminate.
    + unfold output_path. simpl. discriminate.
  - split; reflexivity.
  - exists s2, evs. repeat split; assumption.
Qed.

End PublisherFacts.

(** X14: with a webhook and a metadata token, the run posts exactly once,
    to the webhook, as its very last action, right after the completion
    marker is written; the body is the final report (every alias record
    and the init-script record are in it) with the three identity fields,
    each the value read or its placeholder.  This holds whatever the
    webhook answers, a failure included. *)
Theorem X14_report_posted_last (w : World) (args : Args) (s : State) (token : string) :
  Py.nonempty (webhook_url args) = true ->
  (forall t, imds_token w t = Ok token) ->
  exists s' before t,
    pipeline w args s = (Ok tt, s') /\
    events s' = events s ++ before ++
      [EvWrite "/tmp/user_data_complete" EmptyString;
       EvPost (webhook_url args)
         (json_dumps w
            (mkFinal (script_status_report s')
               (metadata_or_sentinel w (1 + t) "instance-id" token)
               (metadata_or_sentinel w (2 + t) "local-ipv4" token)
               (metadata_or_sentinel w (3 + t) "public-ipv4" token)))] /\
    (forall url body, EvPost url body ∉ before).
Proof.
  intros Hhook Htoken.
  destruct (scripts_stage_events w args (fresh_report w args s))
    as (s2 & evs2 & Hstage & Hev2 & _ & _ & HP2).
  destruct (pipeline_tail w args s s2 Hstage) as (s3 & s5 & Hinit & Hpub & Hpipe).
  destruct (run_init_script_spec w args s2)
    as (s3' & Hinit' & _ & _ & _ & _ & _ & Hrest).
  rewrite Hinit in Hinit'. inversion Hinit'; subst s3'.
  unfold publish_stage in Hpub. rewrite Hhook in Hpub.
  match type of Hpub with send_status_report w args ?st = _ =>
    destruct (send_status_report_posts w args st token Hhook (Htoken _))
      as (s5' & Hsend & Hrep & _ & _ & Hev5) end.
  rewrite Hpub in Hsend. inversion Hsend; subst s5'.
  exists s5,
    (evs2 ++ (if Py.nonempty (Py.strip (init_script_content args))
              then init_events w args s2 else [])),
    (clock s3).
  split; [exact Hpipe|]. split.
  - rewrite Hev5, Hrep. simpl.
    assert (Hev3 : events s3 = events s2 ++
                     (if Py.nonempty (Py.strip (init_script_content args))
                      then init_events w args s2 else [])).
    { destruct (Py.nonempty (Py.strip (init_script_content args)));
        destruct Hrest as (-> & _); [reflexivity|rewrite app_nil_r; reflexivity]. }
    rewrite Hev3, Hev2. change (events (fresh_report w args s)) with (events s).
    rewrite <- !app_assoc. reflexivity.
  - intros url body Hmem. apply elem_of_app in Hmem as [Hmem|Hmem].
    + rewrite Forall_forall in HP2. exact (proj1 (HP2 _ Hmem) url body eq_refl).
    + destruct (Py.nonempty (Py.strip (init_script_content args))); [|inversion Hmem].
      unfold init_events in Hmem.
      destruct (run_result w _ _ _ _) as [[stdout stderr] code].
      elem_cases Hmem; discriminate.
Qed.

Lemma X14_report_posted_last_witness :
  let w := Scenario.no_metadata in
  let args := Scenario.args_with_webhook "echo hi" "https://example.com/hook" in
  exists s' before t,
    pipeline w args Demo.boot = (Ok tt, s') /\
    events s' = events Demo.boot ++ before ++
      [EvWrite "/tmp/user_data_complete" EmptyString;
       EvPost (webhook_url args)
         (json_dumps w
            (mkFinal (script_status_report s')
               (metadata_or_sentinel w (1 + t) "instance-id" "token")
               (metadata_or_sentinel w (2 + t) "local-ipv4" "token")
               (metadata_or_sentinel w (3 + t) "public-ipv4" "token")))] /\
    (forall url body, EvPost url body ∉ before).
Proof.
  intros w args.
  apply (X14_report_posted_last w args Demo.boot "token"); reflexivity.
Defined.

(** X15: without a webhook, or when the metadata token cannot be
    obtained, nothing is posted at all: the report is lost without an
    error, and the run still ends normally with the completion marker
    written. *)
Theorem X15_no_token_nothing_posted (w : World) (args : Args) (s : State) :
  (Py.nonempty (webhook_url args) = false \/
   forall t, exists msg, imds_token w t = Raise msg) ->
  exists s' evs,
    pipeline w args s = (Ok tt, s') /\
    events s' = events s ++ evs /\
    (forall url body, EvPost url body ∉ evs) /\
    files s' !! "/tmp/user_data_complete" = Some EmptyString.
Proof.
  intros Hquiet.
  destruct (scripts_stage_events w args (fresh_report w args s))
    as (s2 & evs2 & Hstage & Hev2 & _ & _ & HP2).
  destruct (pipeline_tail w args s s2 Hstage) as (s3 & s5 & Hinit & Hpub & Hpipe).
  destruct (run_init_script_spec w args s2)
    as (s3' & Hinit' & _ & _ & _ & _ & _ & Hrest).
  rewrite Hinit in Hinit'. inversion Hinit'; subst s3'.
  assert (Hs5 : events s5 = events s3 ++ [EvWrite "/tmp/user_data_complete" EmptyString] /\
                files s5 = <["/tmp/user_data_complete" := EmptyString]> (files s3)).
  { unfold publish_stage in Hpub.
    destruct (Py.nonempty (webhook_url args)) eqn:Hhook.
    - destruct Hquiet as [Hno|Htoken]; [discriminate|].
      match type of Hpub with send_status_report w args ?st = _ =>
        destruct (Htoken (clock st)) as [msg Hmsg];
        destruct (send_status_report_silent w args st msg Hmsg)
          as (s5' & Hsend & _ & Hfiles & _ & Hev) end.
      rewrite Hpub in Hsend. inversion Hsend; subst s5'.
      rewrite Hev, Hfiles. split; reflexivity.
    - inversion Hpub. split; reflexivity. }
  destruct Hs5 as [Hev5 Hfiles5].
  exists s5,
    (evs2 ++ (if Py.nonempty (Py.strip (init_script_content args))
              then init_events w args s2 else []) ++
     [EvWrite "/tmp/user_data_complete" EmptyString]).
  split; [exact Hpipe|]. split; [|split].
  - assert (Hev3 : events s3 = events s2 ++
                     (if Py.nonempty (Py.strip (init_script_content args))
                      then init_events w args s2 else [])).
    { destruct (Py.nonempty (Py.strip (init_script_content args)));
        destruct Hrest as (-> & _); [reflexivity|rewrite app_nil_r; reflexivity]. }
    rewrite Hev5, Hev3, Hev2. change (events (fresh_report w args s)) with (events s).
    rewrite <- !app_assoc. reflexivity.
  - intros url body Hmem. apply elem_of_app in Hmem as [Hmem|Hmem].
    + rewrite Forall_forall in HP2. exact (proj1 (HP2 _ Hmem) url body eq_refl).
    + apply elem_of_app in Hmem as [Hmem|Hmem]; [|elem_cases Hmem; discriminate].
      destruct (Py.nonempty (Py.strip (init_script_content args))); [|inversion Hmem].
      unfold init_events in Hmem.
      destruct (run_result w _ _ _ _) as [[stdout stderr] code].
      elem_cases Hmem; discriminate.
  - rewrite Hfiles5. apply lookup_insert_eq.
Qed.

Lemma X15_no_token_nothing_posted_witness :
  let args := Scenario.args_with_webhook "echo hi" "https://example.com/hook" in
  exists s' evs,
    pipeline Scenario.offline args Demo.boot = (Ok tt, s') /\
    events s' = events Demo.boot ++ evs /\
    (forall url body, EvPost url body ∉ evs) /\
    files s' !! "/tmp/user_data_complete" = Some EmptyString.
Proof.
  intros args. apply (X15_no_token_nothing_posted Scenario.offline args Demo.boot).
  right. intros t. exists "<urlopen error timed out>". reflexivity.
Defined.

(** ** A blank init script *)

(** X16: an init script that is empty or holds only white space is not
    an init script: the run writes no [/tmp/custom_init.sh], runs nothing
    for it, and the report has no [init_script] entry. *)
Theorem X16_blank_init_script_skipped (w : World) (args : Args) (s : State) :
  Py.nonempty (Py.strip (init_script_content args)) = false ->
  exists s' evs,
    pipeline w args s = (Ok tt, s') /\
    events s' = events s ++ evs /\
    init_script (script_status_report s') = None /\
    (forall cmd env, EvRun ForInit cmd env ∉ evs) /\
    (forall text, EvWrite "/tmp/custom_init.sh" text ∉ evs) /\
    files s' !! "/tmp/custom_init.sh" = files s !! "/tmp/custom_init.sh".
Proof.
  intros Hblank.
  destruct (scripts_stage_events w args (fresh_report w args s))
    as (s2 & evs2 & Hstage & Hev2 & Hinit2 & Hfile2 & HP2).
  destruct (pipeline_after_scripts w args s s2 Hstage)
    as (s5 & evs_post & Hpipe & _ & _ & _ & _ & _ & _ & Hinit & Hpost & _).
  rewrite Hblank in Hinit. destruct Hinit as (Hinit5 & Hev5 & Hfiles5).
  exists s5, (evs2 ++ [EvWrite "/tmp/user_data_complete" EmptyString] ++ evs_post).
  split; [exact Hpipe|].
  split; [rewrite Hev5, Hev2, <- app_assoc; reflexivity|].
  split; [rewrite Hinit5, Hinit2; reflexivity|].
  rewrite Forall_forall in HP2.
  split; [|split].
  - intros cmd env Hmem. apply elem_of_app in Hmem as [Hmem|Hmem].
    + exact (proj1 (proj2 (HP2 _ Hmem)) cmd env eq_refl).
    + destruct Hpost as [->|[body ->]]; simpl in Hmem; elem_cases Hmem; discriminate.
  - intros text Hmem. apply elem_of_app in Hmem as [Hmem|Hmem].
    + exact (proj2 (proj2 (HP2 _ Hmem)) text eq_refl).
    + destruct Hpost as [->|[body ->]]; simpl in Hmem; elem_cases Hmem; discriminate.
  - rewrite Hfiles5, lookup_insert_ne by discriminate. exact Hfile2.
Qed.

Lemma X16_blank_init_script_skipped_witness :
  let args := Demo.args "https://example.com/catalog.json" "first" "{}"
                (String " " (String Py.nl (String "009" EmptyString))) in
  exists s' evs,
    pipeline Demo.world args Demo.boot = (Ok tt, s') /\
    events s' = events Demo.boot ++ evs /\
    init_script (script_status_report s') = None /\
    (forall cmd env, EvRun ForInit cmd env ∉ evs) /\
    (forall text, EvWrite "/tmp/custom_init.sh" text ∉ evs) /\
    files s' !! "/tmp/custom_init.sh" = files Demo.boot !! "/tmp/custom_init.sh".
Proof.
  intros args. apply (X16_blank_init_script_skipped Demo.world args Demo.boot).
  reflexivity.
Defined.

(** ** What is run was just written *)

Section PreparedFacts.

Context (w : World).

Lemma runs_prepared_quiet evs :
  (forall alias cmd env, EvRun (ForAlias alias) cmd env ∉ evs) -> runs_prepared evs.
Proof.
  intros Hquiet pre alias cmd env post ->. exfalso.
  apply (Hquiet alias cmd env). apply elem_of_app. right. left.
Qed.

Lemma runs_prepared_app evs1 evs2 :
  runs_prepared evs1 -> runs_prepared evs2 -> runs_prepared (evs1 ++ evs2).
Proof.
  intros H1 H2 pre alias cmd env post Heq.
  apply app_eq_inv in Heq as [(k & -> & Hk)|(k & -> & ->)].
  - destruct k as [|e k].
    + simpl in Hk. subst evs2.
      destruct (H2 [] alias cmd env post eq_refl) as (before & text & Hnil).
      destruct before; discriminate.
    + simpl in Hk. injection Hk as <- ->.
      exact (H1 pre alias cmd env k eq_refl).
  - destruct (H2 k alias cmd env post eq_refl) as (before & text & ->).
    exists (evs1 ++ before), text. rewrite app_assoc. reflexivity.
Qed.

Lemma outcome_prepared repository script_parameters alias s s' rec evs :
  alias_outcome w repository script_parameters alias s s' rec evs ->
  runs_prepared evs.
Proof.
  destruct 1 as [| |url msg evs t1 Hres Htr Hevs| |].
  - apply runs_prepared_quiet. intros a cmd env Hmem. inversion Hmem.
  - apply runs_prepared_quiet. intros a cmd env Hmem. inversion Hmem.
  - apply runs_prepared_quiet. intros a cmd env Hmem.
    destruct url; try (subst evs; inversion Hmem).
    destruct Hevs as [-> _]. elem_cases Hmem.
  - apply runs_prepared_quiet. intros a cmd env Hmem. elem_cases Hmem.
  - intros pre a cmd env post Heq.
    destruct pre as [|e1 [|e2 [|e3 [|e4 pre]]]]; simpl in Heq;
      try (inversion Heq; fail).
    + inversion Heq; subst. eexists [_], text. reflexivity.
    + injection Heq as _ _ _ _ Hrest.
      destruct pre; simpl in Hrest; inversion Hrest.
      destruct pre; discriminate.
Qed.

Lemma loop_prepared repository script_parameters aliases s :
  exists s' evs,
    for_each aliases (process_alias w repository script_parameters) s = (Ok tt, s') /\
    events s' = events s ++ evs /\ runs_prepared evs.
Proof.
  revert s. induction aliases as [|a aliases IH]; intros s.
  - exists s, []. rewrite app_nil_r. split; [reflexivity|]. split; [reflexivity|].
    apply runs_prepared_quiet. intros alias cmd env Hmem. inversion Hmem.
  - destruct (process_alias_spec w repository script_parameters a s)
      as (rec & evs & s1 & Hrun & _ & Hev & Hout).
    destruct (IH s1) as (s' & evs' & Hloop & Hev' & Hprep).
    exists s', (evs ++ evs'). simpl for_each. unfold bind. rewrite Hrun.
    split; [exact Hloop|]. split; [rewrite Hev', Hev, app_assoc; reflexivity|].
    apply runs_prepared_app; [exact (outcome_prepared _ _ _ _ _ _ _ Hout)|exact Hprep].
Qed.

End PreparedFacts.

(** A second run of the same command after a single write is not
    prepared: the second occurrence comes right after the first run. *)
Example replayed_run_is_not_prepared :
  ~ runs_prepared
      [EvWrite (script_path "first") "echo 1"; EvChmod (script_path "first") 493;
       EvRun (ForAlias "first") (script_path "first") ∅;
       EvRun (ForAlias "first") (script_path "first") ∅].
Proof.
  intros Hprep.
  destruct (Hprep [EvWrite (script_path "first") "echo 1";
                   EvChmod (script_path "first") 493;
                   EvRun (ForAlias "first") (script_path "first") ∅]
              "first" (script_path "first") ∅ [] eq_refl) as (before & text & Heq).
  destruct before as [|e1 [|e2 [|e3 before]]]; simpl in Heq; try discriminate.
  injection Heq as _ _ _ Hrest. destruct before; discriminate.
Qed.

(** X17: in the events of a whole run, every occurrence of a run of an
    alias script comes right after a write of that alias's artifact and
    the [chmod] that makes it executable, each run with a write of its own:
    an artifact left by an earlier pass or an earlier boot is never what
    gets run, and no artifact is run twice on one write. *)
Theorem X17_alias_run_follows_its_write (w : World) (args : Args) (s : State) :
  exists s' evs,
    pipeline w args s = (Ok tt, s') /\
    events s' = events s ++ evs /\
    runs_prepared evs.
Proof.
  assert (Hstage : exists s2 evs2,
            scripts_stage w args (fresh_report w args s) = (Ok tt, s2) /\
            events s2 = events s ++ evs2 /\ runs_prepared evs2).
  { destruct (Py.nonempty (scripts_repository_url args)) eqn:Hurl.
    2:{ exists (fresh_report w args s), [].
        rewrite scripts_stage_skip by auto. rewrite app_nil_r.
        split; [reflexivity|]. split; [reflexivity|].
        apply runs_prepared_quiet. intros alias cmd env Hmem. inversion Hmem. }
    destruct (Py.nonempty (script_aliases args)) eqn:Haliases.
    2:{ exists (fresh_report w args s), [].
        rewrite scripts_stage_skip by auto. rewrite app_nil_r.
        split; [reflexivity|]. split; [reflexivity|].
        apply runs_prepared_quiet. intros alias cmd env Hmem. inversion Hmem. }
    destruct (download_repository_spec w (scripts_repository_url args)
                (fresh_report w args s))
      as (v & s1 & Hrun & _ & _ & _ & _ & _ & _ & Hcase).
    assert (Hev1 : exists evs1, events s1 = events s ++ evs1 /\ runs_prepared evs1).
    { destruct (urlopen w _ _); destruct Hcase as (_ & Hev & _);
        eexists; (split; [exact Hev|]);
        apply runs_prepared_quiet; intros alias cmd env Hmem; elem_cases Hmem. }
    destruct Hev1 as (evs1 & Hev1 & Hprep1).
    rewrite (scripts_stage_unfold w args _ _ _ Hurl Haliases Hrun).
    destruct (truthy v); [|exists s1, evs1; repeat split; assumption].
    destruct (loop_prepared w v (parsed_parameters w args)
                (Py.split_ws (script_aliases args)) s1)
      as (s2 & evs & Hloop & Hev & Hprep).
    exists s2, (evs1 ++ evs). split; [exact Hloop|].
    split; [rewrite Hev, Hev1, app_assoc; reflexivity|].
    apply runs_prepared_app; assumption. }
  destruct Hstage as (s2 & evs2 & Hstage & Hev2 & Hprep2).
  destruct (pipeline_events w args s _ Hstage)
    as (s5 & tail & Hpipe & _ & _ & _ & Hev & Hquiet & _).
  exists s5, (evs2 ++ tail). split; [exact Hpipe|].
  split; [rewrite Hev, Hev2, app_assoc; reflexivity|].
  apply runs_prepared_app; [exact Hprep2|].
  apply runs_prepared_quiet. intros alias cmd env Hmem.
  exact (proj1 (proj2 (Hquiet _ Hmem)) alias cmd env eq_refl).
Qed.

(** ** Output that fits *)

(** X18: an output of at most 20 lines is reported whole: the text of the
    report is the text of the output file, read back with its line
    endings normalised, and the file holds the output as it was
    produced. *)
Theorem X18_short_output_reported_whole (path stdout stderr : string) (s : State) :
  (length (Py.readlines (Py.translate_newlines (output_text stdout stderr))) <= 20)%nat ->
  exists s',
    capture_output path stdout stderr s
      = (Ok (Py.translate_newlines (output_text stdout stderr)), s') /\
    files s' !! path = Some (output_text stdout stderr).
Proof.
  intros Hshort. rewrite capture_output_spec. eexists. split.
  - unfold first_lines. rewrite take_ge by exact Hshort.
    rewrite join_readlines. reflexivity.
  - simpl. apply lookup_insert_eq.
Qed.

Lemma X18_short_output_reported_whole_witness :
  exists s',
    capture_output "/tmp/scripts/first_output.txt"
      ("one" +:+ String Py.cr (String Py.nl "two")) "oops" Demo.boot
      = (Ok (Py.translate_newlines
               (output_text ("one" +:+ String Py.cr (String Py.nl "two")) "oops")), s') /\
    files s' !! "/tmp/scripts/first_output.txt"
      = Some (output_text ("one" +:+ String Py.cr (String Py.nl "two")) "oops").
Proof.
  apply (X18_short_output_reported_whole "/tmp/scripts/first_output.txt"
           ("one" +:+ String Py.cr (String Py.nl "two")) "oops" Demo.boot).
  vm_compute. lia.
Defined.

(** ** The GitHub rewrite on a page address *)

Lemma contains_app_r (p a b : string) : Py.contains p (a +:+ p +:+ b) = true.
Proof.
  induction a as [|c a IH].
  - rewrite app_empty_l. pose proof (startswith_self_app p b) as Hstart.
    destruct (p +:+ b); cbn [Py.contains]; rewrite Hstart; reflexivity.
  - change (String c a +:+ p +:+ b) with (String c (a +:+ p +:+ b)).
    cbn [Py.contains]. rewrite IH. apply orb_true_r.
Qed.

(** X19: a GitHub page address in which [github.com] occurs once,
    [/blob/] occurs once after the host is replaced, and the raw host does
    not occur, is rewritten to the raw address of the same file: the host
    is replaced and the [/blob] segment dropped, and everything else is
    kept. *)
Theorem X19_github_page_to_raw (pre mid rest : string) :
  Py.contains "github.com" (pre +:+ "github.co") = false ->
  Py.contains "github.com" (mid +:+ "/blob/" +:+ rest) = false ->
  Py.contains "/blob/" ((pre +:+ "raw.githubusercontent.com" +:+ mid) +:+ "/blob") = false ->
  Py.contains "/blob/" rest = false ->
  Py.contains "raw.githubusercontent.com"
    (pre +:+ "github.com" +:+ mid +:+ "/blob/" +:+ rest) = false ->
  convert_github_url (PStr (pre +:+ "github.com" +:+ mid +:+ "/blob/" +:+ rest))
    = Ok (PStr (pre +:+ "raw.githubusercontent.com" +:+ mid +:+ "/" +:+ rest)).
Proof.
  intros Hpre Hmid Hblob Hrest Hraw.
  unfold convert_github_url.
  assert (Hne : truthy (PStr (pre +:+ "github.com" +:+ mid +:+ "/blob/" +:+ rest)) = true).
  { destruct pre; reflexivity. }
  rewrite Hne. cbn [negb py_in].
  rewrite contains_app_r, Hraw.
  rewrite (github_to_raw_page pre mid rest Hpre Hmid Hblob Hrest). reflexivity.
Qed.

Lemma X19_github_page_to_raw_witness :
  convert_github_url
    (PStr ("https://" +:+ "github.com" +:+ "/acme/boot" +:+ "/blob/" +:+ "main/setup.sh"))
    = Ok (PStr ("https://" +:+ "raw.githubusercontent.com" +:+ "/acme/boot" +:+ "/" +:+
                "main/setup.sh")).
Proof.
  apply (X19_github_page_to_raw "https://" "/acme/boot" "main/setup.sh"); reflexivity.
Defined.

(** ** Flags as the binder writes them *)

Section FlagFacts.

Import Bash.

(** On a character of a name, the binder's hyphens and the preamble's
    underscores cancel out. *)
Lemma kebab_round_trip_char c :
  is_name_char c = true ->
  Py.upper_char
    ((fun x => if decide (x = "-"%char) then "_"%char else x)
       ((fun x => if decide (x = "_"%char) then "-"%char else x) (Py.lower_char c)))
  = Py.upper_char c /\
  is_name_char (Py.upper_char c) = true /\
  (is_name_start c = true -> is_name_start (Py.upper_char c) = true).
Proof.
  destruct c as [[] [] [] [] [] [] [] []]; vm_compute; intros H;
    first [discriminate H | repeat split; auto].
Qed.

Lemma kebab_round_trip_chars n :
  all_chars is_name_char n = true ->
  Py.map_chars Py.upper_char
    (Py.map_chars (fun x => if decide (x = "-"%char) then "_"%char else x)
       (Py.map_chars (fun x => if decide (x = "_"%char) then "-"%char else x)
          (Py.map_chars Py.lower_char n)))
  = Py.map_chars Py.upper_char n /\
  all_chars is_name_char (Py.map_chars Py.upper_char n) = true.
Proof.
  induction n as [|c n IH]; [split; reflexivity|].
  cbn [all_chars Py.map_chars]. intros H. apply andb_prop in H as [Hc Hn].
  destruct (kebab_round_trip_char c Hc) as (Heq & Hup & _).
  destruct (IH Hn) as [IHeq IHup].
  split; [rewrite Heq, IHeq; reflexivity|rewrite Hup, IHup; reflexivity].
Qed.

(** The preamble's name for the binder's flag name. *)
Lemma shell_upper_kebab n :
  valid_identifier n = true ->
  shell_upper (param_name_kebab n) = Py.map_chars Py.upper_char n /\
  valid_identifier (Py.map_chars Py.upper_char n) = true.
Proof.
  intros Hn. pose proof (BashFacts.valid_identifier_chars n Hn) as Hchars.
  unfold shell_upper, param_name_kebab, Py.lower. rewrite !BashFacts.replace_char.
  destruct (kebab_round_trip_chars n Hchars) as [-> Hup]. split; [reflexivity|].
  destruct n as [|c n]; [discriminate|].
  cbn [valid_identifier Py.map_chars all_chars] in *.
  apply andb_prop in Hn as [Hstart _]. apply andb_prop in Hchars as [Hc _].
  apply andb_prop in Hup as [_ Hrest].
  destruct (kebab_round_trip_char c Hc) as (_ & _ & Hs).
  rewrite (Hs Hstart), Hrest. reflexivity.
Qed.

(** The word [declare] gets for the single token [--name=value]: the
    whole text after the hyphens is the flag's name, and [declare] cuts
    the word at its first equals sign. *)
Lemma single_token_declare sh name value vars :
  valid_identifier (shell_upper name) = true ->
  ordinary sh (shell_upper name) = true ->
  declare_g sh (Invocation.flag_variable (name +:+ "=" +:+ value)) "true" vars
  = <[shell_upper name := drop_trailing_nl (shell_upper value) +:+ "=true"]> vars.
Proof.
  intros Hname Hord.
  assert (Hnorm : Invocation.flag_variable (name +:+ "=" +:+ value)
                  = shell_upper name +:+ "=" +:+ drop_trailing_nl (shell_upper value)).
  { unfold Invocation.flag_variable.
    change (Py.map_chars Py.upper_char (Py.replace "-" "_" (name +:+ "=" +:+ value)))
      with (shell_upper (name +:+ "=" +:+ value)).
    rewrite !BashFacts.shell_upper_app.
    change (shell_upper "=") with "=".
    change ("=" +:+ shell_upper value) with (String "=" (shell_upper value)).
    rewrite BashFacts.drop_trailing_nl_app by discriminate. reflexivity. }
  rewrite Hnorm. unfold declare_g.
  rewrite !app_assoc'.
  rewrite BashFacts.cut_assignment_name
    by (apply BashFacts.valid_identifier_chars; exact Hname).
  rewrite Hname, Hord. reflexivity.
Qed.

End FlagFacts.

(** X20: the flag name the binder derives from a parameter name (lower
    case, underscores to hyphens) leads the preamble back to the upper
    case of that name.  For a parameter whose name is an identifier and
    whose upper-case name is an ordinary variable, the argument
    [--<derived name>=value] makes the preamble bind the upper-case name,
    and it binds it to the value in upper case followed by [=true]. *)
Theorem X20_flag_name_round_trip (sh : Bash.Shell) (n value : string)
  (vars : gmap string string) :
  Bash.settled sh vars ->
  Bash.valid_identifier n = true ->
  Bash.ordinary sh (Py.map_chars Py.upper_char n) = true ->
  Bash.parse_parameters sh ["--" +:+ param_name_kebab n +:+ "=" +:+ value] vars
    !! Py.map_chars Py.upper_char n
  = Some (Bash.drop_trailing_nl (shell_upper value) +:+ "=true").
Proof.
  intros Hset Hn Hord.
  destruct (shell_upper_kebab n Hn) as [Heq Hvalid].
  unfold Bash.parse_parameters. cbn [Bash.parse_loop].
  change (Py.startswith "--" ("--" +:+ param_name_kebab n +:+ "=" +:+ value)) with true.
  cbn iota.
  change (Bash.strip_dashes ("--" +:+ param_name_kebab n +:+ "=" +:+ value))
    with (param_name_kebab n +:+ "=" +:+ value).
  rewrite (BashFacts.pipeline_name sh _ _ (BashFacts.settled_at_pipeline sh vars _ _ _ Hset)).
  rewrite single_token_declare by (rewrite Heq; assumption).
  rewrite Heq. cbn [Bash.bind_positionals]. apply lookup_insert_eq.
Qed.

Lemma X20_flag_name_round_trip_witness :
  Bash.parse_parameters Demo.shell
    ["--" +:+ param_name_kebab "Retry_Count2" +:+ "=" +:+ "3"] Demo.shell_vars
    !! Py.map_chars Py.upper_char "Retry_Count2"
  = Some (Bash.drop_trailing_nl (shell_upper "3") +:+ "=true").
Proof.
  apply (X20_flag_name_round_trip Demo.shell "Retry_Count2" "3" Demo.shell_vars).
  - exact BashFacts.demo_shell_settled.
  - reflexivity.
  - reflexivity.
Defined.

(** X21: with [tr] at work, a flag given as the single token
    [--name=value] is taken by the preamble as a flag without a value
    whose name is everything after the two hyphens: when the name part
    gives an identifier that is an ordinary variable, that variable ends
    up bound to the value in upper case, hyphens turned to underscores,
    followed by [=true]. *)
Theorem X21_single_token_flag (sh : Bash.Shell) (name value : string)
  (vars : gmap string string) :
  Bash.settled sh vars ->
  Bash.valid_identifier (shell_upper name) = true ->
  Bash.ordinary sh (shell_upper name) = true ->
  Bash.parse_parameters sh ["--" +:+ name +:+ "=" +:+ value] vars !! shell_upper name
    = Some (Bash.drop_trailing_nl (shell_upper value) +:+ "=true").
Proof.
  intros Hset Hname Hord.
  unfold Bash.parse_parameters. cbn [Bash.parse_loop].
  change (Py.startswith "--" ("--" +:+ name +:+ "=" +:+ value)) with true.
  cbn iota.
  change (Bash.strip_dashes ("--" +:+ name +:+ "=" +:+ value))
    with (name +:+ "=" +:+ value).
  rewrite (BashFacts.pipeline_name sh _ _ (BashFacts.settled_at_pipeline sh vars _ _ _ Hset)).
  rewrite (single_token_declare sh name value _ Hname Hord).
  cbn [Bash.bind_positionals]. apply lookup_insert_eq.
Qed.

Lemma X21_single_token_flag_witness :
  Bash.parse_parameters Demo.shell
    ["--" +:+ "repo-url" +:+ "=" +:+ "https://host/a-b"] Demo.shell_vars
    !! shell_upper "repo-url"
  = Some (Bash.drop_trailing_nl (shell_upper "https://host/a-b") +:+ "=true").
Proof.
  apply (X21_single_token_flag Demo.shell "repo-url" "https://host/a-b" Demo.shell_vars).
  - exact BashFacts.demo_shell_settled.
  - reflexivity.
  - reflexivity.
Defined.

(** ** The arguments and the report's header *)

(** X23: the header of the report is set once, before anything is
    fetched: at the end of the run the timestamp is still the time the
    report was created and the instance name is the [--instance-name]
    argument, whatever the stages in between did. *)
Theorem X23_report_header_is_kept (w : World) (args : Args) (s : State) :
  exists s',
    pipeline w args s = (Ok tt, s') /\
    timestamp (script_status_report s') = utcnow w (clock s) /\
    instance_name (script_status_report s') = arg_instance_name args.
Proof.
  destruct (scripts_stage_inv w (fun _ => True)
              (fun x =>
                 timestamp (script_status_report x) = utcnow w (clock s) /\
                 instance_name (script_status_report x) = arg_instance_name args)
              args) with (s := fresh_report w args s)
    as (s2 & evs & Hstage & _ & _ & Hts & Hname); auto.
  - intros x v x' [Hts Hname] Hrun.
    destruct (download_repository_spec w (scripts_repository_url args) x)
      as (v' & x'' & Hrun' & Hts' & Hname' & _).
    rewrite Hrun in Hrun'. inversion Hrun'; subst v' x''.
    split; congruence.
  - intros repository script_parameters alias x rec evs x' [Hts Hname] _ Hrep _ _.
    split; [apply Forall_forall; auto|]. rewrite Hrep. split; assumption.
  - destruct (pipeline_after_scripts w args s s2 Hstage)
      as (s5 & evs_post & Hpipe & _ & Hts5 & Hname5 & _).
    exists s5. split; [exact Hpipe|]. split; congruence.
Qed.

(** ** Artifacts of the aliases that were run *)

Section ArtifactFacts.

Context (w : World).

Lemma artifacts_kept_step repository script_parameters b s s' rec evs :
  alias_outcome w repository script_parameters b s s' rec evs ->
  script_status_report s' = with_record b rec (script_status_report s) ->
  artifacts_kept s -> artifacts_kept s'.
Proof.
  intros Hout Hrep Hkept alias st code out t0 t1. rewrite Hrep. simpl.
  destruct (decide (alias = b)) as [->|Hne].
  - rewrite lookup_insert_eq. intros Hrec.
    destruct Hout as [| | | |u content text items stdout stderr exit_code
                             Hres Hopen Htext Hparams Hlegal Henv Hrun Hfiles];
      try discriminate Hrec.
    exists content, text. split; [exact Htext|].
    rewrite Hfiles.
    rewrite lookup_insert_ne by apply output_path_not_script_path.
    apply lookup_insert_eq.
  - rewrite lookup_insert_ne by congruence. intros Hrec.
    destruct (Hkept _ _ _ _ _ _ Hrec) as (content & text & Htext & Hfile).
    exists content, text. split; [exact Htext|].
    rewrite (alias_outcome_files w _ _ _ _ _ _ _ _ Hout); [exact Hfile| |].
    + intros Heq. apply script_path_inj in Heq. contradiction.
    + intros Heq. symmetry in Heq. exact (output_path_not_script_path _ _ Heq).
Qed.

End ArtifactFacts.

(** X24: at the end of every run, each alias the report shows as executed
    has its artifact on disk, in the staged form (preamble and script
    body): neither a later pass for another alias, nor an output file, nor
    the init script or the completion marker overwrites it. *)
Theorem X24_executed_alias_keeps_its_artifact (w : World) (args : Args) (s : State) :
  exists s',
    pipeline w args s = (Ok tt, s') /\
    forall alias st code out t0 t1,
      scripts (script_status_report s') !! alias = Some (Executed st code out t0 t1) ->
      artifact_staged (files s') alias.
Proof.
  destruct (scripts_stage_inv w (fun _ => True) artifacts_kept args)
    with (s := fresh_report w args s) as (s2 & evs & Hstage & _ & _ & Hkept); auto.
  - intros x v x' Hx Hrun alias st code out t0 t1.
    destruct (download_repository_spec w (scripts_repository_url args) x)
      as (v' & x'' & Hrun' & _ & _ & Hsc & _ & _ & _ & Hcase).
    rewrite Hrun in Hrun'. inversion Hrun'; subst v' x''.
    rewrite Hsc. intros Hrec.
    destruct (Hx _ _ _ _ _ _ Hrec) as (content & text & Htext & Hfile).
    exists content, text. split; [exact Htext|].
    destruct (urlopen w (clock x) (scripts_repository_url args));
      destruct Hcase as (-> & _); [|exact Hfile].
    rewrite lookup_insert_ne by apply catalog_path_not_script_path. exact Hfile.
  - intros repository script_parameters alias x rec evs x' Hx _ Hrep _ Hout.
    split; [apply Forall_forall; auto|].
    exact (artifacts_kept_step w _ _ _ _ _ _ _ Hout Hrep Hx).
  - intros alias st code out t0 t1 Hrec. inversion Hrec.
  - destruct (pipeline_events w args s _ Hstage)
      as (s5 & tail & Hpipe & Hsc & _ & _ & _ & _ & _ & Hfiles).
    exists s5. split; [exact Hpipe|].
    intros alias st code out t0 t1. rewrite Hsc. intros Hrec.
    destruct (Hkept _ _ _ _ _ _ Hrec) as (content & text & Htext & Hfile).
    exists content, text. split; [exact Htext|].
    rewrite Hfiles; [exact Hfile| | |]; unfold script_path; simpl; discriminate.
Qed.

(** X25: a catalog that parses to a value Python takes for false (an
    empty object or list, null, zero, false, an empty string) counts as
    downloaded but stops the stage: the repository status is "success",
    no alias gets a record, and no script is requested or run. *)
Theorem X25_empty_catalog_stops_the_stage (w : World) (args : Args) (s : State)
  (content : string) (v : pyval) :
  Py.nonempty (scripts_repository_url args) = true ->
  Py.nonempty (script_aliases args) = true ->
  urlopen w (S (clock s)) (scripts_repository_url args) = Ok content ->
  json_loads w content = Some v ->
  truthy v = false ->
  exists s' tail,
    pipeline w args s = (Ok tt, s') /\
    repository_status (script_status_report s') = Some "success" /\
    scripts (script_status_report s') = ∅ /\
    events s' = events s ++
      [EvUrlopen (scripts_repository_url args);
       EvWrite "/tmp/scripts/repository.json" content] ++ tail /\
    (forall url, EvUrlopen url ∉ tail) /\
    (forall alias cmd env, EvRun (ForAlias alias) cmd env ∉ tail).
Proof.
  intros Hurl Haliases Hopen Hjson Hfalsy.
  destruct (download_repository_spec w (scripts_repository_url args) (fresh_report w args s))
    as (v' & s1 & Hrun & _ & _ & Hsc1 & _ & _ & _ & Hcase).
  change (clock (fresh_report w args s)) with (S (clock s)) in Hcase.
  rewrite Hopen in Hcase. destruct Hcase as (_ & Hev1 & Hparse).
  rewrite Hjson in Hparse. destruct Hparse as [-> Hrs1].
  pose proof (scripts_stage_unfold w args _ _ _ Hurl Haliases Hrun) as Hstage.
  rewrite Hfalsy in Hstage.
  destruct (pipeline_events w args s _ Hstage)
    as (s5 & tail & Hpipe & Hsc & Hrs & _ & Hev & Hquiet & _).
  exists s5, tail. split; [exact Hpipe|].
  split; [rewrite Hrs; exact Hrs1|].
  split; [rewrite Hsc, Hsc1; reflexivity|].
  split; [rewrite Hev, Hev1, <- app_assoc; reflexivity|].
  split.
  - intros url Hmem. exact (proj1 (Hquiet _ Hmem) url eq_refl).
  - intros alias cmd env Hmem. exact (proj1 (proj2 (Hquiet _ Hmem)) alias cmd env eq_refl).
Qed.

Lemma X25_empty_catalog_stops_the_stage_witness :
  let args := Demo.args "https://example.com/empty.json" "first second" "{}" "echo hi" in
  exists s' tail,
    pipeline Demo.world args Demo.boot = (Ok tt, s') /\
    repository_status (script_status_report s') = Some "success" /\
    scripts (script_status_report s') = ∅ /\
    events s' = events Demo.boot ++
      [EvUrlopen (scripts_repository_url args);
       EvWrite "/tmp/scripts/repository.json" "{}"] ++ tail /\
    (forall url, EvUrlopen url ∉ tail) /\
    (forall alias cmd env, EvRun (ForAlias alias) cmd env ∉ tail).
Proof.
  intros args.
  apply (X25_empty_catalog_stops_the_stage Demo.world args Demo.boot "{}" (PDict []));
    reflexivity.
Defined.
